(** * sphinx-typesense: content extraction and search backends

    A shallow embedding of the indexing core of the sphinx-typesense
    extension (src/sphinx_typesense/config.py, themes.py,
    backends/typesense.py and backends/pagefind.py), of the validation of
    its configuration, of the search container of templates.py and of the
    build-finished handlers of indexer.py and __init__.py, with the
    properties its specification states about it and further properties
    of the code.

    Conventions of the embedding.
    - A Python [str] is a [string]: one [ascii] per character, so the
      characters are the code points below 256.  [str.encode()] is UTF-8.
    - A Python [int] is a [Z]; the floats of the retry schedule are the
      rationals [1], [2], [4], which binary floating point represents
      exactly, so they are modelled in [Q].
    - A [dict] with string keys is a [gmap string _].
    - Code that talks to the outside (the Typesense server, the file
      system, a subprocess) runs against a [World] record whose fields
      answer each external call, and returns either a value or a raised
      exception.
    - The calls into BeautifulSoup go through the interface [Bs4.Soup];
      the properties hold for every implementation of it, and [Dom] is one
      on which the backend computes. *)

From Stdlib Require Import ZArith NArith QArith Ascii String List Lia Bool.
From stdpp Require Import base option list gmap strings pretty.

Local Open Scope Z_scope.

(* ===================================================================== *)
(** * Python values *)
(* ===================================================================== *)

Module Py.

(** Truth value of a [str]: every string but the empty one. *)
Definition truthy (s : string) : bool := negb (String.eqb s "").

(** Truth value of an optional [str] ([None] and [""] are false). *)
Definition truthy_opt (o : option string) : bool :=
  match o with Some s => truthy s | None => false end.

(** Truth value of an optional list ([None] and [[]] are false). *)
Definition truthy_list {A} (o : option (list A)) : bool :=
  match o with Some (_ :: _) => true | _ => false end.

(** [a or b] on strings. *)
Definition or_str (a b : string) : string := if truthy a then a else b.

(** [s[:n]]. *)
Definition slice_to (n : nat) (s : string) : string := String.substring 0 n s.

(** [x in xs] for a list of strings. *)
Definition in_list (x : string) (xs : list string) : bool :=
  existsb (String.eqb x) xs.

(** [str.isspace] on one character (code points below 256). *)
Definition isspace (c : ascii) : bool :=
  let n := N_of_ascii c in
  ((9 <=? n) && (n <=? 13) || (28 <=? n) && (n <=? 32)
   || (n =? 133) || (n =? 160))%N.

(** The characters [\d] matches: the decimal digits, which below 256 are
    [0] to [9]. *)
Definition isdigit (c : ascii) : bool :=
  let n := N_of_ascii c in ((48 <=? n) && (n <=? 57))%N.

(** [str.lower] on one character, for the letters of the ASCII range (no
    other character below 256 folds to an ASCII letter). *)
Definition lower (c : ascii) : ascii :=
  let n := N_of_ascii c in
  if ((65 <=? n) && (n <=? 90))%N then ascii_of_N (n + 32) else c.

Fixpoint lower_str (s : string) : string :=
  match s with
  | EmptyString => EmptyString
  | String c s' => String (lower c) (lower_str s')
  end.

(** [str.lstrip], [str.rstrip] and [str.strip]. *)
Fixpoint lstrip (s : string) : string :=
  match s with
  | String c s' => if isspace c then lstrip s' else s
  | EmptyString => EmptyString
  end.

Definition rstrip (s : string) : string := String.rev (lstrip (String.rev s)).

Definition strip (s : string) : string := rstrip (lstrip s).

(** [needle in haystack] on strings. *)
Fixpoint contains (needle haystack : string) : bool :=
  String.prefix needle haystack
  || match haystack with
     | String _ h' => contains needle h'
     | EmptyString => false
     end.

(** The number a string of decimal digits denotes, most significant digit
    first: what [int(s)] returns when it returns ([Builtins.int] has the
    limit [int] puts on the number of digits). *)
Fixpoint int_digits (acc : Z) (s : string) : Z :=
  match s with
  | EmptyString => acc
  | String c s' => int_digits (10 * acc + (Z.of_N (N_of_ascii c) - 48)) s'
  end.

Definition int (s : string) : Z := int_digits 0 s.

(** [s.encode()]: UTF-8, one or two bytes per character below 256. *)
Fixpoint encode (s : string) : list N :=
  match s with
  | EmptyString => []
  | String c s' =>
      let n := N_of_ascii c in
      if (n <? 128)%N then n :: encode s'
      else N.lor 192 (N.shiftr n 6) :: N.lor 128 (N.land n 63) :: encode s'
  end.

End Py.

(* ===================================================================== *)
(** * hashlib.sha256 *)
(* ===================================================================== *)

(** SHA-256 (FIPS 180-4) on a list of bytes, with 32-bit words held in [N]
    and wrapped by a mask after each addition and rotation. *)
Module Sha256.

Local Open Scope N_scope.

Definition mask32 : N := 4294967295.

Definition add32 (x y : N) : N := N.land (x + y) mask32.

Definition rotr (n x : N) : N :=
  N.land (N.lor (N.shiftr x n) (N.shiftl x (32 - n))) mask32.

Definition ch (x y z : N) : N :=
  N.lxor (N.land x y) (N.land (N.lxor x mask32) z).

Definition maj (x y z : N) : N :=
  N.lxor (N.lxor (N.land x y) (N.land x z)) (N.land y z).

Definition bsig0 (x : N) : N := N.lxor (N.lxor (rotr 2 x) (rotr 13 x)) (rotr 22 x).
Definition bsig1 (x : N) : N := N.lxor (N.lxor (rotr 6 x) (rotr 11 x)) (rotr 25 x).
Definition ssig0 (x : N) : N := N.lxor (N.lxor (rotr 7 x) (rotr 18 x)) (N.shiftr x 3).
Definition ssig1 (x : N) : N := N.lxor (N.lxor (rotr 17 x) (rotr 19 x)) (N.shiftr x 10).

Definition K : list N :=
  [ 1116352408; 1899447441; 3049323471; 3921009573; 961987163; 1508970993;
    2453635748; 2870763221; 3624381080; 310598401; 607225278; 1426881987;
    1925078388; 2162078206; 2614888103; 3248222580; 3835390401; 4022224774;
    264347078; 604807628; 770255983; 1249150122; 1555081692; 1996064986;
    2554220882; 2821834349; 2952996808; 3210313671; 3336571891; 3584528711;
    113926993; 338241895; 666307205; 773529912; 1294757372; 1396182291;
    1695183700; 1986661051; 2177026350; 2456956037; 2730485921; 2820302411;
    3259730800; 3345764771; 3516065817; 3600352804; 4094571909; 275423344;
    430227734; 506948616; 659060556; 883997877; 958139571; 1322822218;
    1537002063; 1747873779; 1955562222; 2024104815; 2227730452; 2361852424;
    2428436474; 2756734187; 3204031479; 3329325298 ].

(** The eight working variables, also the chaining value. *)
Record state := State { wa : N; wb : N; wc : N; wd : N; we : N; wf : N; wg : N; wh : N }.

Definition H0 : state :=
  State 1779033703 3144134277 1013904242 2773480762
        1359893119 2600822924 528734635 1541459225.

(** Big-endian bytes of [x], [n] of them. *)
Fixpoint be_bytes (n : nat) (x : N) : list N :=
  match n with
  | O => []
  | S n' => N.land (N.shiftr x (8 * N.of_nat n')) 255 :: be_bytes n' x
  end.

(** The message followed by [0x80], zeros up to 56 modulo 64, and the bit
    length on eight bytes. *)
Definition pad (msg : list N) : list N :=
  let len := N.of_nat (length msg) in
  let zeros := (64 - (len + 9) mod 64) mod 64 in
  msg ++ [128] ++ repeat 0 (N.to_nat zeros) ++ be_bytes 8 (8 * len).

Fixpoint words (n : nat) (bs : list N) : list N :=
  match n, bs with
  | S n', b3 :: b2 :: b1 :: b0 :: bs' =>
      (N.shiftl b3 24 + N.shiftl b2 16 + N.shiftl b1 8 + b0) :: words n' bs'
  | _, _ => []
  end.

(** The message schedule: [w] holds the words so far, [n] more follow. *)
Fixpoint schedule (n : nat) (w : list N) : list N :=
  match n with
  | O => w
  | S n' =>
      let t := length w in
      let at_ (k : nat) := nth (t - k) w 0 in
      schedule n'
        (w ++ [add32 (add32 (ssig1 (at_ 2%nat)) (at_ 7%nat))
                     (add32 (ssig0 (at_ 15%nat)) (at_ 16%nat))])
  end.

Definition round (s : state) (kw : N * N) : state :=
  let t1 := add32 (add32 (add32 (wh s) (bsig1 (we s)))
                         (add32 (ch (we s) (wf s) (wg s)) (fst kw))) (snd kw) in
  let t2 := add32 (bsig0 (wa s)) (maj (wa s) (wb s) (wc s)) in
  State (add32 t1 t2) (wa s) (wb s) (wc s) (add32 (wd s) t1) (we s) (wf s) (wg s).

Definition compress (h : state) (block : list N) : state :=
  let w := schedule 48 (words 16 block) in
  let s := fold_left round (combine K w) h in
  State (add32 (wa h) (wa s)) (add32 (wb h) (wb s)) (add32 (wc h) (wc s))
        (add32 (wd h) (wd s)) (add32 (we h) (we s)) (add32 (wf h) (wf s))
        (add32 (wg h) (wg s)) (add32 (wh h) (wh s)).

(** One block of 64 bytes at a time; [n] bounds the number of blocks. *)
Fixpoint blocks (n : nat) (h : state) (bs : list N) : state :=
  match n, bs with
  | S n', _ :: _ => blocks n' (compress h (firstn 64 bs)) (skipn 64 bs)
  | _, _ => h
  end.

Definition sha256 (msg : list N) : state :=
  let padded := pad msg in
  blocks (length padded) H0 padded.

Definition hexdigits : list ascii :=
  [ "0"; "1"; "2"; "3"; "4"; "5"; "6"; "7";
    "8"; "9"; "a"; "b"; "c"; "d"; "e"; "f" ]%char.

Definition hexdigit (n : N) : ascii :=
  nth (N.to_nat (n mod 16)) hexdigits "0"%char.

Definition hex8 (w : N) (rest : string) : string :=
  String (hexdigit (N.shiftr w 28)) (String (hexdigit (N.shiftr w 24))
  (String (hexdigit (N.shiftr w 20)) (String (hexdigit (N.shiftr w 16))
  (String (hexdigit (N.shiftr w 12)) (String (hexdigit (N.shiftr w 8))
  (String (hexdigit (N.shiftr w 4)) (String (hexdigit w) rest))))))).

(** [hashlib.sha256(msg).hexdigest()]: 64 lowercase hexadecimal digits. *)
Definition hexdigest (msg : list N) : string :=
  let s := sha256 msg in
  hex8 (wa s) (hex8 (wb s) (hex8 (wc s) (hex8 (wd s)
  (hex8 (we s) (hex8 (wf s) (hex8 (wg s) (hex8 (wh s) ""))))))).

End Sha256.

(* ===================================================================== *)
(** * config.py *)
(* ===================================================================== *)

Module Config.

(** The part of Sphinx's [Config] object the indexing core reads. *)
Record Config := {
  typesense_backend : string;
  typesense_api_key : string;
  typesense_collection_name : string;
  typesense_doc_version : string;
  typesense_content_selectors : option (list string);
  typesense_drop_existing : bool;
  typesense_container : string;
  typesense_placeholder : string;
  language : option string;
  html_theme : option string;
}.

Definition DEFAULT_CONTENT_SELECTORS : list string :=
  [ ".wy-nav-content-wrap"; "article.bd-article"; ".body";
    "article[role=main]"; "main" ].

Definition ENV_API_KEY : string := "TYPESENSE_API_KEY".

Definition VALID_BACKENDS : list string := ["auto"; "typesense"; "pagefind"].

(** [os.environ] is a map from variable names to values. *)
Definition get_effective_backend (environ : gmap string string)
    (config : Config) : string :=
  let backend := typesense_backend config in
  if String.eqb backend "auto" then
    if Py.truthy (typesense_api_key config)
       || Py.truthy_opt (environ !! ENV_API_KEY)
    then "typesense"
    else "pagefind"
  else backend.

End Config.

(* ===================================================================== *)
(** * themes.py *)
(* ===================================================================== *)

Module Themes.

Definition THEME_SELECTORS : gmap string (list string) :=
  list_to_map
    [ ("sphinx_rtd_theme", [".wy-nav-content-wrap"; ".wy-nav-content"; "[role=main]"]);
      ("furo", ["article[role=main]"; ".content"]);
      ("alabaster", [".body"; ".document"]);
      ("pydata_sphinx_theme", ["article.bd-article"; "main.bd-main"; "main.bd-content"]);
      ("sphinx_book_theme", ["main#main-content"; "article"; "article.bd-article"]);
      ("shibuya", ["article.yue[role=main]"; "article[role=main]"; "main.sy-main"]) ].

Definition DEFAULT_CONTENT_SELECTORS : list string :=
  [ "article[role=main]"; "main"; ".body"; ".document"; "[role=main]" ].

Definition get_content_selectors (theme_name : option string)
    (custom_selectors : option (list string)) : list string :=
  match custom_selectors with
  | Some custom => custom
  | None =>
      match theme_name with
      | Some name =>
          if Py.truthy name then
            match THEME_SELECTORS !! name with
            | Some selectors => selectors
            | None => DEFAULT_CONTENT_SELECTORS
            end
          else DEFAULT_CONTENT_SELECTORS
      | None => DEFAULT_CONTENT_SELECTORS
      end
  end.

Definition get_content_selectors_for_app (config : Config.Config) : list string :=
  let custom_selectors := Config.typesense_content_selectors config in
  if Py.truthy_list custom_selectors then default [] custom_selectors
  else get_content_selectors (Config.html_theme config) None.

(** The search bar placement of each theme. *)
Definition SEARCH_PLACEMENT_SELECTORS : gmap string string :=
  list_to_map
    [ ("sphinx_rtd_theme", ".wy-side-nav-search");
      ("furo", ".sidebar-search-container");
      ("alabaster", ".searchbox");
      ("pydata_sphinx_theme", "nav.bd-search");
      ("sphinx_book_theme", ".search-button-field");
      ("shibuya", ".searchbox") ].

Definition DEFAULT_SEARCH_PLACEMENT : string := "#typesense-search".

Definition DEFAULT_SEARCH_CONTAINER_SELECTORS : list string :=
  [ "#typesense-search"; ".search"; ".searchbox" ].

(** The dataclass [ThemeConfig]; its tuples are lists. *)
Record ThemeConfig := {
  name : string;
  content_selectors : list string;
  search_container_selectors : list string;
  search_input_selector : option string;
}.

(** The selector [input[name=q]] with [q] between double quotes. *)
Definition INPUT_NAME_Q : string :=
  "input[name=" +:+ String (ascii_of_nat 34) "q"
  +:+ String (ascii_of_nat 34) "]".

Definition THEME_CONFIGS : gmap string ThemeConfig :=
  list_to_map
    [ ("sphinx_rtd_theme",
       {| name := "sphinx_rtd_theme";
          content_selectors :=
            [".wy-nav-content-wrap"; ".wy-nav-content"; "[role=main]"];
          search_container_selectors := [".wy-side-nav-search"];
          search_input_selector := Some INPUT_NAME_Q |});
      ("furo",
       {| name := "furo";
          content_selectors := ["article[role=main]"; ".content"];
          search_container_selectors := [".sidebar-search-container"];
          search_input_selector := Some ".search-input" |});
      ("alabaster",
       {| name := "alabaster";
          content_selectors := [".body"; ".document"];
          search_container_selectors := [".searchbox"];
          search_input_selector := Some INPUT_NAME_Q |});
      ("pydata_sphinx_theme",
       {| name := "pydata_sphinx_theme";
          content_selectors := ["article.bd-article"; "main.bd-content"];
          search_container_selectors := ["nav.bd-search"; ".bd-search"];
          search_input_selector := Some INPUT_NAME_Q |});
      ("sphinx_book_theme",
       {| name := "sphinx_book_theme";
          content_selectors := ["main#main-content"; "article.bd-article"];
          search_container_selectors := [".search-button-field"];
          search_input_selector := Some INPUT_NAME_Q |});
      ("shibuya",
       {| name := "shibuya";
          content_selectors :=
            ["article.yue[role=main]"; "article[role=main]"; "main.sy-main"];
          search_container_selectors := [".searchbox"];
          search_input_selector := Some INPUT_NAME_Q |}) ].

Definition get_search_placement (theme_name : option string) : string :=
  match theme_name with
  | Some theme =>
      if Py.truthy theme then
        match SEARCH_PLACEMENT_SELECTORS !! theme with
        | Some placement => placement
        | None => DEFAULT_SEARCH_PLACEMENT
        end
      else DEFAULT_SEARCH_PLACEMENT
  | None => DEFAULT_SEARCH_PLACEMENT
  end.

Definition _get_default_config : ThemeConfig :=
  {| name := "default";
     content_selectors := DEFAULT_CONTENT_SELECTORS;
     search_container_selectors := DEFAULT_SEARCH_CONTAINER_SELECTORS;
     search_input_selector := None |}.

(** [get_theme_config] returns a configuration and warns about a theme it
    does not know: the second component is the theme named in that
    warning, if it is logged. *)
Definition get_theme_config (config : Config.Config)
    : ThemeConfig * option string :=
  let theme_name := Config.html_theme config in
  match theme_name with
  | Some theme =>
      if Py.truthy theme then
        match THEME_CONFIGS !! theme with
        | Some theme_config => (theme_config, None)
        | None => (_get_default_config, Some theme)
        end
      else (_get_default_config, None)
  | None => (_get_default_config, None)
  end.

Definition get_search_container_selector (config : Config.Config) : string :=
  get_search_placement (Config.html_theme config).

(** [should_replace_search]; [replace_config] is the attribute
    [typesense_replace_search] of the configuration, [None] when it has
    none, and otherwise its truth value. *)
Definition should_replace_search (replace_config : option bool)
    (config : Config.Config) : bool :=
  match replace_config with
  | Some replace => replace
  | None =>
      match Config.html_theme config with
      | Some theme => bool_decide (is_Some (THEME_CONFIGS !! theme))
      | None => true
      end
  end.

End Themes.

(* ===================================================================== *)
(** * Exceptions and the outcome of a call *)
(* ===================================================================== *)

Module Exc.

(** The exception classes the source names, and [OtherException] for any
    other subclass of [Exception].  [RequestUnauthorized], [ServiceUnavailable],
    [Timeout], [HTTPStatus0Error] and [ObjectNotFound] are the classes of the
    typesense client, [TimeoutExpired] is the one of [subprocess]; the
    others are built in.  The classes of the typesense client derive from
    [TypesenseClientError], which derives from [IOError], that is
    [OSError]. *)
Inductive class :=
| RequestUnauthorized | ServiceUnavailable | Timeout | HTTPStatus0Error
| ObjectNotFound
| ConnectionError | TimeoutError | FileNotFoundError | OSError
| TimeoutExpired
| OtherException.

Global Instance class_eq_dec : EqDecision class.
Proof. solve_decision. Defined.

(** A raised exception: its class and [str(e)]. *)
Record t := Make { cls : class; msg : string }.

(** [issubclass c d] among the modelled classes. *)
Definition subclass (c d : class) : bool :=
  bool_decide (c = d)
  || match c, d with
     | (ConnectionError | TimeoutError | FileNotFoundError
        | RequestUnauthorized | ServiceUnavailable | Timeout | HTTPStatus0Error
        | ObjectNotFound), OSError => true
     | _, _ => false
     end.

(** Whether [except (handlers)] catches [e]. *)
Definition catches (handlers : list class) (e : t) : bool :=
  existsb (subclass (cls e)) handlers.

End Exc.

(** What a call does: return a value or raise. *)
Inductive outcome (A : Type) :=
| Returns (a : A)
| Raises (e : Exc.t).
Arguments Returns {A} a.
Arguments Raises {A} e.

(** [int(s)] on a string of decimal digits.  [int] refuses a string of more
    digits than [sys.get_int_max_str_digits()], which is 4300 unless the
    interpreter is told otherwise, and raises a [ValueError] then. *)
Module Builtins.

Definition INT_MAX_STR_DIGITS : nat := 4300.

Definition int (digits : string) : outcome Z :=
  let n := String.length digits in
  if (INT_MAX_STR_DIGITS <? n)%nat then
    Raises
      (Exc.Make Exc.OtherException
         ("Exceeds the limit (" +:+ pretty INT_MAX_STR_DIGITS
          +:+ " digits) for integer string conversion: value has "
          +:+ pretty n
          +:+ " digits; use sys.set_int_max_str_digits() to increase the limit"))
  else Returns (Py.int digits).

End Builtins.

(* ===================================================================== *)
(** * pathlib and the Sphinx application *)
(* ===================================================================== *)

Module Path.

(** A path is the list of its components; an absolute path starts with the
    empty component, so that [str] puts the leading separator. *)
Definition Path := list string.

Fixpoint join (parts : list string) : string :=
  match parts with
  | [] => ""
  | [p] => p
  | p :: rest => p +:+ "/" +:+ join rest
  end.

(** [str(path)]. *)
Definition str (p : Path) : string :=
  match p with
  | [] => "."
  | [""] => "/"
  | _ => join p
  end.

(** [path.relative_to(base)]: [None] stands for the [ValueError] raised
    when [base] is not a prefix of [path]. *)
Fixpoint relative_to (path base : Path) : option Path :=
  match base, path with
  | [], _ => Some path
  | b :: base', p :: path' =>
      if String.eqb b p then relative_to path' base' else None
  | _ :: _, [] => None
  end.

(** [path / name]. *)
Definition div (p : Path) (name : string) : Path := p ++ [name].

End Path.

(** The Sphinx application object: its configuration and output directory. *)
Record Sphinx := {
  config : Config.Config;
  outdir : Path.Path;
}.

(* ===================================================================== *)
(** * The BeautifulSoup interface *)
(* ===================================================================== *)

Module Bs4.

(** The operations of a parsed document that the backend calls on a tag.
    [find el name attr] is [el.find(name, attrs={attr: True})] and
    [get_text] is [el.get_text(strip=True)].  A tag is always true in a
    condition, so [if element:] tests for [None] only.  [select_one] is the
    answer on a selector the selector engine accepts; the
    [SelectorSyntaxError] it raises on a malformed one is outside this
    interface. *)
Class Soup (Tag : Type) := {
  name : Tag → string;
  get : Tag → string → option string;
  get_text : Tag → string;
  find_all : Tag → list string → list Tag;
  find : Tag → string → string → option Tag;
  find_previous_sibling : Tag → option Tag;
  find_parent : Tag → string → option Tag;
  select_one : Tag → string → option Tag;
}.

End Bs4.

(* ===================================================================== *)
(** * backends/typesense.py: extraction and document synthesis *)
(* ===================================================================== *)

Module TypesenseBackend.

Definition MAX_RETRIES : nat := 3.
Definition INITIAL_BACKOFF_SECONDS : Q := 1.
Definition BACKOFF_MULTIPLIER : Q := 2.

Definition DOC_TYPE_WEIGHTS : gmap string Z :=
  list_to_map
    [ ("lvl0", 100); ("lvl1", 90); ("lvl2", 80); ("lvl3", 70); ("content", 50) ].

Definition DOC_TYPE_PRIORITIES : gmap string Z :=
  list_to_map
    [ ("lvl0", 100); ("lvl1", 90); ("lvl2", 80); ("lvl3", 70); ("content", 50) ].

(** The dictionary [_create_document] returns; the field [doc_hierarchy_lvlN]
    is its key ["hierarchy.lvlN"], the others are the keys without [doc_]. *)
Record Document := {
  doc_id : string;
  doc_hierarchy_lvl0 : string;
  doc_hierarchy_lvl1 : string;
  doc_hierarchy_lvl2 : string;
  doc_hierarchy_lvl3 : string;
  doc_hierarchy_lvl4 : string;
  doc_hierarchy_lvl5 : string;
  doc_hierarchy_lvl6 : string;
  doc_content : string;
  doc_url : string;
  doc_url_without_anchor : string;
  doc_anchor : string;
  doc_type : string;
  doc_version : string;
  doc_language : string;
  doc_weight : Z;
  doc_item_priority : Z;
}.

(** An HTML file found under the output directory: [file_soup] is the
    parsed text, [None] when reading it raises [OSError] or
    [UnicodeDecodeError]. *)
Record HtmlFile (Tag : Type) := {
  file_path : Path.Path;
  file_soup : option Tag;
}.
Arguments file_path {Tag} _.
Arguments file_soup {Tag} _.

Definition _get_weight (doc_type : string) : Z :=
  default 50 (DOC_TYPE_WEIGHTS !! doc_type).

Definition _get_priority (doc_type : string) : Z :=
  default 50 (DOC_TYPE_PRIORITIES !! doc_type).

(** The hierarchy dictionary of a fresh page scan. *)
Definition initial_hierarchy : gmap string string :=
  <["lvl3" := ""]> (<["lvl2" := ""]> (<["lvl1" := ""]> (<["lvl0" := ""]> ∅))).

Section Extraction.

Context {Tag : Type} `{!Bs4.Soup Tag}.

Definition _find_anchor (element : Tag) : string :=
  let via_section :=
    match Bs4.find_parent element "section" with
    | Some section =>
        match Bs4.find section "span" "id" with
        | Some label => default "" (Bs4.get label "id")
        | None =>
            if Py.truthy_opt (Bs4.get section "id")
            then default "" (Bs4.get section "id")
            else ""
        end
    | None => ""
    end in
  let element_id := Bs4.get element "id" in
  if Py.truthy_opt element_id then default "" element_id
  else
    match Bs4.find element "a" "id" with
    | Some anchor =>
        let anchor_id := default "" (Bs4.get anchor "id") in
        if Py.truthy anchor_id then anchor_id else ""
    | None =>
        match Bs4.find element "a" "name" with
        | Some anchor =>
            let anchor_name := default "" (Bs4.get anchor "name") in
            if Py.truthy anchor_name then anchor_name else ""
        | None =>
            match Bs4.find_previous_sibling element with
            | Some prev_sibling =>
                if String.eqb (Bs4.name prev_sibling) "a"
                   && Py.truthy_opt (Bs4.get prev_sibling "id")
                then
                  let sibling_id := default "" (Bs4.get prev_sibling "id") in
                  if Py.truthy sibling_id then sibling_id else ""
                else via_section
            | None => via_section
            end
        end
    end.

(** The hierarchy is read through [!!!]: the four keys are created with
    the dictionary and only ever overwritten, so the [KeyError] of a
    missing key cannot occur (lemma [extract_step_keys] below). *)
Definition _create_document (app : Sphinx) (hierarchy : gmap string string)
    (content url_base : string) (element : Tag) (doc_type : string)
    : Document :=
  let anchor :=
    Py.or_str (default "" (Bs4.get element "id")) (_find_anchor element) in
  let url := if Py.truthy anchor then url_base +:+ "#" +:+ anchor else url_base in
  let doc_id :=
    Py.slice_to 32
      (Sha256.hexdigest (Py.encode (url +:+ ":" +:+ Py.slice_to 100 content))) in
  {| doc_id := doc_id;
     doc_hierarchy_lvl0 := hierarchy !!! "lvl0";
     doc_hierarchy_lvl1 := hierarchy !!! "lvl1";
     doc_hierarchy_lvl2 := hierarchy !!! "lvl2";
     doc_hierarchy_lvl3 := hierarchy !!! "lvl3";
     doc_hierarchy_lvl4 := default "" (hierarchy !! "lvl4");
     doc_hierarchy_lvl5 := default "" (hierarchy !! "lvl5");
     doc_hierarchy_lvl6 := default "" (hierarchy !! "lvl6");
     doc_content := content;
     doc_url := url;
     doc_url_without_anchor := url_base;
     doc_anchor := anchor;
     doc_type := doc_type;
     doc_version := Py.or_str (Config.typesense_doc_version (config app)) "";
     doc_language := Py.or_str (default "" (Config.language (config app))) "en";
     doc_weight := _get_weight doc_type;
     doc_item_priority := _get_priority doc_type |}.

(** The selectors [_get_content_element] tries. *)
Definition content_selectors (app : Sphinx) : list string :=
  if Py.truthy_list (Config.typesense_content_selectors (config app))
  then default [] (Config.typesense_content_selectors (config app))
  else [ ".wy-nav-content-wrap"; "article.bd-article"; ".body";
         "article[role=main]"; "main" ].

(** [for selector in selectors: ... return element]. *)
Fixpoint first_match (soup : Tag) (selectors : list string) : option Tag :=
  match selectors with
  | [] => None
  | selector :: rest =>
      match Bs4.select_one soup selector with
      | Some element => Some element
      | None => first_match soup rest
      end
  end.

Definition _get_content_element (app : Sphinx) (soup : Tag) : option Tag :=
  first_match soup (content_selectors app).

Definition _get_relative_url (app : Sphinx) (html_file : Path.Path) : string :=
  match Path.relative_to html_file (outdir app) with
  | Some relative => Path.str relative
  | None => Path.str html_file
  end.

(** One turn of the loop of [_extract_documents]: the hierarchy after the
    element and the documents yielded for it (none or one). *)
Definition extract_step (app : Sphinx) (url_base : string)
    (hierarchy : gmap string string) (element : Tag)
    : gmap string string * list Document :=
  let tag := Bs4.name element in
  let text := Bs4.get_text element in
  if negb (Py.truthy text) then (hierarchy, [])
  else if String.eqb tag "h1" then
    let hierarchy :=
      <["lvl3" := ""]> (<["lvl2" := ""]> (<["lvl1" := ""]>
        (<["lvl0" := text]> hierarchy))) in
    (hierarchy, [_create_document app hierarchy "" url_base element "lvl0"])
  else if String.eqb tag "h2" then
    let hierarchy :=
      <["lvl3" := ""]> (<["lvl2" := ""]> (<["lvl1" := text]> hierarchy)) in
    (hierarchy, [_create_document app hierarchy "" url_base element "lvl1"])
  else if String.eqb tag "h3" then
    let hierarchy := <["lvl3" := ""]> (<["lvl2" := text]> hierarchy) in
    (hierarchy, [_create_document app hierarchy "" url_base element "lvl2"])
  else if String.eqb tag "h4" then
    let hierarchy := <["lvl3" := text]> hierarchy in
    (hierarchy, [_create_document app hierarchy "" url_base element "lvl3"])
  else if Py.in_list tag ["p"; "li"] then
    (hierarchy, [_create_document app hierarchy text url_base element "content"])
  else (hierarchy, []).

(** The loop over the matched elements, in the order [find_all] gives
    them; the result is the sequence of yielded documents. *)
Fixpoint extract_loop (app : Sphinx) (url_base : string)
    (hierarchy : gmap string string) (elements : list Tag) : list Document :=
  match elements with
  | [] => []
  | element :: rest =>
      let '(hierarchy', yielded) := extract_step app url_base hierarchy element in
      yielded ++ extract_loop app url_base hierarchy' rest
  end.

Definition EXTRACTED_TAGS : list string := ["h1"; "h2"; "h3"; "h4"; "p"; "li"].

(** The documents one file yields.  A file that cannot be read or decoded
    has no soup and yields nothing; the warning logged for it is journalled
    by [extract_all] below. *)
Definition _extract_documents (app : Sphinx) (html_file : HtmlFile Tag)
    : list Document :=
  match file_soup html_file with
  | None => []
  | Some soup =>
      match _get_content_element app soup with
      | None => []
      | Some content =>
          let url_base := _get_relative_url app (file_path html_file) in
          extract_loop app url_base initial_hierarchy
            (Bs4.find_all content EXTRACTED_TAGS)
      end
  end.

End Extraction.

(** ** Connection, collection and bulk import *)

(** One entry of the list [documents.import_] returns. *)
Record ImportItem := {
  item_success : option bool;
  item_error : option string;
}.

(** The calls of [logger.warning], by call site. *)
Inductive Warning :=
| WarnAuthenticationFailed
| WarnServerUnreachable
| WarnCreateFailed (e : Exc.t)
| WarnDocumentFailed (error : string)
| WarnImportErrors (error_count : nat)
| WarnUnavailableDuringIndexing
| WarnImportTimedOut
| WarnConnectionLost
| WarnNoDocuments
| WarnParseFailed (html_file : Path.Path).

(** What the backend does to the outside, in order. *)
Inductive Event :=
| EvHealth
| EvSleep (seconds : Q)
| EvDelete
| EvCreate
| EvImport (documents : list Document)
| EvWarning (w : Warning).

(** The outside of one build: the answer of the server to the [n]-th
    health check, to the deletion and creation of the collection and to the
    bulk import, and the HTML files under the output directory. *)
Record World (Tag : Type) := {
  is_healthy : nat → outcome bool;
  collection_delete : outcome unit;
  collection_create : outcome unit;
  documents_import : list Document → outcome (list ImportItem);
  html_files : list (HtmlFile Tag);
}.
Arguments is_healthy {Tag} _ _.
Arguments collection_delete {Tag} _.
Arguments collection_create {Tag} _.
Arguments documents_import {Tag} _ _.
Arguments html_files {Tag} _.

(** The mutable part of the backend object, and the journal of its
    external calls. *)
Record Backend := {
  _server_available : option bool;
  journal : list Event;
}.

Definition new_backend : Backend :=
  {| _server_available := None; journal := [] |}.

(** A method: it reads and updates the backend and returns or raises. *)
Definition M (A : Type) : Type := Backend → outcome A * Backend.

Global Instance M_ret : MRet M := λ A a b, (Returns a, b).

Global Instance M_bind : MBind M := λ A B f m b,
  match m b with
  | (Returns a, b') => f a b'
  | (Raises e, b') => (Raises e, b')
  end.

Definition raise {A} (e : Exc.t) : M A := λ b, (Raises e, b).

Definition emit (ev : Event) : M unit := λ b,
  (Returns (), {| _server_available := _server_available b;
                  journal := journal b ++ [ev] |}).

Definition set_server_available (v : bool) : M unit := λ b,
  (Returns (), {| _server_available := Some v; journal := journal b |}).

Definition warning (w : Warning) : M unit := emit (EvWarning w).

(** An external call: it is journalled and its outcome handed to the
    [try] around it. *)
Definition call {A} (ev : Event) (answer : outcome A) : M (outcome A) :=
  emit ev ;; mret answer.

Definition is_health (ev : Event) : bool :=
  match ev with EvHealth => true | _ => false end.

(** The number of health checks made so far. *)
Definition health_calls (b : Backend) : nat :=
  length (List.filter is_health (journal b)).

Section Indexing.

Context {Tag : Type} `{!Bs4.Soup Tag}.

(** The [for attempt in range(1, MAX_RETRIES + 1)] loop and what follows
    it. *)
Fixpoint retry_loop (w : World Tag) (attempts : list nat) (backoff : Q)
    : M bool :=
  match attempts with
  | [] =>
      warning WarnServerUnreachable ;;
      set_server_available false ;;
      mret false
  | attempt :: rest =>
      let next : M bool :=
        if (attempt <? MAX_RETRIES)%nat then
          emit (EvSleep backoff) ;;
          retry_loop w rest (backoff * BACKOFF_MULTIPLIER)%Q
        else retry_loop w rest backoff in
      health ← (λ b, call EvHealth (is_healthy w (health_calls b)) b);
      match health with
      | Returns true => set_server_available true ;; mret true
      | Returns false => next
      | Raises e =>
          if Exc.catches [Exc.RequestUnauthorized] e then
            warning WarnAuthenticationFailed ;;
            set_server_available false ;;
            mret false
          else if Exc.catches [Exc.ServiceUnavailable] e then next
          else if Exc.catches [Exc.Timeout; Exc.HTTPStatus0Error] e then next
          else if Exc.catches [Exc.ConnectionError; Exc.TimeoutError; Exc.OSError] e
          then next
          else raise e
      end
  end.

Definition _check_connection (w : World Tag) : M bool := λ b,
  match _server_available b with
  | Some cached => (Returns cached, b)
  | None => retry_loop w (seq 1 MAX_RETRIES) INITIAL_BACKOFF_SECONDS b
  end.

Definition is_available (w : World Tag) : M bool := _check_connection w.

Definition _ensure_collection (app : Sphinx) (w : World Tag) : M unit :=
  (if Config.typesense_drop_existing (config app) then
     deleted ← call EvDelete (collection_delete w);
     match deleted with
     | Returns _ => mret ()
     | Raises e =>
         if Exc.catches [Exc.ObjectNotFound] e then mret () else raise e
     end
   else mret ()) ;;
  created ← call EvCreate (collection_create w);
  match created with
  | Returns _ => mret ()
  | Raises e =>
      let error_msg := Py.lower_str (Exc.msg e) in
      if Py.contains "already exists" error_msg then mret ()
      else warning (WarnCreateFailed e) ;; raise e
  end.

(** The loop over the result of the import: a warning per failed item,
    counting them. *)
Fixpoint log_import_errors (result : list ImportItem) : M nat :=
  match result with
  | [] => mret O
  | item :: rest =>
      if negb (default true (item_success item)) then
        warning (WarnDocumentFailed (default "Unknown error" (item_error item))) ;;
        error_count ← log_import_errors rest;
        mret (S error_count)
      else log_import_errors rest
  end.

(** The loop [for html_file in html_dir.rglob("*.html")] of [index_all],
    which collects the documents of the files in their order.
    [_extract_documents] logs a warning for a file it cannot read or
    decode, and yields nothing for it. *)
Fixpoint extract_all (app : Sphinx) (files : list (HtmlFile Tag))
    : M (list Document) :=
  match files with
  | [] => mret []
  | html_file :: rest =>
      (match file_soup html_file with
       | None => warning (WarnParseFailed (file_path html_file))
       | Some _ => mret ()
       end) ;;
      documents ← extract_all app rest;
      mret (_extract_documents app html_file ++ documents)
  end.

Definition index_all (app : Sphinx) (w : World Tag) : M Z :=
  available ← _check_connection w;
  if negb available then mret 0
  else
    _ensure_collection app w ;;
    documents ← extract_all app (html_files w);
    match documents with
    | _ :: _ =>
        imported ← call (EvImport documents) (documents_import w documents);
        match imported with
        | Returns result =>
            error_count ← log_import_errors result;
            (if (0 <? error_count)%nat
             then warning (WarnImportErrors error_count) else mret ()) ;;
            mret (Z.of_nat (length documents))
        | Raises e =>
            if Exc.catches [Exc.ServiceUnavailable] e then
              warning WarnUnavailableDuringIndexing ;; mret 0
            else if Exc.catches [Exc.Timeout; Exc.HTTPStatus0Error] e then
              warning WarnImportTimedOut ;; mret 0
            else if Exc.catches [Exc.ConnectionError; Exc.TimeoutError; Exc.OSError] e
            then warning WarnConnectionLost ;; mret 0
            else raise e
        end
    | [] =>
        warning WarnNoDocuments ;;
        mret (Z.of_nat (length documents))
    end.

End Indexing.

End TypesenseBackend.

(* ===================================================================== *)
(** * re.search for the patterns of the Pagefind backend *)
(* ===================================================================== *)

(** A backtracking matcher for the regular expressions the backend uses:
    sequences of single characters, [\s+], [x?] and one capture group
    [(\d+)], matched with [re.IGNORECASE]. *)
Module Re.

Inductive Atom :=
| Char (c : ascii)
| Space
| Digit.

Inductive Item :=
| One (a : Atom)
| Plus (a : Atom)
| Opt (a : Atom)
| Group (a : Atom).

Definition Pattern := list Item.

Definition atom_matches (a : Atom) (c : ascii) : bool :=
  match a with
  | Char x => Ascii.eqb (Py.lower c) (Py.lower x)
  | Space => Py.isspace c
  | Digit => Py.isdigit c
  end.

(** The literal text [s], one item per character. *)
Fixpoint lit (s : string) : Pattern :=
  match s with
  | EmptyString => []
  | String c s' => One (Char c) :: lit s'
  end.

(** Match [p] at the start of [s]; the result is the text of the group.
    A repetition takes as many characters as it can and gives them back
    one at a time when the rest of the pattern fails. *)
Fixpoint match_here (p : Pattern) (s : string) (group : string) {struct p}
    : option string :=
  match p with
  | [] => Some group
  | One a :: p' =>
      match s with
      | String c s' => if atom_matches a c then match_here p' s' group else None
      | EmptyString => None
      end
  | Opt a :: p' =>
      match
        match s with
        | String c s' => if atom_matches a c then match_here p' s' group else None
        | EmptyString => None
        end
      with
      | Some g => Some g
      | None => match_here p' s group
      end
  | Plus a :: p' =>
      (fix more (s : string) : option string :=
         match s with
         | String c s' =>
             if atom_matches a c then
               match more s' with
               | Some g => Some g
               | None => match_here p' s' group
               end
             else None
         | EmptyString => None
         end) s
  | Group a :: p' =>
      (fix more (s : string) (taken : string) : option string :=
         match s with
         | String c s' =>
             if atom_matches a c then
               let taken' := taken +:+ String c "" in
               match more s' taken' with
               | Some g => Some g
               | None => match_here p' s' taken'
               end
             else None
         | EmptyString => None
         end) s ""
  end.

(** [re.search(p, s, re.IGNORECASE)]: the leftmost match, as its group 1. *)
Fixpoint search (p : Pattern) (s : string) : option string :=
  match match_here p s "" with
  | Some g => Some g
  | None =>
      match s with
      | String _ s' => search p s'
      | EmptyString => None
      end
  end.

End Re.

(* ===================================================================== *)
(** * backends/pagefind.py *)
(* ===================================================================== *)

Module PagefindBackend.

Definition PAGEFIND_CLI : string := "pagefind".
Definition DEFAULT_OUTPUT_DIR : string := "_pagefind".

(** [subprocess.CompletedProcess]. *)
Record CompletedProcess := {
  returncode : Z;
  stdout : string;
  stderr : string;
}.

(** The outside of the Pagefind backend: the file system, the installed
    Python packages, the [PATH] and the subprocess, which answers a command
    line and a timeout in seconds. *)
Record World := {
  path_exists : Path.Path → bool;
  find_spec : string → bool;
  sys_executable : string;
  which : string → option string;
  subprocess_run : list string → Z → outcome CompletedProcess;
}.

(** [r"Indexed\s+(\d+)\s+page"] *)
Definition INDEXED_PAGES : Re.Pattern :=
  Re.lit "Indexed" ++ [Re.Plus Re.Space; Re.Group Re.Digit; Re.Plus Re.Space]
  ++ Re.lit "page".

(** [r"on\s+(\d+)\s+page"] *)
Definition ON_PAGES : Re.Pattern :=
  Re.lit "on" ++ [Re.Plus Re.Space; Re.Group Re.Digit; Re.Plus Re.Space]
  ++ Re.lit "page".

(** [r"(\d+)\s+pages?"] *)
Definition ANY_PAGES : Re.Pattern :=
  [Re.Group Re.Digit; Re.Plus Re.Space] ++ Re.lit "page"
  ++ [Re.Opt (Re.Char "s")].

Definition _parse_page_count (output : string) : outcome Z :=
  match Re.search INDEXED_PAGES output with
  | Some group1 => Builtins.int group1
  | None =>
      match Re.search ON_PAGES output with
      | Some group1 => Builtins.int group1
      | None =>
          match Re.search ANY_PAGES output with
          | Some group1 => Builtins.int group1
          | None => Returns 0
          end
      end
  end.

Definition _check_python_pagefind (w : World) : bool := find_spec w "pagefind".

Definition _find_pagefind_command (w : World) : option (list string) :=
  if _check_python_pagefind w then Some [sys_executable w; "-m"; "pagefind"]
  else if Py.truthy_opt (which w PAGEFIND_CLI) then Some [PAGEFIND_CLI]
  else
    let npx := which w "npx" in
    if Py.truthy_opt npx then Some [default "" npx; "pagefind"]
    else None.

Definition _run_pagefind (w : World) (pagefind_cmd : list string)
    (build_dir : Path.Path) : outcome Z :=
  let cmd :=
    pagefind_cmd
    ++ [ "--site"; Path.str build_dir;
         "--output-path"; Path.str (Path.div build_dir DEFAULT_OUTPUT_DIR) ] in
  match subprocess_run w cmd 300 with
  | Raises e =>
      if Exc.catches [Exc.TimeoutExpired] e then Returns 0
      else if Exc.catches [Exc.FileNotFoundError] e then Returns 0
      else if Exc.catches [Exc.OSError] e then Returns 0
      else Raises e
  | Returns result =>
      if negb (returncode result =? 0) then Returns 0
      else _parse_page_count (stdout result)
  end.

Definition index_all (app : Sphinx) (w : World) : outcome Z :=
  let build_dir := outdir app in
  if negb (path_exists w build_dir) then Returns 0
  else
    match _find_pagefind_command w with
    | None => Returns 0
    | Some pagefind_cmd => _run_pagefind w pagefind_cmd build_dir
    end.

Definition is_available (w : World) : bool :=
  bool_decide (_find_pagefind_command w ≠ None).

End PagefindBackend.

(* ===================================================================== *)
(** * A document tree implementing the BeautifulSoup interface *)
(* ===================================================================== *)

(** Parsed HTML as a tree of elements and text, with the tag operations
    computed on it.  It gives the interface above an executable instance,
    on which the backend runs on concrete pages.  [select_one] handles
    compound selectors (a tag name, [#id], [.class], [[attr]] and
    [[attr=value]] in any combination), which covers every selector of the
    source; it finds nothing for a selector with combinators. *)
Module Dom.

Unset Elimination Schemes.
Inductive Node :=
| Text (s : string)
| Element (name : string) (attrs : list (string * string)) (children : list Node).
Set Elimination Schemes.

(** A tag is a position in a tree: the child indices from the root. *)
Record Tag := { root : Node; path : list nat }.

Fixpoint node_at (n : Node) (p : list nat) : option Node :=
  match p with
  | [] => Some n
  | i :: p' =>
      match n with
      | Element _ _ children => c ← children !! i; node_at c p'
      | Text _ => None
      end
  end.

Definition here (t : Tag) : option Node := node_at (root t) (path t).

Fixpoint assoc (key : string) (l : list (string * string)) : option string :=
  match l with
  | [] => None
  | (k, v) :: l' => if String.eqb k key then Some v else assoc key l'
  end.

Definition node_name (n : Node) : string :=
  match n with Element name _ _ => name | Text _ => "" end.

Definition node_get (n : Node) (attr : string) : option string :=
  match n with Element _ attrs _ => assoc attr attrs | Text _ => None end.

(** The strings below a node, in document order. *)
Fixpoint strings (n : Node) : list string :=
  match n with
  | Text s => [s]
  | Element _ _ children => flat_map strings children
  end.

Fixpoint concat_stripped (l : list string) : string :=
  match l with
  | [] => ""
  | s :: l' => Py.strip s +:+ concat_stripped l'
  end.

(** The elements strictly below [n], in document order, each with its
    path; [p] is the path of [n]. *)
Fixpoint descendants (n : Node) (p : list nat) : list (list nat * Node) :=
  match n with
  | Text _ => []
  | Element _ _ children =>
      (fix go (cs : list Node) (i : nat) : list (list nat * Node) :=
         match cs with
         | [] => []
         | c :: cs' =>
             match c with
             | Element _ _ _ => [(p ++ [i], c)]
             | Text _ => []
             end ++ descendants c (p ++ [i]) ++ go cs' (S i)
         end) children O
  end.

Definition below (t : Tag) : list (list nat * Node) :=
  match here t with Some n => descendants n (path t) | None => [] end.

Definition tag_at (t : Tag) (pn : list nat * Node) : Tag :=
  {| root := root t; path := fst pn |}.

Definition has_attr (attr : string) (n : Node) : bool :=
  bool_decide (is_Some (node_get n attr)).

(** The simple selectors of a compound selector. *)
Inductive Simple :=
| SelTag (name : string)
| SelId (id : string)
| SelClass (class : string)
| SelHasAttr (attr : string)
| SelAttr (attr value : string).

Inductive Lexer := InTag | InId | InClass | InAttrName | InAttrValue (attr : string) | Closed.

Definition flush (mode : Lexer) (buf : string) : option (list Simple) :=
  match mode with
  | InTag => Some (if Py.truthy buf then [SelTag buf] else [])
  | InId => if Py.truthy buf then Some [SelId buf] else None
  | InClass => if Py.truthy buf then Some [SelClass buf] else None
  | Closed => if Py.truthy buf then None else Some []
  | InAttrName | InAttrValue _ => None
  end.

Definition is_name_char (c : ascii) : bool :=
  let n := N_of_ascii c in
  (((48 <=? n) && (n <=? 57)) || ((65 <=? n) && (n <=? 90))
   || ((97 <=? n) && (n <=? 122)) || (n =? 45) || (n =? 95))%N.

Fixpoint parse (mode : Lexer) (buf : string) (s : string) : option (list Simple) :=
  match s with
  | EmptyString => flush mode buf
  | String c s' =>
      match mode with
      | InAttrName =>
          if Ascii.eqb c "]" then
            if Py.truthy buf then (SelHasAttr buf ::.) <$> parse Closed "" s' else None
          else if Ascii.eqb c "=" then
            if Py.truthy buf then parse (InAttrValue buf) "" s' else None
          else if is_name_char c then parse InAttrName (buf +:+ String c "") s'
          else None
      | InAttrValue attr =>
          if Ascii.eqb c "]" then (SelAttr attr buf ::.) <$> parse Closed "" s'
          else if is_name_char c then parse (InAttrValue attr) (buf +:+ String c "") s'
          else None
      | _ =>
          if Ascii.eqb c "." then
            first ← flush mode buf; (first ++.) <$> parse InClass "" s'
          else if Ascii.eqb c "#" then
            first ← flush mode buf; (first ++.) <$> parse InId "" s'
          else if Ascii.eqb c "[" then
            first ← flush mode buf; (first ++.) <$> parse InAttrName "" s'
          else if is_name_char c then
            match mode with
            | Closed => None
            | _ => parse mode (buf +:+ String c "") s'
            end
          else None
      end
  end.

Definition simple_matches (n : Node) (sel : Simple) : bool :=
  match sel with
  | SelTag name => String.eqb (node_name n) name
  | SelId id => bool_decide (node_get n "id" = Some id)
  | SelClass class =>
      Py.in_list class (String.words (default "" (node_get n "class")))
  | SelHasAttr attr => has_attr attr n
  | SelAttr attr value => bool_decide (node_get n attr = Some value)
  end.

Definition selector_matches (selector : string) (n : Node) : bool :=
  match parse InTag "" selector with
  | Some (first :: rest) => forallb (simple_matches n) (first :: rest)
  | _ => false
  end.

(** The closest element among the siblings before position [i]. *)
Fixpoint last_element (cs : list Node) (i : nat) : option nat :=
  match i with
  | O => None
  | S i' =>
      match cs !! i' with
      | Some (Element _ _ _) => Some i'
      | _ => last_element cs i'
      end
  end.

Definition parent_path (p : list nat) : list nat := removelast p.

Definition previous_sibling (t : Tag) : option Tag :=
  match path t with
  | [] => None
  | _ :: _ =>
      let up := parent_path (path t) in
      match node_at (root t) up with
      | Some (Element _ _ cs) =>
          i ← last_element cs (List.last (path t) O);
          Some {| root := root t; path := up ++ [i] |}
      | _ => None
      end
  end.

(** The closest ancestor called [name]; [n] bounds the climb. *)
Fixpoint ancestor (n : nat) (r : Node) (p : list nat) (name : string) : option Tag :=
  match n with
  | O => None
  | S n' =>
      match p with
      | [] => None
      | _ :: _ =>
          let up := parent_path p in
          match node_at r up with
          | Some parent =>
              if String.eqb (node_name parent) name
              then Some {| root := r; path := up |}
              else ancestor n' r up name
          | None => None
          end
      end
  end.

Global Instance soup : Bs4.Soup Tag := {|
  Bs4.name t := default "" (node_name <$> here t);
  Bs4.get t attr := n ← here t; node_get n attr;
  Bs4.get_text t := default "" (concat_stripped ∘ strings <$> here t);
  Bs4.find_all t names :=
    tag_at t <$> List.filter (λ pn, Py.in_list (node_name (snd pn)) names) (below t);
  Bs4.find t name attr :=
    tag_at t <$>
      List.find (λ pn, String.eqb (node_name (snd pn)) name && has_attr attr (snd pn))
                (below t);
  Bs4.find_previous_sibling := previous_sibling;
  Bs4.find_parent t name := ancestor (length (path t)) (root t) (path t) name;
  Bs4.select_one t selector :=
    tag_at t <$> List.find (λ pn, selector_matches selector (snd pn)) (below t);
|}.

(** The parsed document of a list of top-level nodes. *)
Definition document (nodes : list Node) : Tag :=
  {| root := Element "[document]" [] nodes; path := [] |}.

End Dom.

(* ===================================================================== *)
(** * config.py: validation *)
(* ===================================================================== *)

Module Validation.

(** A configuration value that is expected to be an integer: [VInt n] when
    [isinstance(value, int)] holds ([True] and [False] are the integers 1
    and 0), [VOther] for a value of any other type. *)
Inductive Value :=
| VInt (n : Z)
| VOther.

(** The configuration values of the extension: the ones of [Config.Config]
    and the ones only the validation and the event handlers read.  The
    host, port, protocol and keys are strings, as their defaults are. *)
Record Settings := {
  core : Config.Config;
  typesense_host : string;
  typesense_port : string;
  typesense_protocol : string;
  typesense_search_api_key : string;
  typesense_num_typos : Value;
  typesense_per_page : Value;
  typesense_filter_by : string;
  typesense_enable_indexing : bool;
}.

Definition MIN_NUM_TYPOS : Z := 0.
Definition MAX_NUM_TYPOS : Z := 2.

Definition ENV_SEARCH_API_KEY : string := "TYPESENSE_SEARCH_API_KEY".

Definition VALID_PROTOCOLS : list string := ["http"; "https"].

(** The [ConfigError] raised: what it complains about.  Its message is
    built from these. *)
Inductive ConfigError :=
| InvalidBackend (backend : string)
| MissingConfiguration (missing : list string)
| InvalidProtocol (protocol : string)
| InvalidNumTypos
| InvalidPerPage.

(** [config.typesense_api_key = api_key;
     config.typesense_search_api_key = search_api_key]. *)
Definition set_keys (config : Settings) (api_key search_api_key : string)
    : Settings :=
  {| core :=
       {| Config.typesense_backend := Config.typesense_backend (core config);
          Config.typesense_api_key := api_key;
          Config.typesense_collection_name :=
            Config.typesense_collection_name (core config);
          Config.typesense_doc_version :=
            Config.typesense_doc_version (core config);
          Config.typesense_content_selectors :=
            Config.typesense_content_selectors (core config);
          Config.typesense_drop_existing :=
            Config.typesense_drop_existing (core config);
          Config.typesense_container := Config.typesense_container (core config);
          Config.typesense_placeholder :=
            Config.typesense_placeholder (core config);
          Config.language := Config.language (core config);
          Config.html_theme := Config.html_theme (core config) |};
     typesense_host := typesense_host config;
     typesense_port := typesense_port config;
     typesense_protocol := typesense_protocol config;
     typesense_search_api_key := search_api_key;
     typesense_num_typos := typesense_num_typos config;
     typesense_per_page := typesense_per_page config;
     typesense_filter_by := typesense_filter_by config;
     typesense_enable_indexing := typesense_enable_indexing config |}.

(** The validators return the [ConfigError] they raise, [None] when they
    return. *)
Definition _validate_backend (config : Settings) : option ConfigError :=
  let backend := Config.typesense_backend (core config) in
  if negb (Py.in_list backend Config.VALID_BACKENDS)
  then Some (InvalidBackend backend)
  else None.

Definition _validate_required_settings (config : Settings)
    (api_key search_api_key : string) : option ConfigError :=
  let missing :=
    (if negb (Py.truthy (typesense_host config)) then ["typesense_host"] else [])
    ++ (if negb (Py.truthy (typesense_port config)) then ["typesense_port"] else [])
    ++ (if negb (Py.truthy (typesense_protocol config))
        then ["typesense_protocol"] else [])
    ++ (if negb (Py.truthy api_key)
        then ["typesense_api_key (or " +:+ Config.ENV_API_KEY
              +:+ " environment variable)"]
        else [])
    ++ (if negb (Py.truthy search_api_key)
        then ["typesense_search_api_key (or " +:+ ENV_SEARCH_API_KEY
              +:+ " environment variable)"]
        else []) in
  match missing with
  | _ :: _ => Some (MissingConfiguration missing)
  | [] => None
  end.

Definition _validate_protocol (config : Settings) : option ConfigError :=
  let protocol := typesense_protocol config in
  if negb (Py.in_list protocol VALID_PROTOCOLS)
  then Some (InvalidProtocol protocol)
  else None.

(** Whether [_check_key_security] logs its warning. *)
Definition _check_key_security (api_key search_api_key : string) : bool :=
  Py.truthy api_key && Py.truthy search_api_key
  && String.eqb api_key search_api_key.

Definition _validate_numeric_settings (config : Settings)
    : option ConfigError :=
  if match typesense_num_typos config with
     | VInt num_typos =>
         (num_typos <? MIN_NUM_TYPOS) || (MAX_NUM_TYPOS <? num_typos)
     | VOther => true
     end
  then Some InvalidNumTypos
  else
    if match typesense_per_page config with
       | VInt per_page => per_page <? 1
       | VOther => true
       end
    then Some InvalidPerPage
    else None.

(** What a run of [validate_config] leaves: the [ConfigError] raised, if
    any, the configuration object as it is then, and whether the warning
    about identical keys was logged. *)
Record Validated := {
  raised : option ConfigError;
  config_after : Settings;
  key_warning : bool;
}.

Definition validate_config (environ : gmap string string) (config : Settings)
    : Validated :=
  match _validate_backend config with
  | Some e => {| raised := Some e; config_after := config; key_warning := false |}
  | None =>
      let api_key :=
        Py.or_str (Config.typesense_api_key (core config))
                  (default "" (environ !! Config.ENV_API_KEY)) in
      let search_api_key :=
        Py.or_str (typesense_search_api_key config)
                  (default "" (environ !! ENV_SEARCH_API_KEY)) in
      let config := set_keys config api_key search_api_key in
      let effective_backend :=
        Config.get_effective_backend environ (core config) in
      if negb (typesense_enable_indexing config) then
        {| raised := None; config_after := config; key_warning := false |}
      else if String.eqb effective_backend "pagefind" then
        match _validate_protocol config with
        | Some e =>
            {| raised := Some e; config_after := config; key_warning := false |}
        | None =>
            {| raised := _validate_numeric_settings config;
               config_after := config; key_warning := false |}
        end
      else
        match _validate_required_settings config api_key search_api_key with
        | Some e =>
            {| raised := Some e; config_after := config; key_warning := false |}
        | None =>
            match _validate_protocol config with
            | Some e =>
                {| raised := Some e; config_after := config;
                   key_warning := false |}
            | None =>
                {| raised := _validate_numeric_settings config;
                   config_after := config;
                   key_warning := _check_key_security api_key search_api_key |}
            end
        end
  end.

End Validation.

(* ===================================================================== *)
(** * templates.py: the search container *)
(* ===================================================================== *)

Module Templates.

(** [s.lstrip(chars)]. *)
Fixpoint lstrip_chars (chars : string) (s : string) : string :=
  match s with
  | String c s' =>
      if existsb (Ascii.eqb c) (list_ascii_of_string chars)
      then lstrip_chars chars s' else s
  | EmptyString => EmptyString
  end.

(** The [container_id] of [get_search_container_html]. *)
Definition container_id (container : string) : string :=
  if String.prefix "#" container then lstrip_chars "#" container
  else container.

Definition get_search_container_html (config : Config.Config) : string :=
  let container := Config.typesense_container config in
  "<div id=" +:+ String (ascii_of_nat 34) (container_id container)
  +:+ String (ascii_of_nat 34) "></div>".

End Templates.

(* ===================================================================== *)
(** * indexer.py and __init__.py: the build-finished handlers *)
(* ===================================================================== *)

(** The application object of a handler: the configuration values and the
    output directory. *)
Record Application := {
  settings : Validation.Settings;
  app_outdir : Path.Path;
}.

Definition sphinx_of (app : Application) : Sphinx :=
  {| config := Validation.core (settings app); outdir := app_outdir app |}.

Module Indexer.

(** The warnings the handler logs itself. *)
Inductive Log :=
| LogNoApiKey
| LogAuthenticationFailed
| LogServerUnavailable
| LogTimedOut
| LogNetworkError (type_name : Exc.class)
| LogClientError (msg : string)
| LogSystemError (msg : string)
| LogUnexpectedError (msg : string).

(** What a run of the handler leaves: whether it returned or raised, the
    journal of the backend it created, and its own log. *)
Record Handled := {
  result : outcome unit;
  backend_journal : list TypesenseBackend.Event;
  logs : list Log;
}.

Section Handler.

Context {Tag : Type} `{!Bs4.Soup Tag}.

(** [isinstance(e, TypesenseClientError)] for an exception of a class the
    embedding does not name. *)
Variable other_client_error : Exc.t → bool.

(** [isinstance(e, typesense.exceptions.TypesenseClientError)]: the base
    class of the exceptions of the typesense client. *)
Definition is_client_error (e : Exc.t) : bool :=
  match Exc.cls e with
  | Exc.RequestUnauthorized | Exc.ServiceUnavailable | Exc.Timeout
  | Exc.HTTPStatus0Error | Exc.ObjectNotFound => true
  | Exc.OtherException => other_client_error e
  | _ => false
  end.

Definition _log_indexing_error (exc : Exc.t) : Log :=
  if Exc.catches [Exc.RequestUnauthorized] exc then LogAuthenticationFailed
  else if Exc.catches [Exc.ServiceUnavailable] exc then LogServerUnavailable
  else if Exc.catches [Exc.Timeout; Exc.HTTPStatus0Error] exc then LogTimedOut
  else if Exc.catches [Exc.ConnectionError; Exc.TimeoutError] exc
  then LogNetworkError (Exc.cls exc)
  else if is_client_error exc then LogClientError (Exc.msg exc)
  else if Exc.catches [Exc.OSError] exc then LogSystemError (Exc.msg exc)
  else LogUnexpectedError (Exc.msg exc).

(** The [except] clause of the handler. *)
Definition handled (e : Exc.t) : bool :=
  Exc.catches [ Exc.RequestUnauthorized; Exc.ServiceUnavailable; Exc.Timeout;
                Exc.HTTPStatus0Error; Exc.ConnectionError; Exc.TimeoutError ] e
  || is_client_error e
  || Exc.catches [Exc.OSError] e.

(** [exception] is the exception of the build, if it failed. *)
Definition index_documents (app : Application)
    (w : TypesenseBackend.World Tag) (exception : option Exc.t) : Handled :=
  match exception with
  | Some _ => {| result := Returns (); backend_journal := []; logs := [] |}
  | None =>
      if negb (Validation.typesense_enable_indexing (settings app)) then
        {| result := Returns (); backend_journal := []; logs := [] |}
      else if negb (Py.truthy (Config.typesense_api_key
                                 (Validation.core (settings app)))) then
        {| result := Returns (); backend_journal := []; logs := [LogNoApiKey] |}
      else
        match TypesenseBackend.index_all (sphinx_of app) w
                TypesenseBackend.new_backend with
        | (Returns count, backend) =>
            {| result := Returns ();
               backend_journal := TypesenseBackend.journal backend;
               logs := [] |}
        | (Raises e, backend) =>
            if handled e then
              {| result := Returns ();
                 backend_journal := TypesenseBackend.journal backend;
                 logs := [_log_indexing_error e] |}
            else
              {| result := Raises e;
                 backend_journal := TypesenseBackend.journal backend;
                 logs := [] |}
        end
  end.

End Handler.

End Indexer.

Module Extension.

(** The backend [get_backend] creates. *)
Inductive BackendClass :=
| TypesenseBackend
| PagefindBackend.

Definition get_backend (environ : gmap string string) (app : Application)
    : BackendClass :=
  let backend_name :=
    Config.get_effective_backend environ (Validation.core (settings app)) in
  if String.eqb backend_name "typesense" then TypesenseBackend
  else PagefindBackend.

(** The dictionary [_write_config_js] serialises. *)
Record ConfigJs := {
  collectionName : string;
  host : string;
  port : Z;
  protocol : string;
  apiKey : string;
  placeholder : string;
  numTypos : Validation.Value;
  perPage : Validation.Value;
  filterBy : string;
  container : string;
}.

(** The outside of the handler: the environment, the file system, which
    answers the creation of the directory and the writing of the text at a
    path, and the outsides of the two backends. *)
Record World (Tag : Type) := {
  environ : gmap string string;
  write_text : Path.Path → string → outcome unit;
  typesense : TypesenseBackend.World Tag;
  pagefind : PagefindBackend.World;
}.
Arguments environ {Tag} _.
Arguments write_text {Tag} _ _ _.
Arguments typesense {Tag} _.
Arguments pagefind {Tag} _.

(** What a run of the handler leaves: whether it returned or raised, the
    configuration file it wrote and its text, the journal of the Typesense
    backend it created, and the outcome of the Pagefind indexing it ran. *)
Record Handled := {
  result : outcome unit;
  written : option (Path.Path * string);
  backend_journal : list TypesenseBackend.Event;
  pagefind_run : option (outcome Z);
}.

Section Handler.

Context {Tag : Type} `{!Bs4.Soup Tag}.

(** [int(app.config.typesense_port)] and [json.dumps(config, indent=2)]. *)
Variable py_int : string → outcome Z.
Variable json_dumps : ConfigJs → outcome string.

(** [_write_config_js] returns the file it wrote, if it wrote one. *)
Definition _write_config_js (app : Application) (w : World Tag)
    : outcome (option (Path.Path * string)) :=
  let backend_name :=
    Config.get_effective_backend (environ w) (Validation.core (settings app)) in
  if negb (String.eqb backend_name "typesense") then Returns None
  else
    let conf := settings app in
    match py_int (Validation.typesense_port conf) with
    | Raises e => Raises e
    | Returns port_number =>
        let config :=
          {| collectionName :=
               Config.typesense_collection_name (Validation.core conf);
             host := Validation.typesense_host conf;
             port := port_number;
             protocol := Validation.typesense_protocol conf;
             apiKey := Validation.typesense_search_api_key conf;
             placeholder := Config.typesense_placeholder (Validation.core conf);
             numTypos := Validation.typesense_num_typos conf;
             perPage := Validation.typesense_per_page conf;
             filterBy := Validation.typesense_filter_by conf;
             container := Config.typesense_container (Validation.core conf) |} in
        match json_dumps config with
        | Raises e => Raises e
        | Returns dumped =>
            let config_js := "window.TYPESENSE_CONFIG = " +:+ dumped +:+ ";" in
            let config_path :=
              Path.div (Path.div (app_outdir app) "_static")
                       "typesense-config.js" in
            match write_text w config_path config_js with
            | Raises e => Raises e
            | Returns _ => Returns (Some (config_path, config_js))
            end
        end
    end.

Definition index_documents (app : Application) (w : World Tag)
    (exception : option Exc.t) : Handled :=
  match exception with
  | Some _ =>
      {| result := Returns (); written := None; backend_journal := [];
         pagefind_run := None |}
  | None =>
      match _write_config_js app w with
      | Raises e =>
          {| result := Raises e; written := None; backend_journal := [];
             pagefind_run := None |}
      | Returns file =>
          if negb (Validation.typesense_enable_indexing (settings app)) then
            {| result := Returns (); written := file; backend_journal := [];
               pagefind_run := None |}
          else
            match get_backend (environ w) app with
            | TypesenseBackend =>
                match TypesenseBackend.is_available (typesense w)
                        TypesenseBackend.new_backend with
                | (Raises e, backend) =>
                    {| result := Raises e; written := file;
                       backend_journal := TypesenseBackend.journal backend;
                       pagefind_run := None |}
                | (Returns false, backend) =>
                    {| result := Returns (); written := file;
                       backend_journal := TypesenseBackend.journal backend;
                       pagefind_run := None |}
                | (Returns true, backend) =>
                    match TypesenseBackend.index_all (sphinx_of app)
                            (typesense w) backend with
                    | (Returns count, backend') =>
                        {| result := Returns (); written := file;
                           backend_journal := TypesenseBackend.journal backend';
                           pagefind_run := None |}
                    | (Raises e, backend') =>
                        {| result := Raises e; written := file;
                           backend_journal := TypesenseBackend.journal backend';
                           pagefind_run := None |}
                    end
                end
            | PagefindBackend =>
                if negb (PagefindBackend.is_available (pagefind w)) then
                  {| result := Returns (); written := file;
                     backend_journal := []; pagefind_run := None |}
                else
                  let run :=
                    PagefindBackend.index_all (sphinx_of app) (pagefind w) in
                  {| result := match run with
                               | Returns count => Returns ()
                               | Raises e => Raises e
                               end;
                     written := file; backend_journal := [];
                     pagefind_run := Some run |}
            end
      end
  end.

End Handler.

End Extension.

(* ===================================================================== *)
(** * Specification vocabulary *)
(* ===================================================================== *)

(** An admin API key is present when the configuration holds a non-empty
    key or the environment variable [TYPESENSE_API_KEY] is set to a
    non-empty value. *)
Definition admin_key_present (environ : gmap string string)
    (config : Config.Config) : Prop :=
  Config.typesense_api_key config ≠ ""
  ∨ ∃ k, environ !! Config.ENV_API_KEY = Some k ∧ k ≠ "".

Section HierarchyVocabulary.

Context {Tag : Type} `{!Bs4.Soup Tag}.

(** The hierarchy level a heading tag sets. *)
Definition heading_level (tag : string) : option nat :=
  if String.eqb tag "h1" then Some 0%nat
  else if String.eqb tag "h2" then Some 1%nat
  else if String.eqb tag "h3" then Some 2%nat
  else if String.eqb tag "h4" then Some 3%nat
  else None.

Definition heading_of (element : Tag) : option (nat * string) :=
  if Py.truthy (Bs4.get_text element)
  then (λ level, (level, Bs4.get_text element)) <$> heading_level (Bs4.name element)
  else None.

(** The headings with a non-empty trimmed text among [elements], the most
    recent first, each with its level and text. *)
Definition headings_seen (elements : list Tag) : list (nat * string) :=
  rev (omap heading_of elements).

(** The reset rule, read off the headings seen so far: the field of
    [level] holds the text of the most recent heading of that level, unless
    a heading of a higher rank (a smaller level) was seen after it, in which
    case it is empty; it is empty too when no such heading was seen. *)
Fixpoint most_recent (level : nat) (recent_first : list (nat * string)) : string :=
  match recent_first with
  | [] => ""
  | (k, text) :: older =>
      if (k =? level)%nat then text
      else if (k <? level)%nat then ""
      else most_recent level older
  end.

(** A hierarchy dictionary agrees with the headings seen. *)
Definition reflects (hierarchy : gmap string string)
    (recent_first : list (nat * string)) : Prop :=
  hierarchy !!! "lvl0" = most_recent 0 recent_first
  ∧ hierarchy !!! "lvl1" = most_recent 1 recent_first
  ∧ hierarchy !!! "lvl2" = most_recent 2 recent_first
  ∧ hierarchy !!! "lvl3" = most_recent 3 recent_first.

(** The hierarchy fields of a document agree with the headings seen. *)
Definition snapshot_of (d : TypesenseBackend.Document)
    (recent_first : list (nat * string)) : Prop :=
  TypesenseBackend.doc_hierarchy_lvl0 d = most_recent 0 recent_first
  ∧ TypesenseBackend.doc_hierarchy_lvl1 d = most_recent 1 recent_first
  ∧ TypesenseBackend.doc_hierarchy_lvl2 d = most_recent 2 recent_first
  ∧ TypesenseBackend.doc_hierarchy_lvl3 d = most_recent 3 recent_first.

(** The hierarchy dictionary once the loop of [_extract_documents] has
    gone through [elements]. *)
Definition hierarchy_after (app : Sphinx) (url_base : string)
    (hierarchy : gmap string string) (elements : list Tag)
    : gmap string string :=
  fold_left (λ h element, fst (TypesenseBackend.extract_step app url_base h element))
    elements hierarchy.

End HierarchyVocabulary.

(** The classes the connection check retries on and the bulk import
    degrades on: [ServiceUnavailable]; [Timeout] and [HTTPStatus0Error];
    [ConnectionError], [TimeoutError] and any other [OSError]. *)
Definition TRANSIENT : list Exc.class :=
  [ Exc.ServiceUnavailable; Exc.Timeout; Exc.HTTPStatus0Error;
    Exc.ConnectionError; Exc.TimeoutError; Exc.FileNotFoundError; Exc.OSError ].

(** A health check that fails in a way worth retrying: a transient error,
    or an answer that the server is not healthy. *)
Definition transient_failure (answer : outcome bool) : Prop :=
  match answer with
  | Returns healthy => healthy = false
  | Raises e => In (Exc.cls e) TRANSIENT
  end.

Definition authentication_failure (answer : outcome bool) : Prop :=
  match answer with
  | Returns _ => False
  | Raises e => Exc.cls e = Exc.RequestUnauthorized
  end.

(** The journal of [k] failed attempts, each but the third followed by its
    backoff sleep. *)
Definition failed_attempts (k : nat) : list TypesenseBackend.Event :=
  take (2 * k)
    [ TypesenseBackend.EvHealth; TypesenseBackend.EvSleep 1;
      TypesenseBackend.EvHealth; TypesenseBackend.EvSleep 2;
      TypesenseBackend.EvHealth ].

(** An item of the import result that reports a failure. *)
Definition item_failed (item : TypesenseBackend.ImportItem) : bool :=
  negb (default true (TypesenseBackend.item_success item)).

(** What the backend logs for the result of an import: a warning per
    failed item, then their number if there is any. *)
Definition import_warnings (result : list TypesenseBackend.ImportItem)
    : list TypesenseBackend.Event :=
  let failures := List.filter item_failed result in
  map (λ item,
         TypesenseBackend.EvWarning
           (TypesenseBackend.WarnDocumentFailed
              (default "Unknown error" (TypesenseBackend.item_error item))))
      failures
  ++ (if (0 <? length failures)%nat
      then [TypesenseBackend.EvWarning
              (TypesenseBackend.WarnImportErrors (length failures))]
      else []).

(** The backend after [events] more were journalled. *)
Definition journalled (b : TypesenseBackend.Backend)
    (events : list TypesenseBackend.Event) : TypesenseBackend.Backend :=
  {| TypesenseBackend._server_available := TypesenseBackend._server_available b;
     TypesenseBackend.journal := TypesenseBackend.journal b ++ events |}.

(** The patterns of [_parse_page_count], in the order it tries them. *)
Definition PAGE_COUNT_PATTERNS : list Re.Pattern :=
  [ PagefindBackend.INDEXED_PAGES; PagefindBackend.ON_PAGES;
    PagefindBackend.ANY_PAGES ].



(** The values the field [type] of a document takes. *)
Definition DOCUMENT_TYPES : list string :=
  ["lvl0"; "lvl1"; "lvl2"; "lvl3"; "content"].

(** The four hierarchy fields the extraction fills. *)
Definition levels (d : TypesenseBackend.Document)
    : string * string * string * string :=
  (TypesenseBackend.doc_hierarchy_lvl0 d, TypesenseBackend.doc_hierarchy_lvl1 d,
   TypesenseBackend.doc_hierarchy_lvl2 d, TypesenseBackend.doc_hierarchy_lvl3 d).

(** A document continues the hierarchy [prev] of the document before it:
    a content document repeats it, a heading document repeats the fields
    above its own level. *)
Definition continues (prev : string * string * string * string)
    (d : TypesenseBackend.Document) : Prop :=
  let '(p0, p1, p2, p3) := prev in
  (TypesenseBackend.doc_type d = "content" → levels d = prev)
  ∧ (TypesenseBackend.doc_type d = "lvl3" →
       TypesenseBackend.doc_hierarchy_lvl0 d = p0
       ∧ TypesenseBackend.doc_hierarchy_lvl1 d = p1
       ∧ TypesenseBackend.doc_hierarchy_lvl2 d = p2)
  ∧ (TypesenseBackend.doc_type d = "lvl2" →
       TypesenseBackend.doc_hierarchy_lvl0 d = p0
       ∧ TypesenseBackend.doc_hierarchy_lvl1 d = p1)
  ∧ (TypesenseBackend.doc_type d = "lvl1" →
       TypesenseBackend.doc_hierarchy_lvl0 d = p0).

(** Each document of the list continues the one before it, the first one
    continuing [prev]. *)
Fixpoint chained (prev : string * string * string * string)
    (documents : list TypesenseBackend.Document) : Prop :=
  match documents with
  | [] => True
  | d :: rest => continues prev d ∧ chained (levels d) rest
  end.

(** An element for which the loop of [_extract_documents] yields a
    document: one of the six tags, with a non-empty trimmed text. *)
Definition emits {Tag : Type} `{!Bs4.Soup Tag} (element : Tag) : bool :=
  Py.truthy (Bs4.get_text element)
  && Py.in_list (Bs4.name element) TypesenseBackend.EXTRACTED_TAGS.

(** What every document of a page scan satisfies; [url_base] is the
    relative url of the page. *)
Definition well_formed (url_base : string) (d : TypesenseBackend.Document)
    : Prop :=
  In (TypesenseBackend.doc_type d) DOCUMENT_TYPES
  ∧ (TypesenseBackend.doc_type d = "content" ↔ TypesenseBackend.doc_content d ≠ "")
  ∧ TypesenseBackend.doc_weight d = TypesenseBackend.doc_item_priority d
  ∧ In (TypesenseBackend.doc_weight d) [100; 90; 80; 70; 50]
  ∧ (TypesenseBackend.doc_type d = "content" ↔ TypesenseBackend.doc_weight d = 50)
  ∧ TypesenseBackend.doc_url_without_anchor d = url_base
  ∧ TypesenseBackend.doc_hierarchy_lvl4 d = ""
  ∧ TypesenseBackend.doc_hierarchy_lvl5 d = ""
  ∧ TypesenseBackend.doc_hierarchy_lvl6 d = ""
  ∧ TypesenseBackend.doc_language d ≠ ""
  ∧ (TypesenseBackend.doc_type d = "lvl0" → TypesenseBackend.doc_hierarchy_lvl0 d ≠ "")
  ∧ (TypesenseBackend.doc_type d = "lvl1" → TypesenseBackend.doc_hierarchy_lvl1 d ≠ "")
  ∧ (TypesenseBackend.doc_type d = "lvl2" → TypesenseBackend.doc_hierarchy_lvl2 d ≠ "")
  ∧ (TypesenseBackend.doc_type d = "lvl3" → TypesenseBackend.doc_hierarchy_lvl3 d ≠ "").

(** The four hierarchy values of the dictionary. *)
Definition levels_of (h : gmap string string)
    : string * string * string * string :=
  (h !!! "lvl0", h !!! "lvl1", h !!! "lvl2", h !!! "lvl3").

(** The keys of the levels the extraction never fills are absent. *)
Definition unfilled (h : gmap string string) : Prop :=
  h !! "lvl4" = None ∧ h !! "lvl5" = None ∧ h !! "lvl6" = None.

(** The events of the connection check: health checks, sleeps and its
    two warnings. *)
Definition is_probe (ev : TypesenseBackend.Event) : Prop :=
  match ev with
  | TypesenseBackend.EvHealth | TypesenseBackend.EvSleep _
  | TypesenseBackend.EvWarning TypesenseBackend.WarnAuthenticationFailed
  | TypesenseBackend.EvWarning TypesenseBackend.WarnServerUnreachable => True
  | _ => False
  end.

(** The events of the collection setup. *)
Definition is_setup (ev : TypesenseBackend.Event) : Prop :=
  match ev with
  | TypesenseBackend.EvDelete | TypesenseBackend.EvCreate
  | TypesenseBackend.EvWarning (TypesenseBackend.WarnCreateFailed _) => True
  | _ => False
  end.

(** The warnings that follow a bulk import. *)
Definition is_import_log (ev : TypesenseBackend.Event) : Prop :=
  match ev with
  | TypesenseBackend.EvWarning (TypesenseBackend.WarnDocumentFailed _)
  | TypesenseBackend.EvWarning (TypesenseBackend.WarnImportErrors _)
  | TypesenseBackend.EvWarning TypesenseBackend.WarnUnavailableDuringIndexing
  | TypesenseBackend.EvWarning TypesenseBackend.WarnImportTimedOut
  | TypesenseBackend.EvWarning TypesenseBackend.WarnConnectionLost => True
  | _ => False
  end.

(** The seconds slept in a journal. *)
Fixpoint total_sleep (events : list TypesenseBackend.Event) : Q :=
  match events with
  | [] => 0
  | TypesenseBackend.EvSleep seconds :: rest => seconds + total_sleep rest
  | _ :: rest => total_sleep rest
  end.

(** The ways the connection check ends on a fresh backend, after [k]
    failed attempts: the server answers that it is healthy; the API key is
    rejected; the three attempts are used up; an exception no handler
    names escapes. *)
Inductive check_ends {Tag : Type} (w : TypesenseBackend.World Tag)
    : outcome bool * TypesenseBackend.Backend → Prop :=
| ends_healthy (k : nat) :
    (k < 3)%nat →
    check_ends w
      (Returns true,
       {| TypesenseBackend._server_available := Some true;
          TypesenseBackend.journal :=
            failed_attempts k ++ [TypesenseBackend.EvHealth] |})
| ends_unauthorized (k : nat) :
    (k < 3)%nat →
    check_ends w
      (Returns false,
       {| TypesenseBackend._server_available := Some false;
          TypesenseBackend.journal :=
            failed_attempts k
            ++ [ TypesenseBackend.EvHealth;
                 TypesenseBackend.EvWarning
                   TypesenseBackend.WarnAuthenticationFailed ] |})
| ends_exhausted :
    check_ends w
      (Returns false,
       {| TypesenseBackend._server_available := Some false;
          TypesenseBackend.journal :=
            failed_attempts 3
            ++ [ TypesenseBackend.EvWarning
                   TypesenseBackend.WarnServerUnreachable ] |})
| ends_raising (k : nat) (e : Exc.t) :
    (k < 3)%nat →
    TypesenseBackend.is_healthy w k = Raises e →
    check_ends w
      (Raises e,
       {| TypesenseBackend._server_available := None;
          TypesenseBackend.journal :=
            failed_attempts k ++ [TypesenseBackend.EvHealth] |}).

(** The drop of the collection lets the setup go on: it is not asked
    for, or it succeeds, or there was nothing to drop. *)
Definition delete_passes {Tag : Type} (app : Sphinx)
    (w : TypesenseBackend.World Tag) : Prop :=
  Config.typesense_drop_existing (config app) = false
  ∨ match TypesenseBackend.collection_delete w with
    | Returns _ => True
    | Raises e => Exc.cls e = Exc.ObjectNotFound
    end.

(** The creation of the collection succeeds or reports, in any letter
    case, that the collection already exists. *)
Definition create_passes {Tag : Type} (w : TypesenseBackend.World Tag) : Prop :=
  match TypesenseBackend.collection_create w with
  | Returns _ => True
  | Raises e => Py.contains "already exists" (Py.lower_str (Exc.msg e)) = true
  end.

(** A string of decimal digits. *)
Fixpoint all_digits (s : string) : bool :=
  match s with
  | EmptyString => true
  | String c s' => Py.isdigit c && all_digits s'
  end.

(** A pattern whose groups capture digits. *)
Definition digit_groups (p : Re.Pattern) : Prop :=
  Forall (λ item, match item with
                  | Re.Group a => a = Re.Digit
                  | _ => True
                  end) p.

(** The themes the extension supports. *)
Definition SUPPORTED_THEMES : list string :=
  [ "sphinx_rtd_theme"; "furo"; "alabaster"; "pydata_sphinx_theme";
    "sphinx_book_theme"; "shibuya" ].

(** A search API key is present when the configuration holds a non-empty
    one or [TYPESENSE_SEARCH_API_KEY] is set to a non-empty value. *)
Definition search_key_present (environ : gmap string string)
    (config : Validation.Settings) : Prop :=
  Validation.typesense_search_api_key config ≠ ""
  ∨ ∃ k, environ !! Validation.ENV_SEARCH_API_KEY = Some k ∧ k ≠ "".

(** The number of typos is an integer from 0 to 2 and the number of
    results per page a positive integer. *)
Definition valid_numbers (config : Validation.Settings) : Prop :=
  (∃ n, Validation.typesense_num_typos config = Validation.VInt n ∧ 0 ≤ n ≤ 2)
  ∧ (∃ n, Validation.typesense_per_page config = Validation.VInt n ∧ 1 ≤ n).

(** What the Typesense backend needs to reach its server and to search. *)
Definition complete_for_typesense (environ : gmap string string)
    (config : Validation.Settings) : Prop :=
  Validation.typesense_host config ≠ ""
  ∧ Validation.typesense_port config ≠ ""
  ∧ admin_key_present environ (Validation.core config)
  ∧ search_key_present environ config.

(** What [index_all] journals once the collection is set up: nothing, or
    the warning that no document was found, or one bulk import of the
    extracted documents followed by the warnings about it. *)
Definition publication (documents : list TypesenseBackend.Document)
    (publish : list TypesenseBackend.Event) : Prop :=
  publish = []
  ∨ (publish = [TypesenseBackend.EvWarning TypesenseBackend.WarnNoDocuments]
     ∧ documents = [])
  ∨ ∃ logs, publish = TypesenseBackend.EvImport documents :: logs
            ∧ Forall is_import_log logs ∧ documents ≠ [].

(** The warnings about the HTML files that cannot be read or decoded, in
    the order of the files. *)
Definition unreadable {Tag : Type} (files : list (TypesenseBackend.HtmlFile Tag))
    : list TypesenseBackend.Event :=
  flat_map
    (λ html_file,
       match TypesenseBackend.file_soup html_file with
       | None =>
           [ TypesenseBackend.EvWarning
               (TypesenseBackend.WarnParseFailed
                  (TypesenseBackend.file_path html_file)) ]
       | Some _ => []
       end)
    files.

(** The warnings [parsed] of an extraction that is followed by [publish]:
    those about the unreadable files, in the order of the files, as far as
    the extraction went, and all of them once anything is published. *)
Definition parse_warnings {Tag : Type}
    (files : list (TypesenseBackend.HtmlFile Tag))
    (parsed publish : list TypesenseBackend.Event) : Prop :=
  (∃ rest, unreadable files = parsed ++ rest)
  ∧ (publish ≠ [] → parsed = unreadable files).

(** The bulk import of [documents] is called between the states [b] and
    [b'] of the backend. *)
Definition import_called (b b' : TypesenseBackend.Backend)
    (documents : list TypesenseBackend.Document) : Prop :=
  ∃ events,
    TypesenseBackend.journal b' = TypesenseBackend.journal b ++ events
    ∧ In (TypesenseBackend.EvImport documents) events.

(** [n] times the character [#]. *)
Fixpoint hashes (n : nat) : string :=
  match n with
  | O => ""
  | S n' => String "#" (hashes n')
  end.


(* ===================================================================== *)
(** * Sample inputs *)
(* ===================================================================== *)

Module Sample.

Import Dom.

Definition conf : Config.Config :=
  {| Config.typesense_backend := "auto";
     Config.typesense_api_key := "";
     Config.typesense_collection_name := "sphinx_docs";
     Config.typesense_doc_version := "";
     Config.typesense_content_selectors := None;
     Config.typesense_drop_existing := false;
     Config.typesense_container := "#typesense-search";
     Config.typesense_placeholder := "Search documentation...";
     Config.language := Some "en";
     Config.html_theme := Some "unknown_theme_xyz" |}.

Definition app : Sphinx := {| config := conf; outdir := [""; "build"; "html"] |}.

(** [<div class="body"><h1 id="x">Install</h1><h2> </h2><p>Steps here</p></div>] *)
Definition guide : Tag :=
  document
    [ Element "html" []
        [ Element "body" []
            [ Element "div" [("class", "body")]
                [ Element "h1" [("id", "x")] [Text "Install"];
                  Element "h2" [] [Text " "];
                  Element "p" [] [Text "Steps here"] ] ] ] ].

(** The empty [h2] of [guide]. *)
Definition guide_h2 : Tag := {| root := root guide; path := [0; 0; 0; 1]%nat |}.

(** [<section id="s"><span id="l"></span><a id="c"></a>
      <h2 id="a"><a id="b" name="n">x</a></h2></section>] *)
Definition anchors : Tag :=
  document
    [ Element "section" [("id", "s")]
        [ Element "span" [("id", "l")] [];
          Element "a" [("id", "c")] [];
          Element "h2" [("id", "a")]
            [ Element "a" [("id", "b"); ("name", "n")] [Text "x"] ] ] ].

(** The [h2] of [anchors]. *)
Definition anchors_h2 : Tag := {| root := root anchors; path := [0; 2]%nat |}.

(** [<body><div class="document"><h1>Title</h1></div></body>] *)
Definition document_only : Tag :=
  document
    [ Element "body" []
        [ Element "div" [("class", "document")]
            [ Element "h1" [] [Text "Title"] ] ] ].

(** [<body><main><div class="body"><p>Text</p></div></main></body>] *)
Definition main_around_body : Tag :=
  document
    [ Element "body" []
        [ Element "main" []
            [ Element "div" [("class", "body")]
                [ Element "p" [] [Text "Text"] ] ] ] ].

Definition guide_file : TypesenseBackend.HtmlFile Tag :=
  {| TypesenseBackend.file_path := [""; "build"; "html"; "guide.html"];
     TypesenseBackend.file_soup := Some guide |}.

Definition unavailable : Exc.t := Exc.Make Exc.ServiceUnavailable "Service Unavailable".
Definition timed_out : Exc.t := Exc.Make Exc.Timeout "Request timed out".
Definition unauthorized : Exc.t := Exc.Make Exc.RequestUnauthorized "Forbidden".

(** A server that is down for the whole build. *)
Definition server_down : TypesenseBackend.World Tag :=
  {| TypesenseBackend.is_healthy _ := Raises unavailable;
     TypesenseBackend.collection_delete := Raises unavailable;
     TypesenseBackend.collection_create := Raises unavailable;
     TypesenseBackend.documents_import _ := Raises unavailable;
     TypesenseBackend.html_files := [guide_file] |}.

(** A server that times out once and then rejects the API key. *)
Definition bad_key : TypesenseBackend.World Tag :=
  {| TypesenseBackend.is_healthy n :=
       match n with O => Raises timed_out | _ => Raises unauthorized end;
     TypesenseBackend.collection_delete := Raises unauthorized;
     TypesenseBackend.collection_create := Raises unauthorized;
     TypesenseBackend.documents_import _ := Raises unauthorized;
     TypesenseBackend.html_files := [guide_file] |}.

(** A server that answers the health check and then stops answering. *)
Definition lost_after_check : TypesenseBackend.World Tag :=
  {| TypesenseBackend.is_healthy _ := Returns true;
     TypesenseBackend.collection_delete := Raises timed_out;
     TypesenseBackend.collection_create := Raises timed_out;
     TypesenseBackend.documents_import _ := Raises timed_out;
     TypesenseBackend.html_files := [guide_file] |}.

(** A healthy server that has the collection and loses the connection
    during the import. *)
Definition lost_during_import : TypesenseBackend.World Tag :=
  {| TypesenseBackend.is_healthy _ := Returns true;
     TypesenseBackend.collection_delete := Returns ();
     TypesenseBackend.collection_create :=
       Raises (Exc.Make Exc.OtherException
                 "[Errno 409] A collection with name `sphinx_docs` already exists.");
     TypesenseBackend.documents_import _ :=
       Raises (Exc.Make Exc.ConnectionError "Connection reset by peer");
     TypesenseBackend.html_files := [guide_file] |}.


(** A healthy server that imports the first document and refuses the
    others. *)
Definition partial_import : TypesenseBackend.World Tag :=
  {| TypesenseBackend.is_healthy _ := Returns true;
     TypesenseBackend.collection_delete := Returns ();
     TypesenseBackend.collection_create := Returns ();
     TypesenseBackend.documents_import documents :=
       Returns
         (match documents with
          | [] => []
          | _ :: others =>
              {| TypesenseBackend.item_success := Some true;
                 TypesenseBackend.item_error := None |}
              :: map (λ _, {| TypesenseBackend.item_success := Some false;
                              TypesenseBackend.item_error := Some "Bad JSON." |})
                     others
          end);
     TypesenseBackend.html_files := [guide_file] |}.

Definition conf_with_key : Config.Config :=
  {| Config.typesense_backend := "auto";
     Config.typesense_api_key := "xyz_admin_key";
     Config.typesense_collection_name := "sphinx_docs";
     Config.typesense_doc_version := "";
     Config.typesense_content_selectors := None;
     Config.typesense_drop_existing := false;
     Config.typesense_container := "#typesense-search";
     Config.typesense_placeholder := "Search documentation...";
     Config.language := Some "en";
     Config.html_theme := Some "alabaster" |}.

Definition conf_pagefind_with_key : Config.Config :=
  {| Config.typesense_backend := "pagefind";
     Config.typesense_api_key := "test_key";
     Config.typesense_collection_name := "sphinx_docs";
     Config.typesense_doc_version := "";
     Config.typesense_content_selectors := None;
     Config.typesense_drop_existing := false;
     Config.typesense_container := "#typesense-search";
     Config.typesense_placeholder := "Search documentation...";
     Config.language := Some "en";
     Config.html_theme := Some "alabaster" |}.

(** Pagefind installed with npm; it reports its page count. *)
Definition pagefind_installed : PagefindBackend.World :=
  {| PagefindBackend.path_exists _ := true;
     PagefindBackend.find_spec _ := false;
     PagefindBackend.sys_executable := "/usr/bin/python3";
     PagefindBackend.which name :=
       if String.eqb name "pagefind" then Some "/usr/local/bin/pagefind" else None;
     PagefindBackend.subprocess_run _ _ :=
       Returns {| PagefindBackend.returncode := 0;
                  PagefindBackend.stdout :=
                    "Running Pagefind v1.0 on 30 pages. Indexed 25 pages successfully";
                  PagefindBackend.stderr := "" |} |}.



End Sample.

(** Inputs for the further properties. *)
Module MoreSamples.

Import Dom.

(** [<section id="s"><h2><a id="b">x</a></h2></section>] *)
Definition linked : Tag :=
  document
    [ Element "section" [("id", "s")]
        [ Element "h2" [] [ Element "a" [("id", "b")] [Text "x"] ] ] ].

(** The [h2] of [linked] and the anchor in it. *)
Definition linked_h2 : Tag := {| root := root linked; path := [0; 0]%nat |}.
Definition linked_a : Tag := {| root := root linked; path := [0; 0; 0]%nat |}.

(** [<div class="body"><h1>Install</h1><h2>Usage</h2></div>]: two
    headings without any anchor. *)
Definition plain : Tag :=
  document
    [ Element "div" [("class", "body")]
        [ Element "h1" [] [Text "Install"];
          Element "h2" [] [Text "Usage"] ] ].

Definition plain_h1 : Tag := {| root := root plain; path := [0; 0]%nat |}.
Definition plain_h2 : Tag := {| root := root plain; path := [0; 1]%nat |}.

(** A server that times out, then answers that it is not healthy, then is
    healthy. *)
Definition recovering : TypesenseBackend.World Tag :=
  {| TypesenseBackend.is_healthy n :=
       match n with
       | O => Raises Sample.timed_out
       | S O => Returns false
       | _ => Returns true
       end;
     TypesenseBackend.collection_delete := Returns ();
     TypesenseBackend.collection_create := Returns ();
     TypesenseBackend.documents_import _ := Returns [];
     TypesenseBackend.html_files := [Sample.guide_file] |}.

(** A configuration for the Typesense backend without a host and without a
    search key, and an environment that holds the admin key. *)
Definition incomplete : Validation.Settings :=
  {| Validation.core :=
       {| Config.typesense_backend := "typesense";
          Config.typesense_api_key := "";
          Config.typesense_collection_name := "sphinx_docs";
          Config.typesense_doc_version := "";
          Config.typesense_content_selectors := None;
          Config.typesense_drop_existing := false;
          Config.typesense_container := "#typesense-search";
          Config.typesense_placeholder := "Search documentation...";
          Config.language := Some "en";
          Config.html_theme := Some "furo" |};
     Validation.typesense_host := "";
     Validation.typesense_port := "8108";
     Validation.typesense_protocol := "http";
     Validation.typesense_search_api_key := "";
     Validation.typesense_num_typos := Validation.VInt 2;
     Validation.typesense_per_page := Validation.VInt 10;
     Validation.typesense_filter_by := "";
     Validation.typesense_enable_indexing := true |}.

Definition environ_with_admin_key : gmap string string :=
  {[ "TYPESENSE_API_KEY" := "xyz_admin_key" ]}.






(** [int] on the digits of a port, and a serialisation that stands for
    the one of [json]. *)
Definition py_int (s : string) : outcome Z := Builtins.int s.
Definition json_dumps (config : Extension.ConfigJs) : outcome string :=
  Returns "{}".

End MoreSamples.

(* ===================================================================== *)
(** * Properties *)
(* ===================================================================== *)

(** ** Python values *)

Lemma truthy_spec (s : string) : Py.truthy s = true ↔ s ≠ "".
Proof.
  unfold Py.truthy. destruct (String.eqb_spec s ""); simpl; split;
    intros; congruence.
Qed.

Lemma truthy_false (s : string) : Py.truthy s = false ↔ s = "".
Proof.
  unfold Py.truthy. destruct (String.eqb_spec s ""); simpl; split;
    intros; congruence.
Qed.

Lemma truthy_opt_spec (o : option string) :
  Py.truthy_opt o = true ↔ ∃ k, o = Some k ∧ k ≠ "".
Proof.
  destruct o as [k|]; simpl.
  - rewrite truthy_spec. split; [eauto | intros (k' & [= ->] & ?); done].
  - split; [done | intros (k & ? & _); done].
Qed.

(** ** C6: backend selection *)

Lemma admin_key_present_spec environ config :
  Py.truthy (Config.typesense_api_key config)
  || Py.truthy_opt (environ !! Config.ENV_API_KEY) = true
  ↔ admin_key_present environ config.
Proof.
  unfold admin_key_present.
  rewrite orb_true_iff, truthy_spec, truthy_opt_spec. done.
Qed.

(** C6. [get_effective_backend] resolves ['auto'] to ['typesense'] when an
    admin API key is present in the configuration or the environment and to
    ['pagefind'] when none is present anywhere; an explicit ['typesense'] or
    ['pagefind'] is returned unchanged whatever the keys are. *)
Theorem C6_get_effective_backend (environ : gmap string string)
    (config : Config.Config) :
  (Config.typesense_backend config = "auto" →
     (admin_key_present environ config →
        Config.get_effective_backend environ config = "typesense")
     ∧ (¬ admin_key_present environ config →
        Config.get_effective_backend environ config = "pagefind"))
  ∧ (Config.typesense_backend config = "typesense"
     ∨ Config.typesense_backend config = "pagefind" →
     Config.get_effective_backend environ config
     = Config.typesense_backend config).
Proof.
  unfold Config.get_effective_backend. split.
  - intros ->. simpl. split; intros Hk.
    + apply admin_key_present_spec in Hk. by rewrite Hk.
    + destruct (_ || _) eqn:E; [|done].
      apply admin_key_present_spec in E. done.
  - intros [-> | ->]; done.
Qed.

(** ** C9 and C4: the hierarchy of a page scan *)

Section Hierarchy.

Context {Tag : Type} `{!Bs4.Soup Tag}.

Implicit Types (app : Sphinx) (hierarchy h : gmap string string)
  (element e : Tag) (elements : list Tag).

Import TypesenseBackend.

Lemma extract_loop_app app url_base h before after :
  extract_loop app url_base h (before ++ after)
  = extract_loop app url_base h before
    ++ extract_loop app url_base (hierarchy_after app url_base h before) after.
Proof.
  revert h. induction before as [|e before IH]; intros h; simpl; [done|].
  destruct (extract_step app url_base h e) as [h' yielded] eqn:E; simpl.
  by rewrite IH, <- app_assoc.
Qed.

Lemma hierarchy_after_snoc app url_base h before e :
  hierarchy_after app url_base h (before ++ [e])
  = fst (extract_step app url_base (hierarchy_after app url_base h before) e).
Proof. unfold hierarchy_after. by rewrite fold_left_app. Qed.

(** C9. A matched element whose trimmed text is empty yields no document
    and leaves the hierarchy dictionary (all of [lvl0] to [lvl3]) as it
    was; so the page's documents are those of the page without it. *)
Theorem C9_empty_text_is_skipped app url_base hierarchy element :
  Bs4.get_text element = "" →
  extract_step app url_base hierarchy element = (hierarchy, [])
  ∧ ∀ h before after,
      extract_loop app url_base h (before ++ element :: after)
      = extract_loop app url_base h (before ++ after).
Proof.
  intros Hempty.
  assert (Hstep : ∀ h, extract_step app url_base h element = (h, [])).
  { intros h. unfold extract_step. rewrite Hempty. done. }
  split; [apply Hstep|].
  intros h before after. rewrite !extract_loop_app. f_equal.
  simpl. by rewrite Hstep.
Qed.

Lemma headings_seen_snoc before e :
  headings_seen (before ++ [e])
  = from_option (λ x, [x]) [] (heading_of e) ++ headings_seen before.
Proof.
  unfold headings_seen. rewrite omap_app, rev_app_distr. simpl.
  by destruct (heading_of e).
Qed.

Ltac lookup_levels :=
  rewrite ?lookup_total_insert_eq;
  repeat (rewrite lookup_total_insert_ne by done;
          rewrite ?lookup_total_insert_eq).

Lemma initial_hierarchy_reflects : reflects initial_hierarchy [].
Proof. unfold reflects, initial_hierarchy. repeat split; by lookup_levels. Qed.

(** One turn of the loop keeps the dictionary in step with the headings
    seen. *)
Lemma extract_step_reflects app url_base h e seen :
  reflects h seen →
  reflects (fst (extract_step app url_base h e))
           (from_option (λ x, [x]) [] (heading_of e) ++ seen).
Proof.
  intros (H0 & H1 & H2 & H3).
  unfold extract_step, heading_of, heading_level.
  destruct (Py.truthy (Bs4.get_text e)); simpl; [|done].
  destruct (String.eqb (Bs4.name e) "h1"); simpl.
  { unfold reflects; simpl. repeat split; by lookup_levels. }
  destruct (String.eqb (Bs4.name e) "h2"); simpl.
  { unfold reflects; simpl. repeat split; by lookup_levels. }
  destruct (String.eqb (Bs4.name e) "h3"); simpl.
  { unfold reflects; simpl. repeat split; by lookup_levels. }
  destruct (String.eqb (Bs4.name e) "h4"); simpl.
  { unfold reflects; simpl. repeat split; by lookup_levels. }
  match goal with |- context [if ?c then _ else _] => by destruct c end.
Qed.

Lemma hierarchy_after_reflects app url_base before :
  reflects (hierarchy_after app url_base initial_hierarchy before)
           (headings_seen before).
Proof.
  induction before as [|e before IH] using rev_ind.
  - apply initial_hierarchy_reflects.
  - rewrite hierarchy_after_snoc, headings_seen_snoc.
    by apply extract_step_reflects.
Qed.

(** A yielded document copies the dictionary as the step leaves it. *)
Lemma extract_step_snapshot app url_base h e d :
  d ∈ snd (extract_step app url_base h e) →
  doc_hierarchy_lvl0 d = fst (extract_step app url_base h e) !!! "lvl0"
  ∧ doc_hierarchy_lvl1 d = fst (extract_step app url_base h e) !!! "lvl1"
  ∧ doc_hierarchy_lvl2 d = fst (extract_step app url_base h e) !!! "lvl2"
  ∧ doc_hierarchy_lvl3 d = fst (extract_step app url_base h e) !!! "lvl3".
Proof.
  unfold extract_step.
  repeat (match goal with |- context [if ?c then _ else _] => destruct c end);
    simpl; intros Hd; try (by apply elem_of_nil in Hd);
    apply list_elem_of_singleton in Hd; by subst d.
Qed.

(** The four keys stay in the dictionary, so [_create_document] never
    meets a missing key. *)
Lemma extract_step_keys app url_base h e key :
  is_Some (h !! key) → is_Some (fst (extract_step app url_base h e) !! key).
Proof.
  intros Hkey. unfold extract_step.
  repeat (match goal with |- context [if ?c then _ else _] => destruct c end);
    simpl; rewrite ?lookup_insert_is_Some'; auto 10.
Qed.

(** C4. Every document a page scan emits carries the hierarchy the reset
    rule gives for the headings seen up to and including its element: an
    [h1] sets [lvl0] and empties [lvl1], [lvl2], [lvl3]; an [h2] sets [lvl1]
    and empties [lvl2], [lvl3]; an [h3] sets [lvl2] and empties [lvl3].  So
    the document of an [h2] holds no [lvl2] or [lvl3] from before it, and a
    fortiori none from before the most recent [h1]. *)
Theorem C4_hierarchy_reset_rule app url_base before element after :
  let h := hierarchy_after app url_base initial_hierarchy before in
  let yielded := snd (extract_step app url_base h element) in
  extract_loop app url_base initial_hierarchy (before ++ element :: after)
  = extract_loop app url_base initial_hierarchy before
    ++ yielded
    ++ extract_loop app url_base (fst (extract_step app url_base h element)) after
  ∧ ∀ d, d ∈ yielded →
      snapshot_of d (headings_seen (before ++ [element]))
      ∧ (Bs4.name element = "h1" →
           doc_hierarchy_lvl0 d = Bs4.get_text element
           ∧ doc_hierarchy_lvl1 d = "" ∧ doc_hierarchy_lvl2 d = ""
           ∧ doc_hierarchy_lvl3 d = "")
      ∧ (Bs4.name element = "h2" →
           doc_hierarchy_lvl1 d = Bs4.get_text element
           ∧ doc_hierarchy_lvl2 d = "" ∧ doc_hierarchy_lvl3 d = "")
      ∧ (Bs4.name element = "h3" →
           doc_hierarchy_lvl2 d = Bs4.get_text element
           ∧ doc_hierarchy_lvl3 d = "").
Proof.
  intros h yielded. split.
  - rewrite extract_loop_app. f_equal. simpl. fold h.
    by destruct (extract_step app url_base h element).
  - intros d Hd.
    assert (Htext : Py.truthy (Bs4.get_text element) = true).
    { subst yielded. unfold extract_step in Hd.
      destruct (Py.truthy _); [done | by apply elem_of_nil in Hd]. }
    destruct (extract_step_snapshot _ _ _ _ _ Hd) as (E0 & E1 & E2 & E3).
    pose proof (extract_step_reflects app url_base h element _
                  (hierarchy_after_reflects app url_base before))
      as (R0 & R1 & R2 & R3).
    rewrite <- headings_seen_snoc in R0, R1, R2, R3.
    split; [unfold snapshot_of; by rewrite E0, E1, E2, E3|].
    rewrite E0, E1, E2, E3, R0, R1, R2, R3, headings_seen_snoc.
    unfold heading_of, heading_level. rewrite Htext.
    split; [|split]; intros Hname; rewrite Hname; done.
Qed.

End Hierarchy.

(** ** C5 and C7: the document factory *)

Lemma hexdigit_in (n : N) : In (Sha256.hexdigit n) Sha256.hexdigits.
Proof.
  unfold Sha256.hexdigit. apply nth_In.
  change (length Sha256.hexdigits) with 16%nat.
  pose proof (N.mod_upper_bound n 16). lia.
Qed.

(** The first 32 characters of a digest are the first four words. *)
Lemma hexdigest_slice (msg : list N) :
  Py.slice_to 32 (Sha256.hexdigest msg)
  = let s := Sha256.sha256 msg in
    Sha256.hex8 (Sha256.wa s) (Sha256.hex8 (Sha256.wb s)
      (Sha256.hex8 (Sha256.wc s) (Sha256.hex8 (Sha256.wd s) ""))).
Proof.
  unfold Sha256.hexdigest. generalize (Sha256.sha256 msg). intros s.
  reflexivity.
Qed.

Lemma sha256_abc :
  Sha256.hexdigest (Py.encode "abc")
  = "ba7816bf8f01cfea414140de5dae2223b00361a396177a9cb410ff61f20015ad".
Proof. vm_compute. reflexivity. Qed.

Lemma sha256_two_blocks :
  Sha256.hexdigest
    (Py.encode "abcdbcdecdefdefgefghfghighijhijkijkljklmklmnlmnomnopnopq")
  = "248d6a61d20638b8e5c026930c3e6039a33ce45964ff2167f6ecedd419db06c1".
Proof. vm_compute. reflexivity. Qed.

Section Factory.

Context {Tag : Type} `{!Bs4.Soup Tag}.

Import TypesenseBackend.

(** C5. The id of a document is the SHA-256 digest, in lowercase
    hexadecimal, of its url (with the anchor when one was resolved), a
    colon and the first 100 characters of its content, cut to its first 32
    characters. *)
Theorem C5_document_id (app : Sphinx) (hierarchy : gmap string string)
    (content url_base : string) (element : Tag) (doc_type : string) :
  let d := _create_document app hierarchy content url_base element doc_type in
  doc_id d
  = Py.slice_to 32
      (Sha256.hexdigest
         (Py.encode (doc_url d +:+ ":" +:+ Py.slice_to 100 (doc_content d))))
  ∧ doc_url d
    = (if Py.truthy (doc_anchor d)
       then doc_url_without_anchor d +:+ "#" +:+ doc_anchor d
       else doc_url_without_anchor d)
  ∧ String.length (doc_id d) = 32%nat
  ∧ Forall (λ c, In c Sha256.hexdigits) (list_ascii_of_string (doc_id d)).
Proof.
  intros d. subst d. unfold _create_document. cbn [doc_id doc_url doc_content
    doc_anchor doc_url_without_anchor].
  split; [done|]. split; [done|].
  rewrite hexdigest_slice. cbv zeta.
  generalize (Sha256.sha256
    (Py.encode
       ((if Py.truthy (Py.or_str (default "" (Bs4.get element "id"))
                                 (_find_anchor element))
         then url_base +:+ "#" +:+
              Py.or_str (default "" (Bs4.get element "id")) (_find_anchor element)
         else url_base) +:+ ":" +:+ Py.slice_to 100 content))).
  intros s. split; [reflexivity|].
  unfold Sha256.hex8. cbn [list_ascii_of_string].
  repeat (apply Forall_cons; split; [apply hexdigit_in|]).
  apply Forall_nil_2.
Qed.

(** C7. An element with a non-empty [id] of its own resolves to that id,
    whatever anchors its descendants, its preceding sibling or an enclosing
    section carry; the document built for it has that anchor and the url
    ending in it. *)
Theorem C7_own_id_wins (element : Tag) (own : string) :
  Bs4.get element "id" = Some own →
  own ≠ "" →
  _find_anchor element = own
  ∧ ∀ app hierarchy content url_base doc_type,
      let d := _create_document app hierarchy content url_base element doc_type in
      doc_anchor d = own ∧ doc_url d = url_base +:+ "#" +:+ own.
Proof.
  intros Hid Hown. apply truthy_spec in Hown.
  assert (Hfind : _find_anchor element = own).
  { unfold _find_anchor. rewrite Hid. simpl. by rewrite Hown. }
  split; [done|]. intros app hierarchy content url_base doc_type d. subst d.
  unfold _create_document. cbn [doc_anchor doc_url].
  rewrite Hid. simpl. unfold Py.or_str. by rewrite Hown, Hown.
Qed.

End Factory.

(** The id the model computes for the heading of the sample page is the
    one [hashlib] gives for ["guide.html#x:"]. *)
Lemma sample_document_id :
  TypesenseBackend.doc_id <$>
    TypesenseBackend._extract_documents Sample.app
      {| TypesenseBackend.file_path := [""; "build"; "html"; "guide.html"];
         TypesenseBackend.file_soup := Some Sample.guide |}
  = ["6037fa6043590f6fc0d99ea850e32302"; "3c678fe3c0f1b05d2748a69a7abccda0"].
Proof. vm_compute. reflexivity. Qed.

(** ** C1: the selectors of the content locator *)

Section Locator.

Context {Tag : Type} `{!Bs4.Soup Tag}.

Import TypesenseBackend.

(** Without selectors in the configuration the locator tries the list
    written in [_get_content_element], whatever the theme is. *)
Lemma content_selectors_without_custom (app : Sphinx) :
  Py.truthy_list (Config.typesense_content_selectors (config app)) = false →
  content_selectors app
  = [ ".wy-nav-content-wrap"; "article.bd-article"; ".body";
      "article[role=main]"; "main" ].
Proof. intros Hnone. unfold content_selectors. by rewrite Hnone. Qed.

(** The locator returns the match of the first selector that has one. *)
Lemma first_match_spec (soup : Tag) (selectors : list string) (found : Tag) :
  first_match soup selectors = Some found ↔
  ∃ before selector after,
    selectors = before ++ selector :: after
    ∧ Forall (λ s, Bs4.select_one soup s = None) before
    ∧ Bs4.select_one soup selector = Some found.
Proof.
  induction selectors as [|s selectors IH]; simpl.
  - split; [done|]. intros (before & ? & ? & Heq & _). by destruct before.
  - destruct (Bs4.select_one soup s) as [element|] eqn:E.
    + split.
      * intros [= ->]. exists [], s, selectors. by repeat split.
      * intros ([|s' before] & selector & after & [= -> ->] & Hnone & Hsel).
        { congruence. }
        { apply Forall_cons_1 in Hnone as [Hs _]. congruence. }
    + rewrite IH. split.
      * intros (before & selector & after & -> & Hnone & Hsel).
        exists (s :: before), selector, after. repeat split; [|done].
        by apply Forall_cons.
      * intros ([|s' before] & selector & after & [= -> ->] & Hnone & Hsel).
        { congruence. }
        { apply Forall_cons_1 in Hnone as [_ Hnone]. eauto 10. }
Qed.

End Locator.

(** C1. With the theme ["unknown_theme_xyz"] and no selectors configured,
    the theme registry answers the generic fallback list, but the content
    locator of the backend tries its own list: on a page whose content sits
    in [.document] it finds nothing where the generic list finds the
    element, and on a page with [.body] inside [main] it returns the
    [.body] element where the generic list returns [main]. *)
Theorem C1_locator_ignores_theme_registry :
  Themes.get_content_selectors_for_app Sample.conf
  = ["article[role=main]"; "main"; ".body"; ".document"; "[role=main]"]
  ∧ TypesenseBackend.content_selectors Sample.app
    = [ ".wy-nav-content-wrap"; "article.bd-article"; ".body";
        "article[role=main]"; "main" ]
  ∧ TypesenseBackend._get_content_element Sample.app Sample.document_only = None
  ∧ TypesenseBackend.first_match Sample.document_only
      (Themes.get_content_selectors_for_app Sample.conf)
    = Some {| Dom.root := Dom.root Sample.document_only; Dom.path := [0; 0]%nat |}
  ∧ TypesenseBackend._get_content_element Sample.app Sample.main_around_body
    = Some {| Dom.root := Dom.root Sample.main_around_body;
              Dom.path := [0; 0; 0]%nat |}
  ∧ TypesenseBackend.first_match Sample.main_around_body
      (Themes.get_content_selectors_for_app Sample.conf)
    = Some {| Dom.root := Dom.root Sample.main_around_body;
              Dom.path := [0; 0]%nat |}.
Proof. repeat split; vm_compute; reflexivity. Qed.

(** ** C3: the connection check *)

Section Connection.

Context {Tag : Type} `{!Bs4.Soup Tag}.

Import TypesenseBackend.

Lemma journalled_twice (b : Backend) (l1 l2 : list Event) :
  journalled (journalled b l1) l2 = journalled b (l1 ++ l2).
Proof. unfold journalled. simpl. by rewrite app_assoc. Qed.

Lemma catches_transient (e : Exc.t) :
  In (Exc.cls e) TRANSIENT →
  Exc.catches [Exc.RequestUnauthorized] e = false
  ∧ (Exc.catches [Exc.ServiceUnavailable] e
     || Exc.catches [Exc.Timeout; Exc.HTTPStatus0Error] e
     || Exc.catches [Exc.ConnectionError; Exc.TimeoutError; Exc.OSError] e) = true.
Proof.
  destruct e as [c m]. unfold TRANSIENT, Exc.catches. simpl.
  intros Hin. repeat (destruct Hin as [<- | Hin]; [by vm_compute|]). done.
Qed.

(** One turn of the retry loop, by the answer of the server. *)
Lemma retry_loop_cons (w : World Tag) attempt rest backoff b :
  retry_loop w (attempt :: rest) backoff b
  = let next :=
      if (attempt <? MAX_RETRIES)%nat
      then retry_loop w rest (backoff * BACKOFF_MULTIPLIER)%Q
             (journalled b [EvHealth; EvSleep backoff])
      else retry_loop w rest backoff (journalled b [EvHealth]) in
    match is_healthy w (health_calls b) with
    | Returns true =>
        (Returns true,
         {| _server_available := Some true; journal := journal b ++ [EvHealth] |})
    | Returns false => next
    | Raises e =>
        if Exc.catches [Exc.RequestUnauthorized] e then
          (Returns false,
           {| _server_available := Some false;
              journal := journal b ++ [EvHealth; EvWarning WarnAuthenticationFailed] |})
        else if Exc.catches [Exc.ServiceUnavailable] e
                || Exc.catches [Exc.Timeout; Exc.HTTPStatus0Error] e
                || Exc.catches [Exc.ConnectionError; Exc.TimeoutError; Exc.OSError] e
        then next
        else (Raises e, journalled b [EvHealth])
    end.
Proof.
  cbn [retry_loop]. unfold mbind, M_bind, call, emit, mret, M_ret, journalled.
  simpl.
  destruct (is_healthy w (health_calls b)) as [[|]|e]; simpl;
    repeat (match goal with |- context [if ?c then _ else _] => destruct c end;
            simpl);
    cbn [journal _server_available]; rewrite <- ?app_assoc; done.
Qed.

Lemma retry_loop_failure (w : World Tag) attempt rest backoff b :
  transient_failure (is_healthy w (health_calls b)) →
  retry_loop w (attempt :: rest) backoff b
  = if (attempt <? MAX_RETRIES)%nat
    then retry_loop w rest (backoff * BACKOFF_MULTIPLIER)%Q
           (journalled b [EvHealth; EvSleep backoff])
    else retry_loop w rest backoff (journalled b [EvHealth]).
Proof.
  intros Hfail. rewrite retry_loop_cons. cbv zeta.
  destruct (is_healthy w (health_calls b)) as [[|]|e]; simpl in Hfail;
    [done | done |].
  apply catches_transient in Hfail as [-> ->]. done.
Qed.

Lemma retry_loop_unauthorized (w : World Tag) attempt rest backoff b :
  authentication_failure (is_healthy w (health_calls b)) →
  retry_loop w (attempt :: rest) backoff b
  = (Returns false,
     {| _server_available := Some false;
        journal := journal b ++ [EvHealth; EvWarning WarnAuthenticationFailed] |}).
Proof.
  intros Hauth. rewrite retry_loop_cons. cbv zeta.
  destruct (is_healthy w (health_calls b)) as [?|[c m]]; simpl in Hauth;
    [done|]. by subst c.
Qed.

Ltac start_check :=
  unfold _check_connection;
  change (_server_available new_backend) with (@None bool); cbv iota;
  change (seq 1 MAX_RETRIES) with [1; 2; 3]%nat.

Ltac failed_attempt Hfail :=
  rewrite retry_loop_failure by (apply Hfail; vm_compute; lia);
  cbv beta iota delta [Nat.ltb Nat.leb MAX_RETRIES].

(** Three failed attempts: sleeps of 1 and 2 seconds between them, none
    after the third. *)
Lemma check_connection_exhausted (w : World Tag) :
  (∀ n, (n < 3)%nat → transient_failure (is_healthy w n)) →
  _check_connection w new_backend
  = (Returns false,
     {| _server_available := Some false;
        journal := failed_attempts 3 ++ [EvWarning WarnServerUnreachable] |}).
Proof.
  intros Hfail. start_check.
  failed_attempt Hfail. rewrite ?journalled_twice.
  failed_attempt Hfail. rewrite ?journalled_twice.
  failed_attempt Hfail. rewrite ?journalled_twice.
  reflexivity.
Qed.

(** A rejected key at attempt [k] (counted from 0), after [k] failed
    attempts: nothing follows the health check but the warning. *)
Lemma check_connection_unauthorized (w : World Tag) (k : nat) :
  (k < 3)%nat →
  (∀ n, (n < k)%nat → transient_failure (is_healthy w n)) →
  authentication_failure (is_healthy w k) →
  _check_connection w new_backend
  = (Returns false,
     {| _server_available := Some false;
        journal := failed_attempts k
                   ++ [EvHealth; EvWarning WarnAuthenticationFailed] |}).
Proof.
  intros Hk Hfail Hauth. start_check.
  destruct k as [|[|[|k]]]; [| | |lia].
  - by rewrite retry_loop_unauthorized.
  - failed_attempt Hfail.
    by rewrite retry_loop_unauthorized.
  - failed_attempt Hfail. rewrite ?journalled_twice.
    failed_attempt Hfail. rewrite ?journalled_twice.
    by rewrite retry_loop_unauthorized.
Qed.

(** C3. On a fresh backend, if each of the three health checks fails with
    a transient error, [is_available] returns false after sleeping 1 second
    and then 2 seconds between the attempts and not after the last one; if
    an attempt is rejected for its API key, [is_available] returns false at
    once: the journal ends with that health check and the warning, with no
    further attempt and no sleep after it. *)
Theorem C3_connection_retry (w : World Tag) :
  ((∀ n, (n < 3)%nat → transient_failure (is_healthy w n)) →
     is_available w new_backend
     = (Returns false,
        {| _server_available := Some false;
           journal := [ EvHealth; EvSleep 1; EvHealth; EvSleep 2; EvHealth;
                        EvWarning WarnServerUnreachable ] |}))
  ∧ (∀ k, (k < 3)%nat →
       (∀ n, (n < k)%nat → transient_failure (is_healthy w n)) →
       authentication_failure (is_healthy w k) →
       is_available w new_backend
       = (Returns false,
          {| _server_available := Some false;
             journal := failed_attempts k
                        ++ [EvHealth; EvWarning WarnAuthenticationFailed] |})).
Proof.
  split.
  - intros Hfail. unfold is_available.
    by rewrite check_connection_exhausted.
  - intros k Hk Hfail Hauth. unfold is_available.
    by apply check_connection_unauthorized.
Qed.

End Connection.

(** ** C2 and C10: what [index_all] returns *)

Section IndexAll.

Context {Tag : Type} `{!Bs4.Soup Tag}.

Import TypesenseBackend.

Implicit Types (app : Sphinx) (w : World Tag) (b : Backend).

Lemma log_import_errors_spec (result : list ImportItem) b :
  log_import_errors result b
  = (Returns (length (List.filter item_failed result)),
     journalled b
       (map (λ item, EvWarning (WarnDocumentFailed
                                  (default "Unknown error" (item_error item))))
            (List.filter item_failed result))).
Proof.
  revert b. induction result as [|item result IH]; intros b.
  - unfold journalled. simpl. rewrite app_nil_r. by destruct b.
  - cbn [log_import_errors List.filter]. fold (item_failed item).
    destruct (item_failed item); [|apply IH].
    unfold mbind, M_bind, warning, emit, mret, M_ret. rewrite IH.
    unfold journalled. simpl. by rewrite <- app_assoc.
Qed.

(** [index_all] once the connection check has failed. *)
Lemma index_all_unavailable app w b b1 :
  _check_connection w b = (Returns false, b1) →
  index_all app w b = (Returns 0, b1).
Proof. intros Hcheck. unfold index_all, mbind, M_bind. by rewrite Hcheck. Qed.

(** [index_all] when dropping or creating the collection raises. *)
Lemma index_all_collection_raises app w b b1 b2 e :
  _check_connection w b = (Returns true, b1) →
  _ensure_collection app w b1 = (Raises e, b2) →
  index_all app w b = (Raises e, b2).
Proof.
  intros Hcheck Hensure. unfold index_all, mbind, M_bind.
  rewrite Hcheck. simpl. by rewrite Hensure.
Qed.

Lemma extract_all_spec app (files : list (HtmlFile Tag)) b :
  extract_all app files b
  = (Returns (flat_map (_extract_documents app) files),
     journalled b (unreadable files)).
Proof.
  revert b. induction files as [|html_file files IH]; intros b.
  - unfold journalled. simpl. rewrite app_nil_r. by destruct b.
  - cbn [extract_all flat_map unreadable]. fold (unreadable files).
    unfold mbind, M_bind, warning, emit, mret, M_ret.
    destruct (file_soup html_file); rewrite IH; unfold journalled; simpl;
      [done|]. by rewrite <- app_assoc.
Qed.

(** [index_all] from the scan of the HTML files on. *)
Lemma index_all_import app w b b1 b2 :
  _check_connection w b = (Returns true, b1) →
  _ensure_collection app w b1 = (Returns (), b2) →
  index_all app w b
  = let documents := flat_map (_extract_documents app) (html_files w) in
    let b3 := journalled b2 (unreadable (html_files w)) in
    match documents with
    | [] => (Returns 0, journalled b3 [EvWarning WarnNoDocuments])
    | _ :: _ =>
        match documents_import w documents with
        | Returns result =>
            (Returns (Z.of_nat (length documents)),
             journalled b3 (EvImport documents :: import_warnings result))
        | Raises e =>
            if Exc.catches [Exc.ServiceUnavailable] e then
              (Returns 0, journalled b3 [EvImport documents;
                                         EvWarning WarnUnavailableDuringIndexing])
            else if Exc.catches [Exc.Timeout; Exc.HTTPStatus0Error] e then
              (Returns 0, journalled b3 [EvImport documents;
                                         EvWarning WarnImportTimedOut])
            else if Exc.catches [Exc.ConnectionError; Exc.TimeoutError; Exc.OSError] e
            then (Returns 0, journalled b3 [EvImport documents;
                                            EvWarning WarnConnectionLost])
            else (Raises e, journalled b3 [EvImport documents])
        end
    end.
Proof.
  intros Hcheck Hensure. unfold index_all, mbind, M_bind.
  rewrite Hcheck. simpl. rewrite Hensure. rewrite extract_all_spec. cbv zeta.
  generalize (journalled b2 (unreadable (html_files w))). intros b3.
  destruct (flat_map (_extract_documents app) (html_files w)) as [|d documents];
    [done|].
  unfold call, mbind, M_bind, emit, mret, M_ret. simpl.
  destruct (documents_import w (d :: documents)) as [result|e].
  - rewrite log_import_errors_spec. unfold import_warnings, journalled. simpl.
    destruct (0 <? _)%nat; simpl; rewrite <- ?app_assoc; simpl; try done.
    by rewrite app_nil_r.
  - unfold journalled.
    repeat (match goal with |- context [if ?c then _ else _] => destruct c end;
            simpl);
    rewrite <- ?app_assoc; done.
Qed.

(** C2 (as the code has it). [index_all] returns 0 and raises nothing
    when the connection check fails, be it on three transient failures or
    on a rejected API key, and when the bulk import raises
    [ServiceUnavailable], [Timeout], [HTTPStatus0Error], [ConnectionError],
    [TimeoutError] or another [OSError] after the documents were extracted.
    An exception raised while the collection is dropped or created is
    raised again by [index_all]. *)
Theorem C2_index_all_degrades_to_zero app w :
  ((∀ n, (n < 3)%nat → transient_failure (is_healthy w n)) →
     fst (index_all app w new_backend) = Returns 0)
  ∧ (∀ k, (k < 3)%nat →
       (∀ n, (n < k)%nat → transient_failure (is_healthy w n)) →
       authentication_failure (is_healthy w k) →
       fst (index_all app w new_backend) = Returns 0)
  ∧ (∀ b b1 b2 e,
       _check_connection w b = (Returns true, b1) →
       _ensure_collection app w b1 = (Returns (), b2) →
       documents_import w (flat_map (_extract_documents app) (html_files w))
       = Raises e →
       In (Exc.cls e) TRANSIENT →
       fst (index_all app w b) = Returns 0)
  ∧ (∀ b b1 b2 e,
       _check_connection w b = (Returns true, b1) →
       _ensure_collection app w b1 = (Raises e, b2) →
       index_all app w b = (Raises e, b2)).
Proof.
  repeat split.
  - intros Hfail.
    by rewrite (index_all_unavailable _ _ _ _ (check_connection_exhausted w Hfail)).
  - intros k Hk Hfail Hauth.
    by rewrite (index_all_unavailable _ _ _ _
                  (check_connection_unauthorized w k Hk Hfail Hauth)).
  - intros b b1 b2 e Hcheck Hensure Himport Hclass.
    rewrite (index_all_import _ _ _ _ _ Hcheck Hensure). cbv zeta.
    destruct (flat_map _ _); [done|]. rewrite Himport.
    apply catches_transient in Hclass as [_ Hcaught].
    repeat (match goal with |- context [if ?c then _ else _] => destruct c end;
            simpl in *); done.
  - intros b b1 b2 e. apply index_all_collection_raises.
Qed.

(** [index_all] once the bulk import has returned. *)
Lemma index_all_counts_documents app w b b1 b2 result :
  _check_connection w b = (Returns true, b1) →
  _ensure_collection app w b1 = (Returns (), b2) →
  documents_import w (flat_map (_extract_documents app) (html_files w))
  = Returns result →
  ∃ b3,
    index_all app w b
    = (Returns (Z.of_nat (length (flat_map (_extract_documents app) (html_files w)))),
       b3)
    ∧ (flat_map (_extract_documents app) (html_files w) ≠ [] →
       journal b3
       = journal b2
         ++ unreadable (html_files w)
         ++ EvImport (flat_map (_extract_documents app) (html_files w))
            :: import_warnings result).
Proof.
  intros Hcheck Hensure Himport.
  rewrite (index_all_import _ _ _ _ _ Hcheck Hensure). cbv zeta.
  destruct (flat_map _ _) as [|d documents] eqn:Hdocs.
  - eexists. split; [reflexivity | done].
  - rewrite Himport. eexists. split; [reflexivity|]. intros _.
    cbn [journalled journal]. by rewrite <- app_assoc.
Qed.

End IndexAll.

(** ** C8: the Pagefind backend *)

Section Pagefind.

Import PagefindBackend.


Lemma int_within_limit (digits : string) :
  (String.length digits ≤ 4300)%nat →
  Builtins.int digits = Returns (Py.int digits).
Proof.
  intros Hlength. unfold Builtins.int, Builtins.INT_MAX_STR_DIGITS. cbv zeta.
  destruct (Nat.ltb_spec 4300 (String.length digits)); [lia | done].
Qed.




End Pagefind.

(** The outputs of the test suite of the backend. *)
Lemma parse_page_count_examples :
  map PagefindBackend._parse_page_count
    [ "Indexed 42 pages"; "Indexed 1 page"; "Successfully Indexed 100 pages in 2s";
      "Running Pagefind on 100 pages"; "Working on 50 pages...";
      "Found 5 pages to index"; "Processing 25 pages";
      "No match here"; ""; "Some random output";
      "INDEXED 10 PAGES"; "indexed 20 Pages" ]
  = map Returns [42; 1; 100; 100; 50; 5; 25; 0; 0; 0; 10; 20].
Proof. vm_compute. reflexivity. Qed.

(** ** The properties on the sample inputs *)

Lemma C6_get_effective_backend_witness :
  Config.get_effective_backend ∅ Sample.conf_with_key = "typesense"
  ∧ Config.get_effective_backend {[ "TYPESENSE_API_KEY" := "env_key" ]} Sample.conf
    = "typesense"
  ∧ Config.get_effective_backend ∅ Sample.conf = "pagefind"
  ∧ Config.get_effective_backend ∅ Sample.conf_pagefind_with_key = "pagefind".
Proof.
  split; [|split; [|split]].
  - apply (C6_get_effective_backend ∅ Sample.conf_with_key); [reflexivity|].
    left. discriminate.
  - apply (C6_get_effective_backend {[ "TYPESENSE_API_KEY" := "env_key" ]}
             Sample.conf); [reflexivity|].
    right. exists "env_key". split; [reflexivity | discriminate].
  - apply (C6_get_effective_backend ∅ Sample.conf); [reflexivity|].
    intros [Hkey | (k & Hk & _)]; [by apply Hkey | discriminate].
  - apply (C6_get_effective_backend ∅ Sample.conf_pagefind_with_key).
    right. reflexivity.
Defined.

Lemma C9_empty_text_is_skipped_witness :
  Bs4.get_text Sample.guide_h2 = ""
  ∧ TypesenseBackend.extract_step Sample.app "guide.html"
      (<["lvl0" := "Install"]> TypesenseBackend.initial_hierarchy) Sample.guide_h2
    = (<["lvl0" := "Install"]> TypesenseBackend.initial_hierarchy, []).
Proof.
  split; [reflexivity|].
  apply (C9_empty_text_is_skipped Sample.app "guide.html"
           (<["lvl0" := "Install"]> TypesenseBackend.initial_hierarchy)
           Sample.guide_h2).
  reflexivity.
Defined.

Lemma C7_own_id_wins_witness :
  Bs4.get Sample.anchors_h2 "id" = Some "a"
  ∧ (child ← Bs4.find Sample.anchors_h2 "a" "id"; Bs4.get child "id") = Some "b"
  ∧ TypesenseBackend._find_anchor Sample.anchors_h2 = "a".
Proof.
  split; [reflexivity|]. split; [reflexivity|].
  apply (C7_own_id_wins Sample.anchors_h2 "a"); [reflexivity | discriminate].
Defined.

Lemma C3_connection_retry_witness :
  TypesenseBackend.is_available Sample.server_down TypesenseBackend.new_backend
  = (Returns false,
     {| TypesenseBackend._server_available := Some false;
        TypesenseBackend.journal :=
          [ TypesenseBackend.EvHealth; TypesenseBackend.EvSleep 1;
            TypesenseBackend.EvHealth; TypesenseBackend.EvSleep 2;
            TypesenseBackend.EvHealth;
            TypesenseBackend.EvWarning TypesenseBackend.WarnServerUnreachable ] |})
  ∧ TypesenseBackend.is_available Sample.bad_key TypesenseBackend.new_backend
    = (Returns false,
       {| TypesenseBackend._server_available := Some false;
          TypesenseBackend.journal :=
            [ TypesenseBackend.EvHealth; TypesenseBackend.EvSleep 1;
              TypesenseBackend.EvHealth;
              TypesenseBackend.EvWarning
                TypesenseBackend.WarnAuthenticationFailed ] |}).
Proof.
  split.
  - apply (C3_connection_retry Sample.server_down).
    intros n _. simpl. auto.
  - apply (proj2 (C3_connection_retry Sample.bad_key) 1%nat); [lia | | reflexivity].
    intros n Hn. replace n with 0%nat by lia. simpl. auto.
Defined.

Lemma C2_index_all_degrades_to_zero_witness :
  fst (TypesenseBackend.index_all Sample.app Sample.server_down
         TypesenseBackend.new_backend) = Returns 0
  ∧ fst (TypesenseBackend.index_all Sample.app Sample.bad_key
           TypesenseBackend.new_backend) = Returns 0
  ∧ fst (TypesenseBackend.index_all Sample.app Sample.lost_during_import
           TypesenseBackend.new_backend) = Returns 0.
Proof.
  split; [|split].
  - apply (C2_index_all_degrades_to_zero Sample.app Sample.server_down).
    intros n _. simpl. auto.
  - apply (proj1 (proj2 (C2_index_all_degrades_to_zero Sample.app Sample.bad_key))
             1%nat); [lia | | reflexivity].
    intros n Hn. replace n with 0%nat by lia. simpl. auto.
  - eapply (proj1 (proj2 (proj2
              (C2_index_all_degrades_to_zero Sample.app Sample.lost_during_import)))).
    + vm_compute. reflexivity.
    + vm_compute. reflexivity.
    + reflexivity.
    + simpl. auto 10.
Defined.

(** C2 as stated fails: a server that answers the health check and times
    out when the collection is created makes [index_all] raise the
    timeout. *)
Lemma C2_counterexample :
  TypesenseBackend.index_all Sample.app Sample.lost_after_check
    TypesenseBackend.new_backend
  = (Raises Sample.timed_out,
     {| TypesenseBackend._server_available := Some true;
        TypesenseBackend.journal :=
          [ TypesenseBackend.EvHealth; TypesenseBackend.EvCreate;
            TypesenseBackend.EvWarning
              (TypesenseBackend.WarnCreateFailed Sample.timed_out) ] |})
  ∧ fst (TypesenseBackend.index_all Sample.app Sample.lost_after_check
           TypesenseBackend.new_backend) ≠ Returns 0.
Proof. split; [vm_compute; reflexivity | vm_compute; discriminate]. Qed.



(* ===================================================================== *)
(** * Further properties of the extraction *)
(* ===================================================================== *)

Lemma append_right_empty (s t : string) : s +:+ t = s → t = "".
Proof.
  induction s as [|c s IH]; simpl; [done|].
  intros [= Heq]. by apply IH.
Qed.

Section ExtractionMore.

Context {Tag : Type} `{!Bs4.Soup Tag}.

Import TypesenseBackend.

Implicit Types (app : Sphinx) (h : gmap string string) (e element : Tag).

(** The content locator returns the match of the first selector of its
    list that matches anything, and nothing exactly when no selector of the
    list matches; a non-empty list in the configuration is that list. *)
Theorem locator_returns_first_match app (soup : Tag) :
  (∀ found,
     _get_content_element app soup = Some found ↔
     ∃ before selector after,
       content_selectors app = before ++ selector :: after
       ∧ Forall (λ s, Bs4.select_one soup s = None) before
       ∧ Bs4.select_one soup selector = Some found)
  ∧ (_get_content_element app soup = None ↔
     Forall (λ s, Bs4.select_one soup s = None) (content_selectors app))
  ∧ (∀ first rest,
       Config.typesense_content_selectors (config app) = Some (first :: rest) →
       content_selectors app = first :: rest).
Proof.
  unfold _get_content_element. split; [|split].
  - intros found. apply first_match_spec.
  - induction (content_selectors app) as [|s selectors IH]; simpl.
    + split; [constructor | done].
    + destruct (Bs4.select_one soup s) eqn:E.
      * split; [done|]. intros Hall. apply Forall_cons_1 in Hall as [Hs _].
        congruence.
      * rewrite IH. split.
        { intros Hall. by apply Forall_cons. }
        { intros Hall. by apply Forall_cons_1 in Hall as [_ Hall]. }
  - intros first rest Hcustom. unfold content_selectors. by rewrite Hcustom.
Qed.

(** The anchor of a document is what [_find_anchor] resolves for its
    element (the test of the element's own id in [_create_document] adds
    nothing), and its url differs from [url_without_anchor] exactly when
    that anchor is not empty. *)
Theorem document_anchor_is_find_anchor app h (content url_base : string)
    element (doc_type : string) :
  let d := _create_document app h content url_base element doc_type in
  doc_anchor d = _find_anchor element
  ∧ doc_url_without_anchor d = url_base
  ∧ (doc_anchor d = "" ↔ doc_url d = doc_url_without_anchor d).
Proof.
  intros d. subst d. unfold _create_document.
  cbn [doc_anchor doc_url doc_url_without_anchor].
  assert (Hanchor : Py.or_str (default "" (Bs4.get element "id"))
                      (_find_anchor element) = _find_anchor element).
  { unfold Py.or_str, _find_anchor.
    destruct (Bs4.get element "id") as [own|]; simpl; [|done].
    by destruct (Py.truthy own). }
  rewrite Hanchor. split; [done|]. split; [done|].
  destruct (Py.truthy (_find_anchor element)) eqn:E.
  - apply truthy_spec in E. split; [done|].
    intros Heq. apply append_right_empty in Heq. discriminate.
  - apply truthy_false in E. by rewrite E.
Qed.

(** Below the element's own id, [_find_anchor] takes the first descendant
    anchor that has an [id] attribute, even an empty one; failing that the
    first descendant anchor with a [name]; failing that the id of a
    preceding sibling anchor; failing that the id of a labelled span in the
    enclosing section, else the id of the section; and nothing when there
    is none of these. *)
Theorem find_anchor_precedence element :
  Py.truthy_opt (Bs4.get element "id") = false →
  (∀ child, Bs4.find element "a" "id" = Some child →
     _find_anchor element = default "" (Bs4.get child "id"))
  ∧ (Bs4.find element "a" "id" = None →
     (∀ child, Bs4.find element "a" "name" = Some child →
        _find_anchor element = default "" (Bs4.get child "name"))
     ∧ (Bs4.find element "a" "name" = None →
        (∀ sibling id,
           Bs4.find_previous_sibling element = Some sibling →
           Bs4.name sibling = "a" →
           Bs4.get sibling "id" = Some id → id ≠ "" →
           _find_anchor element = id)
        ∧ ((∀ sibling, Bs4.find_previous_sibling element = Some sibling →
              String.eqb (Bs4.name sibling) "a"
              && Py.truthy_opt (Bs4.get sibling "id") = false) →
           (∀ section label,
              Bs4.find_parent element "section" = Some section →
              Bs4.find section "span" "id" = Some label →
              _find_anchor element = default "" (Bs4.get label "id"))
           ∧ (∀ section,
                Bs4.find_parent element "section" = Some section →
                Bs4.find section "span" "id" = None →
                _find_anchor element
                = if Py.truthy_opt (Bs4.get section "id")
                  then default "" (Bs4.get section "id") else "")
           ∧ (Bs4.find_parent element "section" = None →
              _find_anchor element = "")))).
Proof.
  intros Hown. unfold _find_anchor. rewrite Hown. split.
  - intros child ->. unfold Py.truthy.
    by destruct (String.eqb_spec (default "" (Bs4.get child "id")) "") as [->|].
  - intros ->. split.
    + intros child ->. unfold Py.truthy.
      by destruct (String.eqb_spec (default "" (Bs4.get child "name")) "")
        as [->|].
    + intros ->. split.
      * intros sibling id -> -> Hid Hne. rewrite Hid. simpl.
        apply truthy_spec in Hne. by rewrite Hne.
      * intros Hsibling. destruct (Bs4.find_previous_sibling element) as [sibling|].
        { rewrite (Hsibling sibling eq_refl).
          repeat split.
          - by intros section label -> ->.
          - by intros section -> ->.
          - by intros ->. }
        { repeat split.
          - by intros section label -> ->.
          - by intros section -> ->.
          - by intros ->. }
Qed.

Ltac level_lookups :=
  rewrite ?lookup_total_insert_eq;
  repeat (rewrite lookup_total_insert_ne by done;
          rewrite ?lookup_total_insert_eq);
  rewrite ?lookup_insert_ne by done.

Lemma language_not_empty app : 
  Py.or_str (default "" (Config.language (config app))) "en" ≠ "".
Proof.
  unfold Py.or_str.
  destruct (Py.truthy (default "" (Config.language (config app)))) eqn:E;
    [by apply truthy_spec | done].
Qed.

Lemma extract_step_unfilled app url_base h e :
  unfilled h → unfilled (fst (extract_step app url_base h e)).
Proof.
  intros (H4 & H5 & H6). unfold extract_step.
  repeat (match goal with |- context [if ?c then _ else _] => destruct c end);
    simpl; unfold unfilled; rewrite ?lookup_insert_ne by done; done.
Qed.

Lemma extract_step_well_formed app url_base h e d :
  unfilled h →
  d ∈ snd (extract_step app url_base h e) →
  well_formed url_base d.
Proof.
  intros (H4 & H5 & H6). unfold extract_step.
  destruct (Py.truthy (Bs4.get_text e)) eqn:Htext; simpl;
    [|by intros ?%elem_of_nil].
  pose proof (language_not_empty app) as Hlang.
  apply truthy_spec in Htext.
  repeat (match goal with |- context [if ?c then _ else _] => destruct c end);
    simpl; intros Hd; try (by apply elem_of_nil in Hd);
    apply list_elem_of_singleton in Hd; subst d;
    unfold well_formed, _create_document; simpl;
    level_lookups; rewrite ?H4, ?H5, ?H6; simpl;
    repeat split; try done; try (vm_compute; tauto); try discriminate;
    intros; try done; try discriminate.
Qed.

Lemma extract_loop_well_formed app url_base h elements d :
  unfilled h →
  d ∈ extract_loop app url_base h elements →
  well_formed url_base d.
Proof.
  revert h. induction elements as [|e elements IH]; intros h Hh; simpl.
  - by intros ?%elem_of_nil.
  - pose proof (extract_step_well_formed app url_base h e) as Hstep.
    pose proof (extract_step_unfilled app url_base h e Hh) as Hnext.
    destruct (extract_step app url_base h e) as [h' yielded]; simpl in *.
    rewrite elem_of_app. intros [Hd | Hd]; [by apply Hstep | by apply (IH h')].
Qed.

(** Every document extracted from a page has one of the five types, a
    content that is empty exactly for the headings, equal weight and
    priority (50 for content, 70 to 100 for headings), the relative url of
    the page as [url_without_anchor], empty levels 4 to 6, a language, and
    for a heading a non-empty field of its own level. *)
Theorem extracted_documents_are_well_formed app (html_file : HtmlFile Tag)
    (d : Document) :
  d ∈ _extract_documents app html_file →
  well_formed (_get_relative_url app (file_path html_file)) d.
Proof.
  unfold _extract_documents.
  destruct (file_soup html_file) as [soup|]; [|by intros ?%elem_of_nil].
  destruct (_get_content_element app soup) as [content|];
    [|by intros ?%elem_of_nil].
  apply extract_loop_well_formed. by vm_compute.
Qed.

Lemma extract_step_count app url_base h e :
  length (snd (extract_step app url_base h e)) = if emits e then 1%nat else 0%nat.
Proof.
  unfold extract_step, emits, EXTRACTED_TAGS, Py.in_list. simpl.
  destruct (Py.truthy (Bs4.get_text e)); simpl; [|done].
  destruct (String.eqb (Bs4.name e) "h1"); simpl; [done|].
  destruct (String.eqb (Bs4.name e) "h2"); simpl; [done|].
  destruct (String.eqb (Bs4.name e) "h3"); simpl; [done|].
  destruct (String.eqb (Bs4.name e) "h4"); simpl; [done|].
  by destruct (String.eqb (Bs4.name e) "p"), (String.eqb (Bs4.name e) "li").
Qed.

(** A page scan yields one document for each element of the six tags with
    a non-empty trimmed text, in their order, and none for the others; a
    file that cannot be read or has no content element yields none. *)
Theorem one_document_per_emitting_element app (html_file : HtmlFile Tag) :
  length (_extract_documents app html_file)
  = match file_soup html_file with
    | None => 0%nat
    | Some soup =>
        match _get_content_element app soup with
        | None => 0%nat
        | Some content =>
            length (List.filter emits (Bs4.find_all content EXTRACTED_TAGS))
        end
    end.
Proof.
  unfold _extract_documents.
  destruct (file_soup html_file) as [soup|]; [|done].
  destruct (_get_content_element app soup) as [content|]; [|done].
  generalize initial_hierarchy.
  induction (Bs4.find_all content EXTRACTED_TAGS) as [|e elements IH];
    intros h; simpl; [done|].
  pose proof (extract_step_count app (_get_relative_url app (file_path html_file))
                h e) as Hcount.
  destruct (extract_step _ _ h e) as [h' yielded]; simpl in *.
  rewrite length_app, Hcount, IH. by destruct (emits e).
Qed.

Lemma extract_step_continues app url_base h e :
  (snd (extract_step app url_base h e) = []
   ∧ fst (extract_step app url_base h e) = h)
  ∨ ∃ d, snd (extract_step app url_base h e) = [d]
         ∧ continues (levels_of h) d
         ∧ levels d = levels_of (fst (extract_step app url_base h e)).
Proof.
  unfold extract_step.
  destruct (Py.truthy (Bs4.get_text e)); simpl; [|by left].
  repeat (match goal with |- context [if ?c then _ else _] => destruct c end);
    simpl; try (by left); right; eexists; (split; [reflexivity|]);
    unfold continues, levels, levels_of, _create_document; simpl;
    level_lookups; repeat split; try done; try discriminate.
Qed.

Lemma extract_loop_chained app url_base h elements :
  chained (levels_of h) (extract_loop app url_base h elements).
Proof.
  revert h. induction elements as [|e elements IH]; intros h; simpl; [done|].
  destruct (extract_step_continues app url_base h e)
    as [[Hnone Hsame] | (d & Hone & Hcont & Hlevels)];
    destruct (extract_step app url_base h e) as [h' yielded]; simpl in *; subst.
  - apply IH.
  - simpl. split; [done|]. rewrite Hlevels. apply IH.
Qed.

(** Along the documents of a page, a paragraph or list item repeats the
    hierarchy of the document before it, and a heading repeats the levels
    above its own; the first document continues the empty hierarchy. *)
Theorem page_documents_are_chained app (html_file : HtmlFile Tag) :
  chained ("", "", "", "") (_extract_documents app html_file).
Proof.
  unfold _extract_documents.
  destruct (file_soup html_file) as [soup|]; [|done].
  destruct (_get_content_element app soup) as [content|]; [|done].
  apply (extract_loop_chained app _ initial_hierarchy).
Qed.

(** The id of a document depends on nothing but its url and the first 100
    characters of its content: two documents with the same url whose
    contents agree on their first 100 characters get the same id, whatever
    their elements, hierarchies and types are.  So two headings of a page
    that resolve to the same anchor share their id. *)
Theorem id_depends_on_url_and_content_start app (h1 h2 : gmap string string)
    (content1 content2 url_base1 url_base2 : string) (element1 element2 : Tag)
    (type1 type2 : string) :
  let d1 := _create_document app h1 content1 url_base1 element1 type1 in
  let d2 := _create_document app h2 content2 url_base2 element2 type2 in
  doc_url d1 = doc_url d2 →
  Py.slice_to 100 content1 = Py.slice_to 100 content2 →
  doc_id d1 = doc_id d2.
Proof.
  cbv zeta. unfold _create_document. cbn [doc_id doc_url].
  intros Hurl Hprefix. by rewrite Hurl, Hprefix.
Qed.

Lemma relative_to_prefix (base rest : Path.Path) :
  Path.relative_to (base ++ rest) base = Some rest.
Proof.
  induction base as [|b base IH]; simpl; [by destruct rest|].
  rewrite String.eqb_refl. apply IH.
Qed.

(** The url of a file under the output directory is its path relative to
    that directory; a file elsewhere keeps its whole path. *)
Theorem relative_url_of_output_file app :
  (∀ rest, _get_relative_url app (outdir app ++ rest) = Path.str rest)
  ∧ (∀ html_file,
       Path.relative_to html_file (outdir app) = None →
       _get_relative_url app html_file = Path.str html_file).
Proof.
  unfold _get_relative_url. split.
  - intros rest. by rewrite relative_to_prefix.
  - by intros html_file ->.
Qed.

End ExtractionMore.

(* ===================================================================== *)
(** * Further properties of the Typesense backend *)
(* ===================================================================== *)

Section BackendMore.

Context {Tag : Type} `{!Bs4.Soup Tag}.

Import TypesenseBackend.

Implicit Types (app : Sphinx) (w : World Tag) (b : Backend).

Lemma retry_loop_caches w attempts backoff b :
  match retry_loop w attempts backoff b with
  | (Returns verdict, b') => _server_available b' = Some verdict
  | (Raises _, b') => _server_available b' = _server_available b
  end.
Proof.
  revert backoff b. induction attempts as [|attempt rest IH]; intros backoff b.
  - done.
  - rewrite retry_loop_cons. cbv zeta.
    pose proof (IH (backoff * BACKOFF_MULTIPLIER)%Q
                   (journalled b [EvHealth; EvSleep backoff])) as IHsleep.
    pose proof (IH backoff (journalled b [EvHealth])) as IHnext.
    destruct (is_healthy w (health_calls b)) as [[|]|e]; [done | |].
    + by destruct (attempt <? MAX_RETRIES)%nat.
    + destruct (Exc.catches [Exc.RequestUnauthorized] e); [done|].
      destruct (_ || _ || _); [|done].
      by destruct (attempt <? MAX_RETRIES)%nat.
Qed.

(** Once the connection check has returned, its verdict is kept in the
    backend: a later check returns it whatever the server would answer then
    and calls nothing.  A check that raises stores no verdict. *)
Theorem connection_verdict_is_cached w b :
  match _check_connection w b with
  | (Returns verdict, b') =>
      _server_available b' = Some verdict
      ∧ ∀ w' : World Tag, _check_connection w' b' = (Returns verdict, b')
  | (Raises _, b') => _server_available b' = _server_available b
  end.
Proof.
  unfold _check_connection at 1.
  destruct (_server_available b) as [cached|] eqn:Hcache.
  - split; [done|]. intros w'. unfold _check_connection. by rewrite Hcache.
  - pose proof (retry_loop_caches w (seq 1 MAX_RETRIES) INITIAL_BACKOFF_SECONDS b)
      as Hloop.
    destruct (retry_loop w _ _ b) as [[verdict|e] b'].
    + split; [done|]. intros w'. unfold _check_connection. by rewrite Hloop.
    + congruence.
Qed.

Ltac probe k :=
  rewrite retry_loop_cons; cbv zeta;
  cbv beta iota delta [Nat.ltb Nat.leb MAX_RETRIES];
  match goal with
  | |- context [is_healthy ?w (health_calls ?b)] =>
      change (health_calls b) with k
  end;
  rewrite ?journalled_twice.

Ltac answer_of w k :=
  let e := fresh "e" in
  let Hk := fresh "Hanswer" in
  destruct (is_healthy w k) as [[|]|e] eqn:Hk;
  [ apply (ends_healthy w k); lia
  |
  | destruct (Exc.catches [Exc.RequestUnauthorized] e);
    [ apply (ends_unauthorized w k); lia |];
    destruct (_ || _ || _); [| by apply (ends_raising w k e); [lia|]] ].

(** The connection check on a fresh backend ends in one of four ways. *)
Lemma check_connection_cases w :
  check_ends w (_check_connection w new_backend).
Proof.
  unfold _check_connection.
  change (_server_available new_backend) with (@None bool). cbv iota.
  change (seq 1 MAX_RETRIES) with [1; 2; 3]%nat.
  probe 0%nat. answer_of w 0%nat.
  all: probe 1%nat; answer_of w 1%nat.
  all: probe 2%nat; answer_of w 2%nat.
  all: apply ends_exhausted.
Qed.

(** Whatever the server answers, the connection check on a fresh backend
    makes at most three health checks and sleeps at most three seconds in
    all, and journals nothing but health checks, sleeps and its own
    warnings. *)
Theorem connection_check_is_bounded w :
  let b' := snd (_check_connection w new_backend) in
  (health_calls b' ≤ 3)%nat
  ∧ (total_sleep (journal b') <= 3)%Q
  ∧ Forall is_probe (journal b').
Proof.
  cbv zeta. destruct (check_connection_cases w) as [k Hk|k Hk| |k e Hk He].
  1, 2, 4: destruct k as [|[|[|k]]]; [| | |lia];
    (split; [vm_compute; lia|]); (split; [by vm_compute|]);
    repeat constructor.
  split; [vm_compute; lia|]. split; [by vm_compute|]. repeat constructor.
Qed.

(** A server that answers healthy at attempt [k], after [k] failed
    attempts, is accepted at once: the check returns true after the sleeps
    made so far and none more. *)
Theorem connection_recovers w (k : nat) :
  (k < 3)%nat →
  (∀ n, (n < k)%nat → transient_failure (is_healthy w n)) →
  is_healthy w k = Returns true →
  _check_connection w new_backend
  = (Returns true,
     {| _server_available := Some true;
        journal := failed_attempts k ++ [EvHealth] |}).
Proof.
  intros Hk Hfail Hup.
  unfold _check_connection.
  change (_server_available new_backend) with (@None bool). cbv iota.
  change (seq 1 MAX_RETRIES) with [1; 2; 3]%nat.
  destruct k as [|[|[|k]]]; [| | |lia].
  - probe 0%nat. by rewrite Hup.
  - rewrite retry_loop_failure by (apply Hfail; vm_compute; lia).
    cbv beta iota delta [Nat.ltb Nat.leb MAX_RETRIES].
    probe 1%nat. by rewrite Hup.
  - rewrite retry_loop_failure by (apply Hfail; vm_compute; lia).
    cbv beta iota delta [Nat.ltb Nat.leb MAX_RETRIES].
    rewrite retry_loop_failure by (apply Hfail; vm_compute; lia).
    cbv beta iota delta [Nat.ltb Nat.leb MAX_RETRIES].
    rewrite journalled_twice.
    probe 2%nat. by rewrite Hup.
Qed.

Lemma catches_object_not_found (e : Exc.t) :
  Exc.catches [Exc.ObjectNotFound] e = true ↔ Exc.cls e = Exc.ObjectNotFound.
Proof. destruct e as [[] m]; vm_compute; split; congruence. Qed.

Ltac setup_is events :=
  split; [intuition (auto; congruence)|]; split; [done|];
  exists events; cbn [journal]; rewrite <- ?app_assoc;
  split; [done|]; split; [repeat constructor|];
  split; simpl; intuition (auto; congruence).

(** [_ensure_collection] returns exactly when the drop and the creation
    both pass.  It asks for the drop exactly when [typesense_drop_existing]
    is set and for the creation exactly when the drop passed, journals
    nothing else but its warning, and leaves the cached verdict alone. *)
Theorem ensure_collection_outcome app w b :
  let '(r, b') := _ensure_collection app w b in
  (r = Returns () ↔ delete_passes app w ∧ create_passes w)
  ∧ _server_available b' = _server_available b
  ∧ ∃ setup,
      journal b' = journal b ++ setup
      ∧ Forall is_setup setup
      ∧ (In EvDelete setup ↔ Config.typesense_drop_existing (config app) = true)
      ∧ (In EvCreate setup ↔ delete_passes app w).
Proof.
  unfold _ensure_collection, delete_passes, create_passes,
    mbind, M_bind, call, emit, mret, M_ret, warning, raise.
  destruct (Config.typesense_drop_existing (config app)); simpl.
  - destruct (collection_delete w) as [[]|e]; simpl.
    + destruct (collection_create w) as [[]|c]; simpl;
        [setup_is [EvDelete; EvCreate]|].
      destruct (Py.contains _ _); simpl.
      * setup_is [EvDelete; EvCreate].
      * setup_is [EvDelete; EvCreate; EvWarning (WarnCreateFailed c)].
    + pose proof (catches_object_not_found e) as Hnf. simpl in Hnf.
      destruct (Exc.subclass _ _ || false); simpl.
      * assert (Hcls : Exc.cls e = Exc.ObjectNotFound) by by apply Hnf.
        clear Hnf.
        destruct (collection_create w) as [[]|c]; simpl;
          [setup_is [EvDelete; EvCreate]|].
        destruct (Py.contains _ _); simpl.
        { setup_is [EvDelete; EvCreate]. }
        { setup_is [EvDelete; EvCreate; EvWarning (WarnCreateFailed c)]. }
      * assert (Hcls : Exc.cls e ≠ Exc.ObjectNotFound).
        { intros Heq. apply Hnf in Heq. done. }
        clear Hnf. setup_is [EvDelete].
  - destruct (collection_create w) as [[]|c]; simpl; [setup_is [EvCreate]|].
    destruct (Py.contains _ _); simpl.
    + setup_is [EvCreate].
    + setup_is [EvCreate; EvWarning (WarnCreateFailed c)].
Qed.

Lemma retry_loop_probes w attempts backoff b :
  ∃ probes,
    journal (snd (retry_loop w attempts backoff b)) = journal b ++ probes
    ∧ Forall is_probe probes.
Proof.
  revert backoff b. induction attempts as [|attempt rest IH]; intros backoff b.
  - exists [EvWarning WarnServerUnreachable]. split; [done|].
    repeat constructor.
  - rewrite retry_loop_cons. cbv zeta.
    assert (Hnext : ∃ probes,
      journal (snd (if (attempt <? MAX_RETRIES)%nat
                    then retry_loop w rest (backoff * BACKOFF_MULTIPLIER)%Q
                           (journalled b [EvHealth; EvSleep backoff])
                    else retry_loop w rest backoff (journalled b [EvHealth])))
      = journal b ++ probes ∧ Forall is_probe probes).
    { destruct (attempt <? MAX_RETRIES)%nat.
      - destruct (IH (backoff * BACKOFF_MULTIPLIER)%Q
                     (journalled b [EvHealth; EvSleep backoff]))
          as (probes & -> & Hprobes).
        exists ([EvHealth; EvSleep backoff] ++ probes).
        cbn [journalled journal]. rewrite <- app_assoc. split; [done|].
        apply Forall_app. split; [repeat constructor | done].
      - destruct (IH backoff (journalled b [EvHealth]))
          as (probes & -> & Hprobes).
        exists ([EvHealth] ++ probes).
        cbn [journalled journal]. rewrite <- app_assoc. split; [done|].
        apply Forall_app. split; [repeat constructor | done]. }
    destruct (is_healthy w (health_calls b)) as [[|]|e]; [| done |].
    + exists [EvHealth]. split; [done|]. repeat constructor.
    + destruct (Exc.catches [Exc.RequestUnauthorized] e).
      * exists [EvHealth; EvWarning WarnAuthenticationFailed].
        split; [done|]. repeat constructor.
      * destruct (_ || _ || _); [done|].
        exists [EvHealth]. split; [done|]. repeat constructor.
Qed.

Lemma check_connection_probes w b :
  ∃ probes,
    journal (snd (_check_connection w b)) = journal b ++ probes
    ∧ Forall is_probe probes.
Proof.
  unfold _check_connection. destruct (_server_available b).
  - exists []. by rewrite app_nil_r.
  - apply retry_loop_probes.
Qed.

Lemma ensure_collection_setup app w b :
  ∃ setup,
    journal (snd (_ensure_collection app w b)) = journal b ++ setup
    ∧ Forall is_setup setup.
Proof.
  unfold _ensure_collection, mbind, M_bind, call, emit, mret, M_ret,
    warning, raise.
  destruct (Config.typesense_drop_existing (config app)); simpl.
  - destruct (collection_delete w) as [[]|e]; simpl.
    + destruct (collection_create w) as [[]|c]; simpl.
      * exists [EvDelete; EvCreate]. rewrite <- app_assoc.
        split; [done|]. repeat constructor.
      * destruct (Py.contains _ _); simpl.
        { exists [EvDelete; EvCreate]. rewrite <- app_assoc.
          split; [done|]. repeat constructor. }
        { exists [EvDelete; EvCreate; EvWarning (WarnCreateFailed c)].
          rewrite <- !app_assoc. split; [done|]. repeat constructor. }
    + destruct (Exc.subclass _ _ || false); simpl.
      * destruct (collection_create w) as [[]|c]; simpl.
        { exists [EvDelete; EvCreate]. rewrite <- app_assoc.
          split; [done|]. repeat constructor. }
        destruct (Py.contains _ _); simpl.
        { exists [EvDelete; EvCreate]. rewrite <- app_assoc.
          split; [done|]. repeat constructor. }
        { exists [EvDelete; EvCreate; EvWarning (WarnCreateFailed c)].
          rewrite <- !app_assoc. split; [done|]. repeat constructor. }
      * exists [EvDelete]. split; [done|]. repeat constructor.
  - destruct (collection_create w) as [[]|c]; simpl.
    + exists [EvCreate]. split; [done|]. repeat constructor.
    + destruct (Py.contains _ _); simpl.
      * exists [EvCreate]. split; [done|]. repeat constructor.
      * exists [EvCreate; EvWarning (WarnCreateFailed c)]. rewrite <- app_assoc.
        split; [done|]. repeat constructor.
Qed.

Lemma import_warnings_are_logs (result : list ImportItem) :
  Forall is_import_log (import_warnings result).
Proof.
  unfold import_warnings. apply Forall_app. split.
  - induction (List.filter item_failed result); by constructor.
  - destruct (0 <? _)%nat; repeat constructor.
Qed.




(** [index_all] once the connection check has succeeded. *)
Lemma index_all_after_check app w b b1 :
  _check_connection w b = (Returns true, b1) →
  let documents := flat_map (_extract_documents app) (html_files w) in
  ∃ setup parsed publish,
    journal (snd (index_all app w b)) = journal b1 ++ setup ++ parsed ++ publish
    ∧ Forall is_setup setup
    ∧ ((parsed = [] ∧ publish = []) ∨ parsed = unreadable (html_files w))
    ∧ publication documents publish
    ∧ ∀ n, fst (index_all app w b) = Returns n → n ≠ 0 →
           n = Z.of_nat (length documents)
           ∧ ∃ logs, publish = EvImport documents :: logs.
Proof.
  intros Hcheck. cbv zeta. unfold publication.
  destruct (ensure_collection_setup app w b1) as (setup & Hsetup & His).
  destruct (_ensure_collection app w b1) as [[[]|e] b2] eqn:Hensure;
    simpl in Hsetup.
  - rewrite (index_all_import app w b b1 b2 Hcheck Hensure). cbv zeta.
    destruct (flat_map (_extract_documents app) (html_files w))
      as [|d documents] eqn:Hdocs.
    + exists setup, (unreadable (html_files w)), [EvWarning WarnNoDocuments].
      cbn [journalled journal fst snd]. rewrite Hsetup, <- !app_assoc.
      split; [done|]. split; [done|]. split; [by right|]. split; [by auto|].
      by intros n [= <-].
    + destruct (documents_import w (d :: documents)) as [result|e] eqn:Himport.
      { exists setup, (unreadable (html_files w)),
          (EvImport (d :: documents) :: import_warnings result).
        cbn [journalled journal fst snd]. rewrite Hsetup, <- !app_assoc.
        split; [done|]. split; [done|]. split; [by right|]. split.
        - right. right. exists (import_warnings result).
          split; [done|]. split; [apply import_warnings_are_logs | done].
        - intros n [= <-] _. split; [done|]. by eexists. }
      assert (Hlogged : ∀ warn, is_import_log (EvWarning warn) →
        ∃ setup0 parsed publish,
          journal (snd (Returns (A:=Z) 0,
                        journalled (journalled b2 (unreadable (html_files w)))
                          [EvImport (d :: documents); EvWarning warn]))
          = journal b1 ++ setup0 ++ parsed ++ publish
          ∧ Forall is_setup setup0
          ∧ ((parsed = [] ∧ publish = []) ∨ parsed = unreadable (html_files w))
          ∧ (publish = []
             ∨ (publish = [EvWarning WarnNoDocuments] ∧ d :: documents = [])
             ∨ ∃ logs, publish = EvImport (d :: documents) :: logs
                       ∧ Forall is_import_log logs ∧ d :: documents ≠ [])
          ∧ ∀ n, fst (Returns (A:=Z) 0,
                      journalled (journalled b2 (unreadable (html_files w)))
                        [EvImport (d :: documents); EvWarning warn])
                 = Returns n → n ≠ 0 →
                 n = Z.of_nat (length (d :: documents))
                 ∧ ∃ logs, publish = EvImport (d :: documents) :: logs).
      { intros warn Hwarn.
        exists setup, (unreadable (html_files w)),
          [EvImport (d :: documents); EvWarning warn].
        cbn [journalled journal fst snd]. rewrite Hsetup, <- !app_assoc.
        split; [done|]. split; [done|]. split; [by right|]. split.
        - right. right. exists [EvWarning warn].
          split; [done|]. split; [by repeat constructor | done].
        - by intros n [= <-]. }
      destruct (Exc.catches [Exc.ServiceUnavailable] e); [by apply Hlogged|].
      destruct (Exc.catches [Exc.Timeout; Exc.HTTPStatus0Error] e);
        [by apply Hlogged|].
      destruct (Exc.catches [Exc.ConnectionError; Exc.TimeoutError; Exc.OSError] e);
        [by apply Hlogged|].
      exists setup, (unreadable (html_files w)), [EvImport (d :: documents)].
      cbn [journalled journal fst snd]. rewrite Hsetup, <- !app_assoc.
      split; [done|]. split; [done|]. split; [by right|]. split; [|done].
      right. right. exists []. split; [done|]. split; [constructor | done].
  - rewrite (index_all_collection_raises app w b b1 b2 e Hcheck Hensure).
    exists setup, [], []. cbn [fst snd]. rewrite Hsetup. simpl.
    rewrite app_nil_r.
    split; [done|]. split; [done|]. split; [by left|]. split; [by left|]. done.
Qed.

Lemma parse_warnings_of (files : list (HtmlFile Tag))
    (parsed publish : list Event) :
  (parsed = [] ∧ publish = []) ∨ parsed = unreadable files →
  parse_warnings files parsed publish.
Proof.
  intros [[-> ->] | ->]; split.
  - by exists (unreadable files).
  - done.
  - exists []. by rewrite app_nil_r.
  - done.
Qed.

(** The journal of [index_all] is made of four phases in this order: the
    probes of the connection check, the setup of the collection, the
    warnings about the HTML files that cannot be read, in the order of the
    files and all of them once anything is published, and the publication,
    which is empty, or the warning that no document was found, or one bulk
    import of all the extracted documents followed by its warnings.  A
    count other than 0 is returned only after that import, and is then the
    number of extracted documents. *)
Theorem index_all_phases app w b :
  let '(r, b') := index_all app w b in
  let documents := flat_map (_extract_documents app) (html_files w) in
  ∃ probes setup parsed publish,
    journal b' = journal b ++ probes ++ setup ++ parsed ++ publish
    ∧ Forall is_probe probes
    ∧ Forall is_setup setup
    ∧ parse_warnings (html_files w) parsed publish
    ∧ publication documents publish
    ∧ ∀ n, r = Returns n → n ≠ 0 →
           n = Z.of_nat (length documents)
           ∧ ∃ logs, publish = EvImport documents :: logs.
Proof.
  destruct (check_connection_probes w b) as (probes & Hjournal & Hprobes).
  destruct (_check_connection w b) as [[[|]|e] b1] eqn:Hcheck;
    simpl in Hjournal.
  - destruct (index_all_after_check app w b b1 Hcheck)
      as (setup & parsed & publish & Hafter & Hsetup & Hparsed & Hpublish
          & Hcount).
    apply parse_warnings_of in Hparsed.
    destruct (index_all app w b) as [r b']. cbn [fst snd] in *.
    exists probes, setup, parsed, publish.
    rewrite Hafter, Hjournal, <- !app_assoc. done.
  - rewrite (index_all_unavailable app w b b1 Hcheck). cbv zeta.
    exists probes, [], [], []. rewrite Hjournal. simpl. rewrite app_nil_r.
    split; [done|]. split; [done|]. split; [constructor|].
    split; [apply parse_warnings_of; by left|]. split; [by left|].
    by intros n [= <-].
  - unfold index_all, mbind, M_bind. rewrite Hcheck. cbv zeta.
    exists probes, [], [], []. rewrite Hjournal. simpl. rewrite app_nil_r.
    split; [done|]. split; [done|]. split; [constructor|].
    split; [apply parse_warnings_of; by left|]. split; [by left|]. done.
Qed.

Lemma import_is_no_probe_or_setup (documents : list Document)
    (probes setup : list Event) :
  Forall is_probe probes → Forall is_setup setup →
  ¬ In (EvImport documents) (probes ++ setup).
Proof.
  intros Hprobes Hsetup Hin. apply in_app_or in Hin as [Hin | Hin].
  - rewrite List.Forall_forall in Hprobes. by apply Hprobes in Hin.
  - rewrite List.Forall_forall in Hsetup. by apply Hsetup in Hin.
Qed.

Lemma import_is_no_parse_warning (documents : list Document)
    (files : list (HtmlFile Tag)) :
  ¬ In (EvImport documents) (unreadable files).
Proof.
  induction files as [|html_file files IH]; [intros Hin; exact Hin|].
  cbn [unreadable flat_map]. fold (unreadable files).
  intros Hin. apply in_app_or in Hin as [Hin | Hin]; [|done].
  destruct (file_soup html_file); [done|]. by destruct Hin.
Qed.

(** C10. Whenever [index_all] calls the bulk import, which it does only
    after a successful connection check, and that call does not raise,
    it returns the number of extracted documents, whatever the number of
    items the server reports as failed: those are logged, one warning each
    and one for their count, and leave the count as it is. *)
Theorem C10_count_ignores_item_failures app w b result :
  let documents := flat_map (_extract_documents app) (html_files w) in
  import_called b (snd (index_all app w b)) documents →
  documents_import w documents = Returns result →
  fst (_check_connection w b) = Returns true
  ∧ fst (index_all app w b) = Returns (Z.of_nat (length documents))
  ∧ ∃ before,
      journal (snd (index_all app w b))
      = journal b ++ before ++ EvImport documents :: import_warnings result
      ∧ ¬ In (EvImport documents) before.
Proof.
  cbv zeta. intros (events & Hevents & Hcalled) Himport.
  destruct (check_connection_probes w b) as (probes & Hjournal & Hprobes).
  destruct (_check_connection w b) as [[[|]|e] b1] eqn:Hcheck;
    simpl in Hjournal.
  - destruct (ensure_collection_setup app w b1) as (setup & Hsetup & His).
    destruct (_ensure_collection app w b1) as [[[]|e] b2] eqn:Hensure;
      simpl in Hsetup.
    + destruct (index_all_counts_documents app w b b1 b2 result
                  Hcheck Hensure Himport) as (b3 & Hrun & Hended).
      destruct (flat_map (_extract_documents app) (html_files w))
        as [|d documents] eqn:Hdocs.
      * exfalso. rewrite (index_all_import app w b b1 b2 Hcheck Hensure) in Hevents.
        cbv zeta in Hevents. rewrite Hdocs in Hevents.
        cbn [snd journalled journal] in Hevents.
        rewrite Hsetup, Hjournal, <- !app_assoc in Hevents.
        apply app_inv_head in Hevents. subst events.
        rewrite !app_assoc in Hcalled.
        apply in_app_or in Hcalled as [Hcalled | [Hcalled | []]]; [|done].
        apply in_app_or in Hcalled as [Hcalled | Hcalled].
        { by apply (import_is_no_probe_or_setup [] probes setup). }
        { by apply (import_is_no_parse_warning [] (html_files w)). }
      * rewrite Hrun. cbn [fst snd]. split; [done|]. split; [done|].
        exists (probes ++ setup ++ unreadable (html_files w)).
        rewrite Hended by done. rewrite Hsetup, Hjournal, <- !app_assoc.
        split; [done|]. rewrite app_assoc. intros Hin.
        apply in_app_or in Hin as [Hin | Hin].
        { by apply (import_is_no_probe_or_setup (d :: documents) probes setup). }
        { by apply (import_is_no_parse_warning (d :: documents) (html_files w)). }
    + exfalso.
      rewrite (index_all_collection_raises app w b b1 b2 e Hcheck Hensure)
        in Hevents.
      cbn [snd] in Hevents. rewrite Hsetup, Hjournal, <- app_assoc in Hevents.
      apply app_inv_head in Hevents. subst events.
      by apply (import_is_no_probe_or_setup _ probes setup) in Hcalled.
  - exfalso. rewrite (index_all_unavailable app w b b1 Hcheck) in Hevents.
    cbn [snd] in Hevents. rewrite Hjournal in Hevents.
    apply app_inv_head in Hevents. subst events.
    rewrite List.Forall_forall in Hprobes. by apply Hprobes in Hcalled.
  - exfalso. unfold index_all, mbind, M_bind in Hevents.
    rewrite Hcheck in Hevents.
    cbn [snd] in Hevents. rewrite Hjournal in Hevents.
    apply app_inv_head in Hevents. subst events.
    rewrite List.Forall_forall in Hprobes. by apply Hprobes in Hcalled.
Qed.

End BackendMore.

(* ===================================================================== *)
(** * Further properties of the Pagefind backend *)
(* ===================================================================== *)

Section PagefindMore.

Import PagefindBackend.

Lemma all_digits_app (s t : string) :
  all_digits (s +:+ t) = all_digits s && all_digits t.
Proof.
  induction s as [|c s IH]; [done|]. simpl. rewrite IH.
  by destruct (Py.isdigit c).
Qed.

Lemma int_digits_nonneg (s : string) (acc : Z) :
  0 ≤ acc → all_digits s = true → 0 ≤ Py.int_digits acc s.
Proof.
  revert acc. induction s as [|c s IH]; intros acc Hacc Hs; [done|].
  simpl in *. apply andb_prop in Hs as [Hc Hs]. apply IH; [|done].
  unfold Py.isdigit in Hc. apply andb_prop in Hc as [Hlo _].
  apply N.leb_le in Hlo. lia.
Qed.

(** What a pattern captures is made of digits. *)
Lemma match_here_digits (p : Re.Pattern) :
  digit_groups p →
  ∀ s g g', all_digits g = true → Re.match_here p s g = Some g' →
            all_digits g' = true.
Proof.
  induction p as [|item p IH]; intros Hp s g g' Hg Hmatch.
  - simpl in Hmatch. by simplify_eq.
  - apply Forall_cons_1 in Hp as [Hitem Hp]. specialize (IH Hp).
    destruct item as [a|a|a|a].
    + simpl in Hmatch. destruct s as [|c s]; [done|].
      destruct (Re.atom_matches a c); [|done]. by eapply IH.
    + revert Hmatch. simpl. induction s as [|c s IHs]; [done|].
      destruct (Re.atom_matches a c); [|done].
      match goal with |- context [match ?m with Some _ => _ | None => _ end] =>
        destruct m eqn:Hmore end.
      * intros [= <-]. by apply IHs.
      * intros Hrest. by eapply IH.
    + simpl in Hmatch.
      destruct s as [|c s]; [by eapply IH|].
      destruct (Re.atom_matches a c); [|by eapply IH].
      destruct (Re.match_here p s g) eqn:Hfirst; [|by eapply IH].
      simplify_eq. by eapply IH.
    + subst a.
      assert (Hloop : ∀ s taken, all_digits taken = true →
        (fix more (s : string) (taken : string) : option string :=
           match s with
           | String c s' =>
               if Re.atom_matches Re.Digit c then
                 let taken' := taken +:+ String c "" in
                 match more s' taken' with
                 | Some g => Some g
                 | None => Re.match_here p s' taken'
                 end
               else None
           | EmptyString => None
           end) s taken = Some g' →
        all_digits g' = true).
      { clear s g Hg Hmatch.
        induction s as [|c s IHs]; intros taken Htaken; [done|].
        simpl. destruct (Py.isdigit c) eqn:Hc; [|done].
        assert (Htaken' : all_digits (taken +:+ String c "") = true).
        { rewrite all_digits_app, Htaken. simpl. by rewrite Hc. }
        match goal with |- context [match ?m with Some _ => _ | None => _ end] =>
          destruct m eqn:Hmore end.
        - intros [= <-]. by eapply IHs.
        - intros Hrest. by eapply IH. }
      by apply (Hloop s "").
Qed.

Lemma search_digits (p : Re.Pattern) (s g : string) :
  digit_groups p → Re.search p s = Some g → all_digits g = true.
Proof.
  intros Hp. induction s as [|c s IH]; simpl.
  - destruct (Re.match_here p "" "") eqn:Hhere; [|done].
    intros [= <-]. by eapply (match_here_digits p Hp "" "").
  - destruct (Re.match_here p (String c s) "") eqn:Hhere; [|done].
    intros [= <-]. by eapply (match_here_digits p Hp (String c s) "").
Qed.

Lemma page_count_patterns_capture_digits :
  Forall digit_groups PAGE_COUNT_PATTERNS.
Proof. repeat constructor. Qed.

Lemma parse_page_count_nonneg (output : string) (n : Z) :
  _parse_page_count output = Returns n → 0 ≤ n.
Proof.
  pose proof page_count_patterns_capture_digits as Hpatterns.
  apply Forall_cons_1 in Hpatterns as [Hindexed Hpatterns].
  apply Forall_cons_1 in Hpatterns as [Hon Hpatterns].
  apply Forall_cons_1 in Hpatterns as [Hany _].
  assert (Hint : ∀ g, all_digits g = true → Builtins.int g = Returns n → 0 ≤ n).
  { intros g Hg. unfold Builtins.int. cbv zeta.
    destruct (_ <? _)%nat; [done|]. intros [= <-].
    by apply int_digits_nonneg. }
  unfold _parse_page_count.
  destruct (Re.search INDEXED_PAGES output) as [g|] eqn:H1.
  { apply Hint. by apply (search_digits INDEXED_PAGES output). }
  destruct (Re.search ON_PAGES output) as [g|] eqn:H2.
  { apply Hint. by apply (search_digits ON_PAGES output). }
  destruct (Re.search ANY_PAGES output) as [g|] eqn:H3; [|by intros [= <-]].
  apply Hint. by apply (search_digits ANY_PAGES output).
Qed.

(** [PagefindBackend.index_all] never returns a negative count, whatever
    the subprocess prints and whichever pattern reads the count. *)
Theorem pagefind_count_is_not_negative (app : Sphinx) (w : World) (n : Z) :
  index_all app w = Returns n → 0 ≤ n.
Proof.
  unfold index_all. destruct (path_exists w (outdir app)); simpl;
    [| by intros [= <-] ].
  destruct (_find_pagefind_command w) as [pagefind_cmd|]; [| by intros [= <-] ].
  unfold _run_pagefind.
  destruct (subprocess_run w _ 300) as [result|e].
  - destruct (returncode result =? 0); simpl; [| by intros [= <-] ].
    apply parse_page_count_nonneg.
  - destruct (Exc.catches [Exc.TimeoutExpired] e); [by intros [= <-]|].
    destruct (Exc.catches [Exc.FileNotFoundError] e); [by intros [= <-]|].
    destruct (Exc.catches [Exc.OSError] e); [by intros [= <-]|]. done.
Qed.

Lemma lit_matches (text : string) (p : Re.Pattern) (s g : string) :
  Re.match_here (Re.lit text ++ p) (text +:+ s) g = Re.match_here p s g.
Proof.
  induction text as [|c text IH]; [done|].
  cbn [Re.lit app Re.match_here]. unfold Re.atom_matches.
  change (String c text +:+ s) with (String c (text +:+ s)). cbv iota.
  by rewrite Ascii.eqb_refl.
Qed.

Lemma plus_matches_one (a : Re.Atom) (p : Re.Pattern) (c : ascii) (s g : string) :
  Re.atom_matches a c = true →
  match s with
  | String c' _ => Re.atom_matches a c' = false
  | EmptyString => True
  end →
  Re.match_here (Re.Plus a :: p) (String c s) g = Re.match_here p s g.
Proof.
  intros Hc Hs. simpl. rewrite Hc. destruct s as [|c' s]; [done|].
  by rewrite Hs.
Qed.

Lemma digit_is_not_space (c : ascii) :
  Py.isdigit c = true → Py.isspace c = false.
Proof. destruct c as [[] [] [] [] [] [] [] []]; by vm_compute. Qed.

Lemma string_app_assoc (s t u : string) : (s +:+ t) +:+ u = s +:+ t +:+ u.
Proof.
  induction s as [|c s IH]; [done|].
  change (String c ((s +:+ t) +:+ u) = String c (s +:+ t +:+ u)).
  by rewrite IH.
Qed.

(** The group takes all the digits when the rest of the pattern matches
    what follows them. *)
Lemma group_takes_digits (p : Re.Pattern) (digits s g : string) :
  all_digits digits = true → digits ≠ "" →
  match s with
  | String c _ => Py.isdigit c = false
  | EmptyString => True
  end →
  Re.match_here p s digits = Some g →
  Re.match_here (Re.Group Re.Digit :: p) (digits +:+ s) "" = Some g.
Proof.
  intros Hdigits Hne Hs Hrest.
  assert (Hloop : ∀ ds taken, all_digits ds = true → ds ≠ "" →
    Re.match_here p s (taken +:+ ds) = Some g →
    (fix more (s : string) (taken : string) : option string :=
       match s with
       | String c s' =>
           if Re.atom_matches Re.Digit c then
             let taken' := taken +:+ String c "" in
             match more s' taken' with
             | Some g => Some g
             | None => Re.match_here p s' taken'
             end
           else None
       | EmptyString => None
       end) (ds +:+ s) taken = Some g).
  { clear digits Hdigits Hne Hrest.
    induction ds as [|d ds IHds]; intros taken Hds Hne Hrest; [done|].
    simpl in Hds. apply andb_prop in Hds as [Hd Hds].
    simpl. rewrite Hd. destruct ds as [|d' ds].
    - change ("" +:+ s) with s. destruct s as [|c s]; [done|].
      simpl. by rewrite Hs.
    - assert (Hnext := IHds (taken +:+ String d "") Hds).
      simpl in Hnext |- *. rewrite Hnext; [done | done |].
      by rewrite string_app_assoc. }
  by apply (Hloop digits "").
Qed.

(** A line ["Indexed N page..."] at the start of the output of Pagefind is
    read back as the number [N], for any string [N] of 1 to 4300 digits
    (the longest [int] converts by default), whatever follows. *)
Theorem indexed_pages_round_trip (digits rest : string) :
  all_digits digits = true → digits ≠ "" →
  (String.length digits ≤ 4300)%nat →
  _parse_page_count ("Indexed " +:+ digits +:+ " page" +:+ rest)
  = Returns (Py.int digits).
Proof.
  intros Hdigits Hne Hlength. unfold _parse_page_count.
  assert (Hsearch : Re.search INDEXED_PAGES
                      ("Indexed " +:+ digits +:+ " page" +:+ rest)
                    = Some digits);
    [| rewrite Hsearch; by apply int_within_limit ].
  assert (Hhere : Re.match_here INDEXED_PAGES
                    ("Indexed " +:+ digits +:+ " page" +:+ rest) ""
                  = Some digits).
  { destruct digits as [|d digits]; [done|].
    pose proof Hdigits as Hd. simpl in Hd. apply andb_prop in Hd as [Hd _].
    change (Re.match_here
              (Re.lit "Indexed"
               ++ Re.Plus Re.Space :: Re.Group Re.Digit :: Re.Plus Re.Space
                  :: Re.lit "page" ++ [])
              ("Indexed"
               +:+ String " " (String d digits
                               +:+ String " " ("page" +:+ rest))) ""
            = Some (String d digits)).
    rewrite lit_matches.
    rewrite plus_matches_one; [| done | by apply digit_is_not_space].
    apply group_takes_digits; [done | done | done |].
    rewrite plus_matches_one; [| done | done].
    by rewrite lit_matches. }
  destruct digits as [|d digits]; [done|].
  simpl in Hhere |- *. by rewrite Hhere.
Qed.

(** [is_available] is true exactly when the Python package, a [pagefind]
    on the [PATH] or an [npx] on the [PATH] is found (a path that is the
    empty string counts as not found).  The command found is never empty
    and ends with the word [pagefind]; it is the interpreter's module call
    exactly when the Python package is installed, whatever the [PATH]
    holds, and [npx] is used only when neither of the others is found. *)
Theorem pagefind_command_found (w : World) :
  is_available w
  = find_spec w "pagefind"
    || Py.truthy_opt (which w "pagefind") || Py.truthy_opt (which w "npx")
  ∧ match _find_pagefind_command w with
    | None => is_available w = false
    | Some pagefind_cmd =>
        last pagefind_cmd = Some "pagefind"
        ∧ (find_spec w "pagefind" = true ↔
           pagefind_cmd = [sys_executable w; "-m"; "pagefind"])
        ∧ (find_spec w "pagefind" = false →
           Py.truthy_opt (which w "pagefind") = true →
           pagefind_cmd = ["pagefind"])
    end.
Proof.
  unfold is_available, _find_pagefind_command, _check_python_pagefind,
    PAGEFIND_CLI.
  destruct (find_spec w "pagefind"); simpl; [done|].
  destruct (Py.truthy_opt (which w "pagefind")); simpl.
  { split; [done|]. split; [done|]. by split. }
  destruct (which w "npx") as [npx|]; simpl; [|done].
  destruct (Py.truthy npx); simpl; [|done].
  split; [done|]. split; [done|]. by split.
Qed.

End PagefindMore.

(* ===================================================================== *)
(** * Further properties of the theme registries *)
(* ===================================================================== *)

Section ThemesMore.

Import Themes.

Lemma unsupported_theme (theme : string) :
  ¬ In theme SUPPORTED_THEMES →
  THEME_SELECTORS !! theme = None
  ∧ SEARCH_PLACEMENT_SELECTORS !! theme = None
  ∧ THEME_CONFIGS !! theme = None.
Proof.
  intros Hnot.
  assert (Hne : Forall (λ known, known ≠ theme) SUPPORTED_THEMES).
  { apply Forall_forall. intros known Hin <-. apply Hnot.
    by apply list_elem_of_In. }
  repeat (apply Forall_cons_1 in Hne as [? Hne]).
  unfold THEME_SELECTORS, SEARCH_PLACEMENT_SELECTORS, THEME_CONFIGS.
  cbn [list_to_map foldr uncurry fst snd].
  rewrite !lookup_insert_ne by done. by rewrite !lookup_empty.
Qed.

Ltac each_theme Hin :=
  unfold SUPPORTED_THEMES in Hin;
  repeat (destruct Hin as [<- | Hin]; [vm_compute | ]); [.. | destruct Hin].

(** The locator of [themes.py] always has a selector to try: whatever the
    configuration, [get_content_selectors_for_app] returns a non-empty list
    (an empty list of custom selectors counts as none).  Its first
    selector is the first custom selector when there is one. *)
Theorem app_content_selectors_are_never_empty (config : Config.Config) :
  get_content_selectors_for_app config ≠ []
  ∧ match Config.typesense_content_selectors config with
    | Some (first :: _) => head (get_content_selectors_for_app config) = Some first
    | _ =>
        get_content_selectors_for_app config
        = get_content_selectors (Config.html_theme config) None
    end.
Proof.
  unfold get_content_selectors_for_app.
  destruct (Config.typesense_content_selectors config) as [[|first custom]|];
    simpl; [| done |].
  all: split; [|done].
  all: destruct (Config.html_theme config) as [theme|]; simpl; [|done].
  all: destruct (Py.truthy theme); [|done].
  all: destruct (decide (In theme SUPPORTED_THEMES)) as [Hin|Hnot];
    [ each_theme Hin; done
    | by destruct (unsupported_theme theme Hnot) as (-> & _ & _) ].
Qed.

(** The three registries of [themes.py] know the same themes, and what
    [get_theme_config] returns agrees with the two other look-ups: its
    first search container selector is the placement
    [get_search_container_selector] returns, its content selectors are
    among those of [get_content_selectors] and start with the same one,
    and its name is the configured theme when that theme is supported and
    [default] otherwise.  It warns exactly about a non-empty theme name
    that is not supported. *)
Theorem theme_config_agrees_with_registries (config : Config.Config) :
  let theme_name := Config.html_theme config in
  let theme_config := fst (get_theme_config config) in
  let warned := snd (get_theme_config config) in
  (∀ theme,
     (is_Some (THEME_CONFIGS !! theme) ↔ In theme SUPPORTED_THEMES)
     ∧ (is_Some (THEME_SELECTORS !! theme) ↔ In theme SUPPORTED_THEMES)
     ∧ (is_Some (SEARCH_PLACEMENT_SELECTORS !! theme) ↔ In theme SUPPORTED_THEMES))
  ∧ head (search_container_selectors theme_config)
    = Some (get_search_container_selector config)
  ∧ head (content_selectors theme_config)
    = head (get_content_selectors theme_name None)
  ∧ Forall (λ selector, In selector (get_content_selectors theme_name None))
           (content_selectors theme_config)
  ∧ name theme_config
    = match theme_name with
      | Some theme => if bool_decide (In theme SUPPORTED_THEMES)
                      then theme else "default"
      | None => "default"
      end
  ∧ warned
    = match theme_name with
      | Some theme => if bool_decide (theme ≠ "" ∧ ¬ In theme SUPPORTED_THEMES)
                      then Some theme else None
      | None => None
      end.
Proof.
  cbv zeta. split.
  { intros theme.
    destruct (decide (In theme SUPPORTED_THEMES)) as [Hin|Hnot].
    - assert (Hall : is_Some (THEME_CONFIGS !! theme)
                     ∧ is_Some (THEME_SELECTORS !! theme)
                     ∧ is_Some (SEARCH_PLACEMENT_SELECTORS !! theme)).
      { pose proof Hin as Hin'. unfold SUPPORTED_THEMES in Hin'.
        repeat (destruct Hin' as [<- | Hin'];
                  [vm_compute; repeat split; eauto|]).
        destruct Hin'. }
      destruct Hall as (? & ? & ?). by repeat split.
    - destruct (unsupported_theme theme Hnot) as (-> & -> & ->).
      repeat split; try done; by intros [? [=]]. }
  assert (Hamong :
    Forall (λ selector, In selector DEFAULT_CONTENT_SELECTORS)
           (content_selectors _get_default_config)).
  { apply List.Forall_forall. by intros selector Hin. }
  unfold get_theme_config, get_search_container_selector,
    get_search_placement, get_content_selectors.
  destruct (Config.html_theme config) as [theme|]; [|done].
  destruct (decide (In theme SUPPORTED_THEMES)) as [Hin|Hnot].
  - rewrite (bool_decide_eq_true_2 _ Hin).
    rewrite bool_decide_eq_false_2 by tauto.
    clear Hamong.
    each_theme Hin;
      (split; [done|]); (split; [done|]); (split; [|done]);
      repeat (apply List.Forall_cons; [by auto 10|]); apply List.Forall_nil.
  - destruct (unsupported_theme theme Hnot) as (Hsel & Hplace & Hconf).
    rewrite Hsel, Hplace, Hconf.
    rewrite (bool_decide_eq_false_2 _ Hnot).
    destruct theme as [|c theme].
    + by rewrite bool_decide_eq_false_2 by (intros [? _]; done).
    + by rewrite bool_decide_eq_true_2 by done.
Qed.

(** With no explicit [typesense_replace_search], the default search is
    replaced exactly when no theme is configured or the configured theme
    is a supported one; an explicit setting wins over the theme. *)
Theorem replace_search_follows_theme_support (replace_config : option bool)
    (config : Config.Config) :
  should_replace_search replace_config config
  = match replace_config with
    | Some replace => replace
    | None =>
        bool_decide (Config.html_theme config = None
                     ∨ name (fst (get_theme_config config)) ≠ "default")
    end.
Proof.
  unfold should_replace_search, get_theme_config.
  destruct replace_config as [replace|]; [done|].
  destruct (Config.html_theme config) as [theme|];
    [| by rewrite bool_decide_eq_true_2 by auto ].
  destruct (decide (In theme SUPPORTED_THEMES)) as [Hin|Hnot].
  - each_theme Hin; done.
  - destruct (unsupported_theme theme Hnot) as (_ & _ & Hconf). rewrite Hconf.
    rewrite bool_decide_eq_false_2 by (by intros [? [=]]).
    symmetry. apply bool_decide_eq_false_2.
    destruct (Py.truthy theme); simpl; intros [[=]|Hname]; done.
Qed.

End ThemesMore.

(* ===================================================================== *)
(** * Properties of the validation of the configuration *)
(* ===================================================================== *)

Section ValidationMore.

Import Validation.

Implicit Types (environ : gmap string string) (config : Settings).

Lemma in_list_spec (x : string) (xs : list string) :
  Py.in_list x xs = true ↔ In x xs.
Proof.
  unfold Py.in_list. rewrite existsb_exists. split.
  - intros (y & Hin & Heq). apply String.eqb_eq in Heq. by subst.
  - intros Hin. exists x. by rewrite String.eqb_refl.
Qed.

Lemma resolved_key_truthy (key : string) (fallback : option string) :
  Py.truthy (Py.or_str key (default "" fallback))
  = Py.truthy key || Py.truthy_opt fallback.
Proof.
  unfold Py.or_str. destruct (Py.truthy key) eqn:Hkey; [done|].
  by destruct fallback.
Qed.

Lemma resolved_key_fixed (key : string) (fallback : option string) :
  Py.or_str (Py.or_str key (default "" fallback)) (default "" fallback)
  = Py.or_str key (default "" fallback).
Proof.
  unfold Py.or_str. destruct (Py.truthy key) eqn:Hkey; [by rewrite Hkey|].
  destruct fallback as [k|]; simpl; [|done]. by destruct (Py.truthy k).
Qed.

Lemma effective_backend_resolved environ config search_api_key :
  Config.get_effective_backend environ
    (core (set_keys config
             (Py.or_str (Config.typesense_api_key (core config))
                        (default "" (environ !! Config.ENV_API_KEY)))
             search_api_key))
  = Config.get_effective_backend environ (core config).
Proof.
  unfold Config.get_effective_backend. simpl.
  destruct (String.eqb _ "auto"); [|done].
  rewrite resolved_key_truthy.
  by destruct (Py.truthy _), (Py.truthy_opt _).
Qed.

Lemma validate_backend_spec config :
  _validate_backend config = None
  ↔ In (Config.typesense_backend (core config)) Config.VALID_BACKENDS.
Proof.
  unfold _validate_backend. rewrite <- in_list_spec.
  by destruct (Py.in_list _ _).
Qed.

Lemma validate_protocol_spec config :
  _validate_protocol config = None
  ↔ In (typesense_protocol config) VALID_PROTOCOLS.
Proof.
  unfold _validate_protocol. rewrite <- in_list_spec.
  by destruct (Py.in_list _ _).
Qed.

Lemma validate_numeric_settings_spec config :
  _validate_numeric_settings config = None ↔ valid_numbers config.
Proof.
  unfold _validate_numeric_settings, valid_numbers, MIN_NUM_TYPOS,
    MAX_NUM_TYPOS.
  destruct (typesense_num_typos config) as [typos|];
    [| split; [done | by intros [(n & [=] & _) _]] ].
  destruct (Z.ltb_spec typos 0); simpl;
    [ split; [done | intros [(n & [= <-] & ?) _]; lia] |].
  destruct (Z.ltb_spec 2 typos); simpl;
    [ split; [done | intros [(n & [= <-] & ?) _]; lia] |].
  destruct (typesense_per_page config) as [per_page|];
    [| split; [done | by intros [_ (n & [=] & _)]] ].
  destruct (Z.ltb_spec per_page 1);
    [ split; [done | intros [_ (n & [= <-] & ?)]; lia] |].
  split; [|done]. intros _. split; eexists; (split; [done | lia]).
Qed.

Lemma validate_required_settings_spec config api_key search_api_key :
  _validate_required_settings config api_key search_api_key = None
  ↔ typesense_host config ≠ "" ∧ typesense_port config ≠ ""
    ∧ typesense_protocol config ≠ "" ∧ api_key ≠ "" ∧ search_api_key ≠ "".
Proof.
  unfold _validate_required_settings. rewrite <- !truthy_spec.
  destruct (Py.truthy (typesense_host config)),
    (Py.truthy (typesense_port config)),
    (Py.truthy (typesense_protocol config)),
    (Py.truthy api_key), (Py.truthy search_api_key); simpl;
    split; try done; intros (? & ? & ? & ? & ?); done.
Qed.

Lemma in_valid_backends (environ : gmap string string) (c : Config.Config) :
  In (Config.typesense_backend c) Config.VALID_BACKENDS →
  Config.get_effective_backend environ c = "typesense"
  ∨ Config.get_effective_backend environ c = "pagefind".
Proof.
  unfold Config.get_effective_backend, Config.VALID_BACKENDS.
  intros [<- | [<- | [<- | []]]]; simpl; auto.
  destruct (_ || _); auto.
Qed.

(** [validate_config] accepts a configuration exactly when its backend is
    one of [auto], [typesense] and [pagefind] and, unless indexing is
    disabled, the protocol is [http] or [https], the numeric settings are
    in range and, if the effective backend is Typesense, the host, the
    port and both API keys are there, each key in the configuration or in
    its environment variable.  With indexing disabled nothing but the
    backend name is checked. *)
Theorem validation_accepts_iff environ config :
  raised (validate_config environ config) = None
  ↔ In (Config.typesense_backend (core config)) Config.VALID_BACKENDS
    ∧ (typesense_enable_indexing config = true →
       In (typesense_protocol config) VALID_PROTOCOLS
       ∧ valid_numbers config
       ∧ (Config.get_effective_backend environ (core config) = "typesense" →
          complete_for_typesense environ config)).
Proof.
  unfold validate_config.
  pose proof (validate_backend_spec config) as Hbackend.
  destruct (_validate_backend config) as [e|];
    [ split; [done | intros [Hin _]; by apply Hbackend in Hin] |].
  assert (Hin : In (Config.typesense_backend (core config)) Config.VALID_BACKENDS)
    by by apply Hbackend.
  clear Hbackend. cbv zeta.
  change (typesense_enable_indexing (set_keys config _ _))
    with (typesense_enable_indexing config).
  destruct (typesense_enable_indexing config); cbn [negb]; [|done].
  rewrite effective_backend_resolved.
  set (api_key := Py.or_str (Config.typesense_api_key (core config)) _).
  set (search_api_key := Py.or_str (typesense_search_api_key config) _).
  set (resolved := set_keys config api_key search_api_key).
  pose proof (validate_protocol_spec resolved) as Hprotocol.
  pose proof (validate_numeric_settings_spec resolved) as Hnumbers.
  pose proof (validate_required_settings_spec resolved api_key search_api_key)
    as Hrequired.
  change (typesense_protocol resolved) with (typesense_protocol config)
    in Hprotocol, Hrequired.
  change (valid_numbers resolved) with (valid_numbers config) in Hnumbers.
  change (typesense_host resolved) with (typesense_host config) in Hrequired.
  change (typesense_port resolved) with (typesense_port config) in Hrequired.
  assert (Hadmin : api_key ≠ "" ↔ admin_key_present environ (core config)).
  { rewrite <- truthy_spec, <- admin_key_present_spec.
    subst api_key. by rewrite resolved_key_truthy. }
  assert (Hsearch : search_api_key ≠ "" ↔ search_key_present environ config).
  { rewrite <- truthy_spec. subst search_api_key.
    rewrite resolved_key_truthy, orb_true_iff, truthy_spec, truthy_opt_spec.
    done. }
  rewrite Hadmin, Hsearch in Hrequired.
  unfold complete_for_typesense.
  destruct (in_valid_backends environ (core config) Hin) as [-> | ->];
    cbn [String.eqb Ascii.eqb Bool.eqb].
  - destruct (_validate_required_settings resolved _ _) as [e|];
      cbn [raised].
    { split; [done|]. intros [_ Hall].
      destruct (Hall eq_refl) as (Hp & _ & Hcomplete).
      destruct (Hcomplete eq_refl) as (? & ? & ? & ?).
      assert (typesense_protocol config ≠ "")
        by (intros Heq; rewrite Heq in Hp; by destruct Hp as [|[|[]]]).
      apply Hrequired. tauto. }
    destruct (_validate_protocol resolved) as [e|]; cbn [raised].
    { split; [done|]. intros [_ Hall].
      destruct (Hall eq_refl) as (Hp & _). by apply Hprotocol in Hp. }
    split.
    + intros Hok. split; [done|]. intros _.
      split; [by apply Hprotocol|]. split; [by apply Hnumbers|].
      intros _. assert (Hnone : @None ConfigError = None) by done.
      apply Hrequired in Hnone. tauto.
    + intros [_ Hall]. destruct (Hall eq_refl) as (_ & Hn & _).
      by apply Hnumbers.
  - destruct (_validate_protocol resolved) as [e|]; cbn [raised].
    { split; [done|]. intros [_ Hall].
      destruct (Hall eq_refl) as (Hp & _). by apply Hprotocol in Hp. }
    split.
    + intros Hok. split; [done|]. intros _.
      split; [by apply Hprotocol|]. split; [by apply Hnumbers|]. done.
    + intros [_ Hall]. destruct (Hall eq_refl) as (_ & Hn & _).
      by apply Hnumbers.
Qed.

Lemma validate_config_after environ config :
  _validate_backend config = None →
  config_after (validate_config environ config)
  = set_keys config
      (Py.or_str (Config.typesense_api_key (core config))
                 (default "" (environ !! Config.ENV_API_KEY)))
      (Py.or_str (typesense_search_api_key config)
                 (default "" (environ !! ENV_SEARCH_API_KEY))).
Proof.
  intros Hbackend. unfold validate_config. rewrite Hbackend. cbv zeta.
  repeat match goal with
         | |- context [if ?c then _ else _] => destruct c
         | |- context [match ?m with Some _ => _ | None => _ end] => destruct m
         end; done.
Qed.

(** [validate_config] resolves the API keys once and for all: a key of
    [conf.py] is kept, a missing one is taken from the environment, and
    validating the resulting configuration again changes nothing and gives
    the same verdict.  The effective backend is the same before and after,
    and once an admin key was found it no longer depends on the
    environment. *)
Theorem validation_resolves_keys_once environ config :
  let validated := validate_config environ config in
  validate_config environ (config_after validated) = validated
  ∧ Config.get_effective_backend environ (core (config_after validated))
    = Config.get_effective_backend environ (core config)
  ∧ (∀ environ' : gmap string string,
       admin_key_present environ (core config) →
       Config.get_effective_backend environ' (core (config_after validated))
       = Config.get_effective_backend environ (core config))
  ∧ (Config.typesense_api_key (core config) ≠ "" →
     Config.typesense_api_key (core (config_after validated))
     = Config.typesense_api_key (core config)).
Proof.
  cbv zeta. destruct (_validate_backend config) as [e|] eqn:Hbackend.
  - assert (Hsame : validate_config environ config
                    = {| raised := Some e; config_after := config;
                         key_warning := false |}).
    { unfold validate_config. by rewrite Hbackend. }
    rewrite Hsame. cbn [config_after]. split; [done|]. split; [done|].
    split; [|done]. intros environ' _.
    unfold _validate_backend in Hbackend. unfold Config.get_effective_backend.
    destruct (String.eqb_spec (Config.typesense_backend (core config)) "auto")
      as [Hauto|]; [|done].
    rewrite Hauto in Hbackend. done.
  - rewrite (validate_config_after environ config Hbackend).
    split; [|split; [|split]].
    + unfold validate_config at 1.
      change (_validate_backend (set_keys config _ _))
        with (_validate_backend config).
      rewrite Hbackend. cbv zeta.
      cbn [core set_keys Config.typesense_api_key typesense_search_api_key].
      rewrite !resolved_key_fixed.
      unfold validate_config. by rewrite Hbackend.
    + apply effective_backend_resolved.
    + intros environ' Hpresent. apply admin_key_present_spec in Hpresent.
      unfold Config.get_effective_backend. simpl.
      destruct (String.eqb _ "auto"); [|done].
      by rewrite resolved_key_truthy, Hpresent.
    + intros Hkey. apply truthy_spec in Hkey. simpl.
      unfold Py.or_str. by rewrite Hkey.
Qed.

(** When settings of the Typesense backend are missing, [validate_config]
    reports all of them at once: the error names the host, the port, the
    protocol, the admin key and the search key exactly when each is
    missing, a key being missing when it is neither in the configuration
    nor in its environment variable. *)
Theorem validation_reports_every_missing_setting environ config missing :
  raised (validate_config environ config) = Some (MissingConfiguration missing) →
  missing ≠ []
  ∧ (In "typesense_host" missing ↔ typesense_host config = "")
  ∧ (In "typesense_port" missing ↔ typesense_port config = "")
  ∧ (In "typesense_protocol" missing ↔ typesense_protocol config = "")
  ∧ (In "typesense_api_key (or TYPESENSE_API_KEY environment variable)" missing
     ↔ ¬ admin_key_present environ (core config))
  ∧ (In "typesense_search_api_key (or TYPESENSE_SEARCH_API_KEY environment variable)"
        missing
     ↔ ¬ search_key_present environ config).
Proof.
  unfold validate_config.
  destruct (_validate_backend config) as [e|] eqn:Hbackend.
  { unfold _validate_backend in Hbackend. cbn [raised].
    destruct (Py.in_list _ _); simpl in Hbackend; [done|].
    injection Hbackend as <-. done. }
  cbv zeta.
  change (typesense_enable_indexing (set_keys config _ _))
    with (typesense_enable_indexing config).
  destruct (typesense_enable_indexing config); cbn [negb]; [|done].
  set (api_key := Py.or_str (Config.typesense_api_key (core config)) _).
  set (search_api_key := Py.or_str (typesense_search_api_key config) _).
  set (resolved := set_keys config api_key search_api_key).
  assert (Hprotocol : ∀ e, _validate_protocol resolved = Some e →
                           e ≠ MissingConfiguration missing).
  { intros e. unfold _validate_protocol.
    destruct (Py.in_list _ _); simpl; [done|]. by intros [= <-]. }
  assert (Hnumbers : _validate_numeric_settings resolved
                     ≠ Some (MissingConfiguration missing)).
  { unfold _validate_numeric_settings.
    repeat match goal with
           | |- context [if ?c then _ else _] => destruct c
           end; done. }
  destruct (String.eqb _ "pagefind").
  { destruct (_validate_protocol resolved) as [e|] eqn:Hp; cbn [raised];
      [|done].
    intros [= ->]. by destruct (Hprotocol _ eq_refl). }
  destruct (_validate_required_settings resolved api_key search_api_key)
    as [e|] eqn:Hrequired.
  2: { destruct (_validate_protocol resolved) as [e|] eqn:Hp; cbn [raised];
         [|done].
       intros [= ->]. by destruct (Hprotocol _ eq_refl). }
  cbn [raised]. intros [= ->]. clear Hprotocol Hnumbers.
  unfold _validate_required_settings in Hrequired.
  change (typesense_host resolved) with (typesense_host config) in Hrequired.
  change (typesense_port resolved) with (typesense_port config) in Hrequired.
  change (typesense_protocol resolved) with (typesense_protocol config)
    in Hrequired.
  rewrite <- !truthy_false.
  assert (Hadmin : ¬ admin_key_present environ (core config)
                   ↔ Py.truthy api_key = false).
  { rewrite <- admin_key_present_spec. subst api_key.
    rewrite resolved_key_truthy. by destruct (_ || _). }
  assert (Hsearch : ¬ search_key_present environ config
                    ↔ Py.truthy search_api_key = false).
  { unfold search_key_present.
    rewrite <- truthy_spec, <- truthy_opt_spec, <- orb_true_iff.
    subst search_api_key. rewrite resolved_key_truthy. by destruct (_ || _). }
  rewrite Hadmin, Hsearch.
  clearbody api_key search_api_key. clear resolved Hadmin Hsearch.
  destruct (Py.truthy (typesense_host config)),
    (Py.truthy (typesense_port config)),
    (Py.truthy (typesense_protocol config)),
    (Py.truthy api_key), (Py.truthy search_api_key);
    simpl in Hrequired; simplify_eq; (split; [done|]);
    repeat split; intros Hin; try done;
    vm_compute in Hin |- *; auto 10;
    repeat (destruct Hin as [Hin|Hin]; try done).
Qed.

(** The warning about identical keys is logged only for the Typesense
    backend with indexing enabled, about two resolved keys that are equal
    and not empty; and whenever such a configuration is accepted, it is
    logged exactly when the two resolved keys are equal. *)
Theorem identical_keys_are_warned_about environ config :
  let validated := validate_config environ config in
  let resolved := config_after validated in
  (key_warning validated = true →
     Config.typesense_api_key (core resolved) = typesense_search_api_key resolved
     ∧ Config.typesense_api_key (core resolved) ≠ ""
     ∧ Config.get_effective_backend environ (core config) = "typesense"
     ∧ typesense_enable_indexing config = true)
  ∧ (raised validated = None →
     typesense_enable_indexing config = true →
     Config.get_effective_backend environ (core config) = "typesense" →
     (key_warning validated = true ↔
      Config.typesense_api_key (core resolved)
      = typesense_search_api_key resolved)).
Proof.
  cbv zeta.
  destruct (_validate_backend config) as [e|] eqn:Hbackend.
  { unfold validate_config. rewrite Hbackend. cbn. done. }
  rewrite (validate_config_after environ config Hbackend).
  assert (Hin : In (Config.typesense_backend (core config)) Config.VALID_BACKENDS)
    by by apply validate_backend_spec.
  unfold validate_config. rewrite Hbackend. cbv zeta.
  change (typesense_enable_indexing (set_keys config _ _))
    with (typesense_enable_indexing config).
  rewrite effective_backend_resolved.
  set (api_key := Py.or_str (Config.typesense_api_key (core config)) _).
  set (search_api_key := Py.or_str (typesense_search_api_key config) _).
  set (resolved := set_keys config api_key search_api_key).
  change (Config.typesense_api_key (core resolved)) with api_key.
  change (typesense_search_api_key resolved) with search_api_key.
  destruct (typesense_enable_indexing config); cbn [negb]; [|done].
  destruct (in_valid_backends environ (core config) Hin) as [-> | ->];
    cbn [String.eqb Ascii.eqb Bool.eqb].
  2: { by destruct (_validate_protocol resolved). }
  pose proof (validate_required_settings_spec resolved api_key search_api_key)
    as Hrequired.
  destruct (_validate_required_settings resolved api_key search_api_key)
    as [e|]; [done|].
  assert (Hkeys : api_key ≠ "" ∧ search_api_key ≠ "").
  { assert (Hnone : @None ConfigError = None) by done.
    apply Hrequired in Hnone. tauto. }
  destruct Hkeys as [Hadmin Hsearch].
  destruct (_validate_protocol resolved) as [e|]; [done|]. cbn.
  unfold _check_key_security.
  apply truthy_spec in Hadmin as Hadmin'. apply truthy_spec in Hsearch as Hsearch'.
  rewrite Hadmin', Hsearch'. cbn [andb].
  destruct (String.eqb_spec api_key search_api_key) as [Heq|Hne].
  - split; [done|]. intros _ _ _. done.
  - split; [done|]. intros _ _ _. split; [done|]. intros Heq. by destruct Hne.
Qed.

End ValidationMore.

(* ===================================================================== *)
(** * Properties of the search container and of the event handlers *)
(* ===================================================================== *)

Lemma lstrip_hashes (s : string) :
  ∃ n, s = hashes n +:+ Templates.lstrip_chars "#" s
       ∧ String.prefix "#" (Templates.lstrip_chars "#" s) = false.
Proof.
  induction s as [|c s (n & Hs & Hprefix)]; [by exists O|].
  cbn [Templates.lstrip_chars list_ascii_of_string existsb].
  destruct (Ascii.eqb_spec c "#") as [->|Hc]; cbn [orb].
  - exists (S n). split; [|done].
    change (String "#" s = String "#" (hashes n +:+ Templates.lstrip_chars "#" s)).
    by rewrite <- Hs.
  - exists O. split; [done|]. cbn [String.prefix].
    by destruct (ascii_dec "#" c) as [<-|_].
Qed.

(** The [id] of the search container is the configured container without
    its leading [#] characters, all of them: it never starts with [#], and
    a container that does not start with [#] is taken as it is.  The
    element is a [div] with that [id], written between double quotes as it
    is. *)
Theorem search_container_id_has_no_hash (config : Config.Config) :
  ∃ (n : nat) (container_id : string),
    Config.typesense_container config = hashes n +:+ container_id
    ∧ String.prefix "#" container_id = false
    ∧ Templates.get_search_container_html config
      = "<div id=" +:+ String (ascii_of_nat 34) container_id
        +:+ String (ascii_of_nat 34) "></div>".
Proof.
  unfold Templates.get_search_container_html, Templates.container_id.
  destruct (String.prefix "#" (Config.typesense_container config)) eqn:Hprefix.
  - destruct (lstrip_hashes (Config.typesense_container config))
      as (n & Hcontainer & Hid).
    by exists n, (Templates.lstrip_chars "#" (Config.typesense_container config)).
  - by exists O, (Config.typesense_container config).
Qed.

Section HandlersMore.

Context {Tag : Type} `{!Bs4.Soup Tag}.

Import TypesenseBackend.

Implicit Types (app : Application) (w : World Tag).



(** What the handler of [indexer.py] catches it logs under a message of
    its own: the last branch of [_log_indexing_error], the unexpected
    error, is never taken for an exception of the [except] clause.  Errors
    of the operating system are told apart from those of the network, and
    the handler logs at most one warning. *)
Theorem caught_errors_are_never_unexpected (other : Exc.t → bool)
    app w (exception : option Exc.t) :
  (∀ e, Indexer.handled other e = true →
        ∀ msg, Indexer._log_indexing_error other e ≠ Indexer.LogUnexpectedError msg)
  ∧ (∀ e, Exc.cls e = Exc.FileNotFoundError ∨ Exc.cls e = Exc.OSError →
          Indexer._log_indexing_error other e = Indexer.LogSystemError (Exc.msg e))
  ∧ (∀ e, Exc.cls e = Exc.ConnectionError ∨ Exc.cls e = Exc.TimeoutError →
          Indexer._log_indexing_error other e
          = Indexer.LogNetworkError (Exc.cls e))
  ∧ (length (Indexer.logs (Indexer.index_documents other app w exception)) ≤ 1)%nat
  ∧ Forall (λ log, ∀ msg, log ≠ Indexer.LogUnexpectedError msg)
           (Indexer.logs (Indexer.index_documents other app w exception)).
Proof.
  assert (Hcaught : ∀ e, Indexer.handled other e = true →
    ∀ msg, Indexer._log_indexing_error other e ≠ Indexer.LogUnexpectedError msg).
  { intros [c m]. unfold Indexer.handled, Indexer._log_indexing_error,
      Indexer.is_client_error, Exc.catches.
    destruct c; simpl; try done. by destruct (other _). }
  split; [done|]. split; [|split; [|split]].
  - intros [c m] [Hc | Hc]; simpl in Hc; by subst c.
  - intros [c m] [Hc | Hc]; simpl in Hc; by subst c.
  - unfold Indexer.index_documents.
    repeat match goal with
           | |- context [match ?x with _ => _ end] => destruct x
           end; simpl; lia.
  - unfold Indexer.index_documents.
    destruct exception; [constructor|].
    destruct (Validation.typesense_enable_indexing _); [|constructor].
    destruct (Py.truthy _); cbn [negb]; [|by repeat constructor].
    destruct (index_all (sphinx_of app) w new_backend) as [[count|e] b];
      [constructor|].
    destruct (Indexer.handled other e) eqn:Hhandled; [|constructor].
    cbn [Indexer.logs]. repeat constructor. by apply Hcaught.
Qed.





End HandlersMore.

(* ===================================================================== *)
(** * The further properties on sample inputs *)
(* ===================================================================== *)

Lemma find_anchor_precedence_witness :
  TypesenseBackend._find_anchor MoreSamples.linked_h2 = "b".
Proof.
  assert (Hown : Py.truthy_opt (Bs4.get MoreSamples.linked_h2 "id") = false)
    by (vm_compute; reflexivity).
  assert (Hchild : Bs4.find MoreSamples.linked_h2 "a" "id"
                   = Some MoreSamples.linked_a)
    by (vm_compute; reflexivity).
  rewrite (proj1 (find_anchor_precedence MoreSamples.linked_h2 Hown)
             MoreSamples.linked_a Hchild).
  vm_compute. reflexivity.
Defined.

Lemma extracted_documents_are_well_formed_witness :
  ∃ d,
    head (TypesenseBackend._extract_documents Sample.app Sample.guide_file)
    = Some d
    ∧ well_formed
        (TypesenseBackend._get_relative_url Sample.app
           (TypesenseBackend.file_path Sample.guide_file)) d.
Proof.
  eexists. split; [vm_compute; reflexivity|].
  apply (extracted_documents_are_well_formed Sample.app Sample.guide_file).
  vm_compute. constructor.
Defined.

Lemma id_depends_on_url_and_content_start_witness :
  TypesenseBackend.doc_id
    (TypesenseBackend._create_document Sample.app
       (<["lvl0" := "Install"]> TypesenseBackend.initial_hierarchy)
       "" "guide.html" MoreSamples.plain_h1 "lvl0")
  = TypesenseBackend.doc_id
      (TypesenseBackend._create_document Sample.app
         (<["lvl1" := "Usage"]>
            (<["lvl0" := "Install"]> TypesenseBackend.initial_hierarchy))
         "" "guide.html" MoreSamples.plain_h2 "lvl1").
Proof.
  apply (id_depends_on_url_and_content_start Sample.app).
  - vm_compute. reflexivity.
  - reflexivity.
Defined.

Lemma connection_recovers_witness :
  TypesenseBackend._check_connection MoreSamples.recovering
    TypesenseBackend.new_backend
  = (Returns true,
     {| TypesenseBackend._server_available := Some true;
        TypesenseBackend.journal :=
          [ TypesenseBackend.EvHealth; TypesenseBackend.EvSleep 1;
            TypesenseBackend.EvHealth; TypesenseBackend.EvSleep 2;
            TypesenseBackend.EvHealth ] |}).
Proof.
  apply (connection_recovers MoreSamples.recovering 2%nat).
  - lia.
  - intros n Hn. destruct n as [|[|n]]; simpl; [auto | reflexivity | lia].
  - reflexivity.
Defined.

Lemma indexed_pages_round_trip_witness :
  PagefindBackend._parse_page_count ("Indexed " +:+ "42" +:+ " page" +:+ "s in 0.1s")
  = Returns 42.
Proof.
  rewrite (indexed_pages_round_trip "42" "s in 0.1s");
    [reflexivity | reflexivity | discriminate | simpl; lia].
Defined.

Lemma pagefind_count_is_not_negative_witness :
  PagefindBackend.index_all Sample.app Sample.pagefind_installed = Returns 25
  ∧ 0 ≤ 25.
Proof.
  assert (Hrun : PagefindBackend.index_all Sample.app Sample.pagefind_installed
                 = Returns 25) by (vm_compute; reflexivity).
  split; [exact Hrun|].
  exact (pagefind_count_is_not_negative Sample.app Sample.pagefind_installed
           25 Hrun).
Defined.

Lemma validation_reports_every_missing_setting_witness :
  ∃ missing,
    Validation.raised
      (Validation.validate_config MoreSamples.environ_with_admin_key
         MoreSamples.incomplete)
    = Some (Validation.MissingConfiguration missing)
    ∧ length missing = 2%nat
    ∧ (In "typesense_host" missing
       ↔ Validation.typesense_host MoreSamples.incomplete = "")
    ∧ (In "typesense_port" missing
       ↔ Validation.typesense_port MoreSamples.incomplete = "").
Proof.
  eexists. split; [vm_compute; reflexivity|]. split; [reflexivity|].
  split.
  - apply (validation_reports_every_missing_setting
             MoreSamples.environ_with_admin_key MoreSamples.incomplete).
    vm_compute. reflexivity.
  - apply (validation_reports_every_missing_setting
             MoreSamples.environ_with_admin_key MoreSamples.incomplete).
    vm_compute. reflexivity.
Defined.


Lemma C10_count_ignores_item_failures_witness :
  fst (TypesenseBackend.index_all Sample.app Sample.partial_import
         TypesenseBackend.new_backend) = Returns 2
  ∧ List.filter
      (λ ev, match ev with TypesenseBackend.EvWarning _ => true | _ => false end)
      (TypesenseBackend.journal
         (snd (TypesenseBackend.index_all Sample.app Sample.partial_import
                 TypesenseBackend.new_backend)))
    = [ TypesenseBackend.EvWarning (TypesenseBackend.WarnDocumentFailed "Bad JSON.");
        TypesenseBackend.EvWarning (TypesenseBackend.WarnImportErrors 1) ].
Proof.
  assert (Hcalled :
    import_called TypesenseBackend.new_backend
      (snd (TypesenseBackend.index_all Sample.app Sample.partial_import
              TypesenseBackend.new_backend))
      (flat_map (TypesenseBackend._extract_documents Sample.app)
                (TypesenseBackend.html_files Sample.partial_import))).
  { exists (TypesenseBackend.journal
              (snd (TypesenseBackend.index_all Sample.app Sample.partial_import
                      TypesenseBackend.new_backend))).
    split; [reflexivity|]. vm_compute. auto 10. }
  assert (Himport :
    TypesenseBackend.documents_import Sample.partial_import
      (flat_map (TypesenseBackend._extract_documents Sample.app)
                (TypesenseBackend.html_files Sample.partial_import))
    = Returns
        [ {| TypesenseBackend.item_success := Some true;
             TypesenseBackend.item_error := None |};
          {| TypesenseBackend.item_success := Some false;
             TypesenseBackend.item_error := Some "Bad JSON." |} ])
    by (vm_compute; reflexivity).
  destruct (C10_count_ignores_item_failures Sample.app Sample.partial_import
              TypesenseBackend.new_backend _ Hcalled Himport)
    as (_ & Hrun & _).
  split.
  - rewrite Hrun. vm_compute. reflexivity.
  - vm_compute. reflexivity.
Defined.
